(** * MeterReader: the 7-segment decoding pipeline and the CSV codec

    A shallow embedding of the pure logic of the MeterReader client:

    - the hook [useOpenCV]: [preprocessImage], [detectDisplay],
      [analyzeSegments], [segmentsToDigit], [processImage];
    - [client/src/lib/opencv-service.ts]: [formatReadingValue],
      [calculateConfidence];
    - [client/src/lib/csv-service.ts]: [generateCSV], [parseCSV],
      [parseCSVLine], [escapeCsvField].

    Conventions of the embedding.

    - A JavaScript string is a [string]; each [ascii] stands for one UTF-16
      code unit below 256 (the Latin-1 range).
    - A JavaScript [number] that the code divides or multiplies by a
      fraction is a binary64 [float] (Rocq's primitive floats are IEEE 754
      doubles, as JavaScript's are).  Integer-valued numbers (pixel
      coordinates, counts, lengths) are [Z] or [nat]; they enter float
      expressions through [Z2F].
    - [throw] / [try ... catch] use the [Completion] type.
    - The vision library and the [Date] object of the platform are not part
      of the repository: they are Section variables. *)

From Stdlib Require Import ZArith List Bool Ascii String Lia Floats.
From Stdlib Require Import Permutation Sorted DecimalString.
Import ListNotations.

Set Warnings "-inexact-float".

Open Scope string_scope.

(* ================================================================== *)
(** * JavaScript primitives used by the code *)
(* ================================================================== *)

Module JS.

(** Characters that cannot be written inside a literal. *)
Definition LF : ascii := "010"%char.
Definition DQUOTE : ascii := "034"%char.

(** [WhiteSpace] and [LineTerminator] code units below 256: TAB, LF, VT, FF,
    CR, SP and NBSP.  These are what [String.prototype.trim] removes. *)
Definition isWhiteSpace (c : ascii) : bool :=
  let n := nat_of_ascii c in
  ((9 <=? n) && (n <=? 13) || (n =? 32) || (n =? 160))%nat.

Fixpoint trimStart (s : string) : string :=
  match s with
  | "" => ""
  | String c r => if isWhiteSpace c then trimStart r else s
  end.

Fixpoint trimEnd (s : string) : string :=
  match s with
  | "" => ""
  | String c r =>
      match trimEnd r with
      | "" => if isWhiteSpace c then "" else String c ""
      | r' => String c r'
      end
  end.

(** [s.trim()] *)
Definition trim (s : string) : string := trimEnd (trimStart s).

(** [c.toLowerCase()] on one code unit below 256: A-Z, and the Latin-1
    capitals 192-222 except the multiplication sign 215. *)
Definition lowerChar (c : ascii) : ascii :=
  let n := nat_of_ascii c in
  if ((65 <=? n) && (n <=? 90))%nat then ascii_of_nat (n + 32)
  else if ((192 <=? n) && (n <=? 222) && negb (n =? 215))%nat
       then ascii_of_nat (n + 32)
  else c.

Fixpoint toLowerCase (s : string) : string :=
  match s with
  | "" => ""
  | String c r => String (lowerChar c) (toLowerCase r)
  end.

(** [s.split(sep)] for a one-character separator: never the empty array. *)
Fixpoint split (sep : ascii) (s : string) : list string :=
  match s with
  | "" => [""]
  | String c r =>
      if Ascii.eqb c sep then "" :: split sep r
      else match split sep r with
           | p :: ps => String c p :: ps
           | [] => [String c ""]
           end
  end.

(** [arr.join(sep)] *)
Definition join (sep : string) (l : list string) : string :=
  String.concat sep l.

(** [arr.includes(x)] on an array of strings. *)
Definition includes (l : list string) (x : string) : bool :=
  existsb (String.eqb x) l.

(** [s.includes(c)] for a one-character needle. *)
Fixpoint hasChar (c : ascii) (s : string) : bool :=
  match s with
  | "" => false
  | String d r => Ascii.eqb d c || hasChar c r
  end.

(** [arr.indexOf(x)]: [None] stands for -1. *)
Fixpoint indexOf (l : list string) (x : string) : option nat :=
  match l with
  | [] => None
  | y :: r =>
      if String.eqb y x then Some 0%nat
      else option_map S (indexOf r x)
  end.

(** [arr[i]] where [i] comes from [indexOf]: [arr[-1]] is [undefined]. *)
Definition at_index (l : list string) (i : option nat) : option string :=
  match i with
  | None => None
  | Some n => nth_error l n
  end.

(** Keep the characters that satisfy [p]: [s.replace(/[^...]/g, '')]. *)
Fixpoint filterChars (p : ascii -> bool) (s : string) : string :=
  match s with
  | "" => ""
  | String c r => if p c then String c (filterChars p r) else filterChars p r
  end.

(** Every character of [s] satisfies [p]. *)
Fixpoint allChars (p : ascii -> bool) (s : string) : bool :=
  match s with
  | "" => true
  | String ch r => p ch && allChars p r
  end.

(** Abrupt completion: a [throw] that is not caught. *)
Inductive Completion (A : Type) : Type :=
| Normal (v : A)
| Throw (message : string).
Arguments Normal {A} v.
Arguments Throw {A} message.

Definition bind {A B} (m : Completion A) (k : A -> Completion B) : Completion B :=
  match m with
  | Normal v => k v
  | Throw e => Throw e
  end.

(** [try { m } catch (err) { handler }] *)
Definition try_catch {A} (m : Completion A) (handler : string -> A) : A :=
  match m with
  | Normal v => v
  | Throw e => handler e
  end.

(** An integer-valued number as a double.  Exact below [2^53]. *)
Definition Z2F (z : Z) : float :=
  match z with
  | Z0 => 0%float
  | Zpos _ => PrimFloat.of_uint63 (Uint63.of_Z z)
  | Zneg _ => (- PrimFloat.of_uint63 (Uint63.of_Z (- z)))%float
  end.

(** [Math.floor] of a double, as an integer; [None] for NaN and the
    infinities, which [Math.floor] returns unchanged. *)
Definition Math_floor (x : float) : option Z :=
  match Prim2SF x with
  | S754_zero _ => Some 0%Z
  | S754_finite s m e =>
      let q := if (0 <=? e)%Z then (Z.pos m * 2 ^ e)%Z
               else (Z.pos m / 2 ^ (- e))%Z in
      let exact := if (0 <=? e)%Z then true
                   else (Z.pos m mod 2 ^ (- e) =? 0)%Z in
      Some (if s then (if exact then - q else - q - 1)%Z else q)
  | _ => None
  end.

(** [Math.max(x, y)] and [Math.min(x, y)]: NaN if either is NaN; of the two
    zeros, +0 is the larger. *)
Definition Math_max (x y : float) : float :=
  if PrimFloat.is_nan x || PrimFloat.is_nan y then nan
  else if PrimFloat.ltb x y then y
  else if PrimFloat.ltb y x then x
  else if PrimFloat.get_sign x then y else x.

Definition Math_min (x y : float) : float :=
  if PrimFloat.is_nan x || PrimFloat.is_nan y then nan
  else if PrimFloat.ltb y x then y
  else if PrimFloat.ltb x y then x
  else if PrimFloat.get_sign x then x else y.

End JS.

Import JS.

(* ================================================================== *)
(** * The hook [useOpenCV]: detection, segments and digits *)
(* ================================================================== *)

Module UseOpenCV.

(** [interface SegmentState { a: boolean; ...; g: boolean }] *)
Record SegmentState : Type := Segs
  { a : bool; b : bool; c : bool; d : bool; e : bool; f : bool; g : bool }.

(** The table of 7-segment patterns, in the order of the source. *)
Definition digitPatterns : list (string * string) :=
  [ ("1111110", "0");
    ("0110000", "1");
    ("1101101", "2");
    ("1111001", "3");
    ("0110011", "4");
    ("1011011", "5");
    ("1011111", "6");
    ("1110000", "7");
    ("1111111", "8");
    ("1111011", "9");
    ("1110111", "A");
    ("0011111", "b");
    ("1001110", "C");
    ("0111101", "d");
    ("1001111", "E");
    ("1000111", "F");
    ("0000000", " ") ].

(** [digitPatterns[key]]: [None] stands for [undefined]. *)
Fixpoint lookup (key : string) (table : list (string * string)) : option string :=
  match table with
  | [] => None
  | (k, v) :: rest => if String.eqb k key then Some v else lookup key rest
  end.

Definition bit (x : bool) : string := if x then "1" else "0".

(** The lookup key: the segments in the order a,b,c,d,e,f,g. *)
Definition pattern (segments : SegmentState) : string :=
  join "" [ bit (a segments); bit (b segments); bit (c segments);
            bit (d segments); bit (e segments); bit (f segments);
            bit (g segments) ].

(** [digitPatterns[pattern] || '?']: an absent key and an empty entry both
    give the sentinel. *)
Definition segmentsToDigit (segments : SegmentState) : string :=
  match lookup (pattern segments) digitPatterns with
  | Some "" | None => "?"
  | Some v => v
  end.

(** [Object.values(segments).filter(Boolean).length] *)
Definition activeCount (segments : SegmentState) : nat :=
  List.length (filter (fun x : bool => x)
    [ a segments; b segments; c segments; d segments;
      e segments; f segments; g segments ]).

Definition allOff : SegmentState := Segs false false false false false false false.
Definition allOn : SegmentState := Segs true true true true true true true.

(** ** Images and rectangles of the vision library *)

(** [cv.Rect]: integer pixel coordinates. *)
Record Rect : Type := mkRect { x : Z; y : Z; width : Z; height : Z }.

(** A single-channel [cv.Mat]: [pixel m i j] is the value at row [i],
    column [j]; a binary image holds 0 or 255. *)
Record Mat : Type := mkMat { rows : Z; cols : Z; pixel : Z -> Z -> Z }.

(** [m.roi(rect)]: the view of [m] inside [rect]; the library throws when
    [rect] does not lie inside [m]. *)
Definition roi (m : Mat) (rect : Rect) : Completion Mat :=
  if ((0 <=? x rect) && (0 <=? width rect) && (x rect + width rect <=? cols m)
      && (0 <=? y rect) && (0 <=? height rect) && (y rect + height rect <=? rows m))%Z
  then Normal (mkMat (height rect) (width rect)
                     (fun i j => pixel m (y rect + i) (x rect + j))%Z)
  else Throw "roi: rectangle outside the matrix".

Definition zrange (n : Z) : list Z := map Z.of_nat (seq 0 (Z.to_nat n)).

(** [cv.countNonZero(m)] *)
Definition countNonZero (m : Mat) : Z :=
  Z.of_nat (List.length
    (filter (fun ij => negb (pixel m (fst ij) (snd ij) =? 0)%Z)
            (list_prod (zrange (rows m)) (zrange (cols m))))).

(** [interface DetectionResult] *)
Record DetectionResult : Type := mkResult
  { value : string; confidence : float; segments : list SegmentState }.

Definition emptyResult : DetectionResult := mkResult "" 0%float [].

(** The state of the hook: [isReady] and whether [cvRef.current] is set. *)
Record Hook : Type := mkHook { isReady : bool; cvRef_current : bool }.

(** ** Region filter of [detectDisplay] *)

(** The test on one bounding rectangle.  [area] is an integer product
    (exact as a double below 2^53, and rounding cannot cross 500 or 50000
    above it); [aspectRatio] is a double. *)
Definition qualifies (area : Z) (aspectRatio : float) : bool :=
  (500 <? area)%Z && (area <? 50000)%Z
  && PrimFloat.ltb 1.2 aspectRatio && PrimFloat.ltb aspectRatio 3.0.

Definition rectArea (rect : Rect) : Z := (width rect * height rect)%Z.
Definition rectAspectRatio (rect : Rect) : float :=
  (Z2F (height rect) / Z2F (width rect))%float.

Definition isDigitRegion (rect : Rect) : bool :=
  let area := rectArea rect in
  let aspectRatio := rectAspectRatio rect in
  qualifies area aspectRatio.

(** [digitRegions.sort((a, b) => a.x - b.x)]: a stable sort; [r1] goes
    after [r2] only when [r1.x - r2.x > 0]. *)
Fixpoint insertByX (r1 : Rect) (l : list Rect) : list Rect :=
  match l with
  | [] => [r1]
  | r2 :: rest =>
      if (0 <? x r1 - x r2)%Z then r2 :: insertByX r1 rest
      else r1 :: l
  end.

Definition sortByX (l : list Rect) : list Rect := fold_right insertByX [] l.

(** ** Segment geometry *)

Record SegmentPos : Type := mkPos { px : float; py : float; pw : float; ph : float }.

Definition pos_a : SegmentPos := mkPos 0.2 0.0 0.6 0.15.
Definition pos_b : SegmentPos := mkPos 0.7 0.0 0.15 0.5.
Definition pos_c : SegmentPos := mkPos 0.7 0.5 0.15 0.5.
Definition pos_d : SegmentPos := mkPos 0.2 0.85 0.6 0.15.
Definition pos_e : SegmentPos := mkPos 0.0 0.5 0.15 0.5.
Definition pos_f : SegmentPos := mkPos 0.0 0.0 0.15 0.5.
Definition pos_g : SegmentPos := mkPos 0.2 0.42 0.6 0.15.

(** The rectangle of a segment inside a digit cell: [Math.floor] of each
    product.  [None] when a product is not finite. *)
Definition segmentRect (digitRect : Rect) (pos : SegmentPos) : option Rect :=
  match Math_floor (px pos * Z2F (width digitRect)),
        Math_floor (py pos * Z2F (height digitRect)),
        Math_floor (pw pos * Z2F (width digitRect)),
        Math_floor (ph pos * Z2F (height digitRect)) with
  | Some sx, Some sy, Some sw, Some sh => Some (mkRect sx sy sw sh)
  | _, _, _, _ => None
  end.

(** The guard before a segment is sampled. *)
Definition insideDigit (digitRect seg : Rect) : bool :=
  ((0 <=? x seg) && (0 <=? y seg) && (0 <? width seg) && (0 <? height seg)
   && (x seg + width seg <=? width digitRect)
   && (y seg + height seg <=? height digitRect))%Z.

(** The body of the [forEach] for one segment. *)
Definition segmentOn (digitROI : Mat) (digitRect : Rect) (pos : SegmentPos)
  : Completion bool :=
  match segmentRect digitRect pos with
  | Some seg =>
      if insideDigit digitRect seg then
        bind (roi digitROI seg) (fun segmentROI =>
          let whitePixels := countNonZero segmentROI in
          let totalPixels := (width seg * height seg)%Z in
          let whiteRatio := (Z2F whitePixels / Z2F totalPixels)%float in
          Normal (PrimFloat.ltb 0.3 whiteRatio))
      else Normal false
  | None => Normal false
  end.

(** The bounds check on the digit rectangle. *)
Definition invalidBounds (binaryImage : Mat) (digitRect : Rect) : bool :=
  ((x digitRect <? 0) || (y digitRect <? 0)
   || (width digitRect <=? 0) || (height digitRect <=? 0)
   || (cols binaryImage <? x digitRect + width digitRect)
   || (rows binaryImage <? y digitRect + height digitRect))%Z.

Definition analyzeSegments (h : Hook) (binaryImage : option Mat)
  (digitRect : option Rect) : SegmentState :=
  match binaryImage, digitRect with
  | Some binaryImage, Some digitRect =>
      if negb (cvRef_current h) || negb (isReady h) then allOff
      else
        try_catch
          (if invalidBounds binaryImage digitRect then Normal allOff
           else
             bind (roi binaryImage digitRect) (fun digitROI =>
             bind (segmentOn digitROI digitRect pos_a) (fun sa =>
             bind (segmentOn digitROI digitRect pos_b) (fun sb =>
             bind (segmentOn digitROI digitRect pos_c) (fun sc =>
             bind (segmentOn digitROI digitRect pos_d) (fun sd =>
             bind (segmentOn digitROI digitRect pos_e) (fun se =>
             bind (segmentOn digitROI digitRect pos_f) (fun sf =>
             bind (segmentOn digitROI digitRect pos_g) (fun sg =>
             Normal (Segs sa sb sc sd se sf sg))))))))))
          (fun _ => allOff)
  | _, _ => allOff
  end.

(** ** The functions that call the vision library *)

Section Vision.

(** The browser's [ImageData]. *)
Variable ImageData : Type.

(** [matFromImageData], [cvtColor], [GaussianBlur] and [threshold] in a
    row: the binary image, or the exception one of them raised. *)
Variable cv_binarize : ImageData -> float -> Completion Mat.

(** [findContours] with [RETR_EXTERNAL], then [boundingRect] of every
    contour, in the order of the contours. *)
Variable cv_boundingRects : Mat -> Completion (list Rect).

Definition preprocessImage (h : Hook) (imageData : ImageData)
  (threshold : float) : option Mat :=
  if negb (cvRef_current h) || negb (isReady h) then None
  else
    try_catch
      (bind (cv_binarize imageData threshold) (fun binary =>
       Normal (Some binary)))
      (fun _ => None).

Definition detectDisplay (h : Hook) (binaryImage : option Mat) : list Rect :=
  match binaryImage with
  | Some binaryImage =>
      if negb (cvRef_current h) || negb (isReady h) then []
      else
        try_catch
          (bind (cv_boundingRects binaryImage) (fun rects =>
           let digitRegions := filter isDigitRegion rects in
           Normal (sortByX digitRegions)))
          (fun _ => [])
  | None => []
  end.

(** The per-region score of [processImage]. *)
Definition regionConfidence (digit : string) (segs : SegmentState) : float :=
  let segmentCount := activeCount segs in
  if negb (String.eqb digit "?") then 0.9%float
  else Math_max 0.1 (Z2F (Z.of_nat segmentCount) / 7)%float.

(** The accumulators of the [forEach] over the regions. *)
Record Acc : Type := mkAcc
  { digits : list string; allSegments : list SegmentState; totalConfidence : float }.

Definition analyzeRegion (h : Hook) (binaryImage : Mat) (acc : Acc)
  (region : Rect) : Acc :=
  let segs := analyzeSegments h (Some binaryImage) (Some region) in
  let digit := segmentsToDigit segs in
  let confidence := regionConfidence digit segs in
  mkAcc (digits acc ++ [digit]) (allSegments acc ++ [segs])
        (totalConfidence acc + confidence)%float.

(** The calls to [console.log] and to [delete], which only frees a matrix,
    are left out. *)
Definition processImage (h : Hook) (imageData : ImageData)
  (threshold : float) : DetectionResult :=
  if negb (isReady h) then emptyResult
  else
    try_catch
      (match preprocessImage h imageData threshold with
       | None => Normal emptyResult
       | Some binaryImage =>
           let digitRegions := detectDisplay h (Some binaryImage) in
           if (List.length digitRegions =? 0)%nat then Normal emptyResult
           else
             let acc := fold_left (analyzeRegion h binaryImage) digitRegions
                                  (mkAcc [] [] 0%float) in
             let averageConfidence :=
               (totalConfidence acc
                / Z2F (Z.of_nat (List.length digitRegions)))%float in
             let value := join "" (digits acc) in
             Normal (mkResult value averageConfidence (allSegments acc))
       end)
      (fun _ => emptyResult).

End Vision.

End UseOpenCV.

(* ================================================================== *)
(** * lib/opencv-service.ts: the normalizer and the confidence scorer *)
(* ================================================================== *)

Module OpenCVService.

Import UseOpenCV.

Definition isDigit (ch : ascii) : bool :=
  let n := nat_of_ascii ch in ((48 <=? n) && (n <=? 57))%nat.

(** The characters the class [[^0-9.\-]] does not match. *)
Definition isKept (ch : ascii) : bool :=
  isDigit ch || Ascii.eqb ch "." || Ascii.eqb ch "-".

(** [s.replace(/^\./, '0.')] *)
Definition leadingDot (s : string) : string :=
  match s with
  | String "." r => String "0" (String "." r)
  | _ => s
  end.

(** [s.replace(/\.$/, '')] *)
Fixpoint trailingDot (s : string) : string :=
  match s with
  | "" => ""
  | String ch "" => if Ascii.eqb ch "." then "" else s
  | String ch r => String ch (trailingDot r)
  end.

Definition formatReadingValue (rawValue : string) : string :=
  if String.eqb rawValue "" then "0"
  else
    let cleaned := filterChars isKept rawValue in
    let parts := split "." cleaned in
    let cleaned :=
      if (2 <? List.length parts)%nat
      then hd "" parts ++ "." ++ join "" (tl parts)
      else cleaned in
    let cleaned := leadingDot cleaned in
    let cleaned := trailingDot cleaned in
    if String.eqb cleaned "" || String.eqb cleaned "-" || String.eqb cleaned "."
    then "0"
    else cleaned.

(** ** The normalizer as the specification words it *)

Fixpoint countChar (ch : ascii) (s : string) : nat :=
  match s with
  | "" => 0
  | String d r => (if Ascii.eqb d ch then 1 else 0) + countChar ch r
  end.

Fixpoint removeChar (ch : ascii) (s : string) : string :=
  match s with
  | "" => ""
  | String d r => if Ascii.eqb d ch then removeChar ch r
                  else String d (removeChar ch r)
  end.

(** Keep the first '.', remove every later one. *)
Fixpoint keepFirstDot (s : string) : string :=
  match s with
  | "" => ""
  | String d r => if Ascii.eqb d "." then String d (removeChar "." r)
                  else String d (keepFirstDot r)
  end.

Definition startsWithDot (s : string) : bool :=
  match s with String "." _ => true | _ => false end.

Fixpoint endsWithDot (s : string) : bool :=
  match s with
  | "" => false
  | String ch "" => Ascii.eqb ch "."
  | String _ r => endsWithDot r
  end.

Fixpoint dropLast (s : string) : string :=
  match s with
  | "" => ""
  | String _ "" => ""
  | String ch r => String ch (dropLast r)
  end.

Definition normalize_spec (raw : string) : string :=
  let stripped := filterChars isKept raw in
  let oneDot := if (1 <? countChar "." stripped)%nat
                then keepFirstDot stripped else stripped in
  let led := if startsWithDot oneDot then "0" ++ oneDot else oneDot in
  let cut := if endsWithDot led then dropLast led else led in
  if String.eqb cut "" || String.eqb cut "-" || String.eqb cut "."
  then "0" else cut.

(** ** [parseFloat] and [isNaN] *)

(** Whether [s] starts with a [StrDecimalLiteral] without its sign. *)
Definition startsUnsignedDecimal (s : string) : bool :=
  String.prefix "Infinity" s ||
  match s with
  | String ch r =>
      isDigit ch ||
      (Ascii.eqb ch "." &&
       match r with String d _ => isDigit d | "" => false end)
  | "" => false
  end.

(** [isNaN(parseFloat(s))]: [parseFloat] skips leading white space, takes an
    optional sign, and is NaN exactly when no decimal literal follows. *)
Definition parseFloat_isNaN (s : string) : bool :=
  let t := trimStart s in
  let u := match t with
           | String "+" r => r
           | String "-" r => r
           | _ => t
           end in
  negb (startsUnsignedDecimal u).

(** ** The confidence scorer *)

(** The two accumulators of the [forEach]. *)
Record Tally : Type := mkTally { totalConfidence : float; validDigits : nat }.

Definition scoreDigit (t : Tally) (segmentState : SegmentState) : Tally :=
  let activeSegments := activeCount segmentState in
  if ((2 <=? activeSegments) && (activeSegments <=? 7))%nat then
    mkTally (totalConfidence t
             + (0.8 + (Z2F (Z.of_nat activeSegments) / 7) * 0.2))%float
            (S (validDigits t))
  else if (activeSegments =? 1)%nat then
    mkTally (totalConfidence t + 0.6)%float (S (validDigits t))
  else
    mkTally (totalConfidence t + 0.1)%float (S (validDigits t)).

Definition calculateConfidence (segments : list SegmentState)
  (rawValue : string) : float :=
  if (List.length segments =? 0)%nat then 0%float
  else
    let t := fold_left scoreDigit segments (mkTally 0%float 0) in
    let averageConfidence :=
      if (0 <? validDigits t)%nat
      then (totalConfidence t / Z2F (Z.of_nat (validDigits t)))%float
      else 0%float in
    let formattedValue := formatReadingValue rawValue in
    let isValidNumber := negb (parseFloat_isNaN formattedValue) in
    if isValidNumber then Math_min (averageConfidence * 1.2)%float 1.0%float
    else (averageConfidence * 0.7)%float.

(** ** The scorer as the specification words it *)

(** The base confidence of one digit from its number of lit segments. *)
Definition baseConfidence (count : nat) : float :=
  if ((2 <=? count) && (count <=? 7))%nat
  then (0.8 + (Z2F (Z.of_nat count) / 7) * 0.2)%float
  else if (count =? 1)%nat then 0.6%float
  else 0.1%float.

(** The sum of a sequence of doubles, left to right from 0. *)
Definition sumFloats (l : list float) : float :=
  fold_left PrimFloat.add l 0%float.

Definition meanFloats (l : list float) : float :=
  (sumFloats l / Z2F (Z.of_nat (List.length l)))%float.

Definition confidence_spec (segments : list SegmentState) (raw : string)
  : float :=
  match segments with
  | [] => 0%float
  | _ =>
      let average :=
        meanFloats (map (fun s => baseConfidence (activeCount s)) segments) in
      if negb (parseFloat_isNaN (normalize_spec raw))
      then Math_min (average * 1.2)%float 1.0%float
      else (average * 0.7)%float
  end.

End OpenCVService.

(* ================================================================== *)
(** * lib/csv-service.ts: the CSV codec *)
(* ================================================================== *)

Module CSVService.

(** A [Date] object: its time value in milliseconds since the epoch, or
    the invalid date (time value NaN). *)
Inductive Date : Type :=
| ValidDate (ms : Z)
| InvalidDate.

(** [Reading], the row type of [shared/schema.ts]. *)
Record Reading : Type := mkReading
  { id : string;
    value : string;
    quantity : string;
    unit : string;
    timestamp : Date;
    mode : string;
    confidence : option string }.

(** [String(n)] for an integer. *)
Definition toString (n : Z) : string := NilZero.string_of_int (Z.to_int n).

(** The global replace of [escapeCsvField]: every double quote becomes two. *)
Fixpoint doubleQuotes (field : string) : string :=
  match field with
  | "" => ""
  | String ch r =>
      if Ascii.eqb ch DQUOTE
      then String DQUOTE (String DQUOTE (doubleQuotes r))
      else String ch (doubleQuotes r)
  end.

Definition escapeCsvField (field : string) : string :=
  if hasChar "," field || hasChar DQUOTE field || hasChar LF field
  then String DQUOTE (doubleQuotes field ++ String DQUOTE "")
  else field.

(** The loop of [parseCSVLine]: [line] is what is left from index [i] on. *)
Fixpoint parseCSVLine_from (line current : string) (inQuotes : bool)
  (result : list string) : list string :=
  match line with
  | "" => result ++ [trim current]
  | String char rest =>
      if Ascii.eqb char DQUOTE then
        match inQuotes, rest with
        | true, String next rest' =>
            if Ascii.eqb next DQUOTE
            then parseCSVLine_from rest' (current ++ String DQUOTE "")
                                   inQuotes result
            else parseCSVLine_from rest current (negb inQuotes) result
        | _, _ => parseCSVLine_from rest current (negb inQuotes) result
        end
      else if Ascii.eqb char "," && negb inQuotes then
        parseCSVLine_from rest "" inQuotes (result ++ [trim current])
      else
        parseCSVLine_from rest (current ++ String char "") inQuotes result
  end.

Definition parseCSVLine (line : string) : list string :=
  parseCSVLine_from line "" false [].

Definition headers_out : list string :=
  ["timestamp"; "value"; "quantity"; "unit"; "mode"; "confidence"].

Definition requiredHeaders : list string :=
  ["timestamp"; "value"; "quantity"; "unit"].

(** [arr.map(f)] when [f] can throw: the first exception ends the map. *)
Fixpoint mapM {A B} (fn : A -> Completion B) (l : list A)
  : Completion (list B) :=
  match l with
  | [] => Normal []
  | v :: r => bind (fn v) (fun w => bind (mapM fn r) (fun ws => Normal (w :: ws)))
  end.

(** [v || dflt] for a string that may be [undefined]. *)
Definition orElse (v : option string) (dflt : string) : string :=
  match v with
  | Some "" | None => dflt
  | Some s => s
  end.

(** [v || null] *)
Definition orNull (v : option string) : option string :=
  match v with
  | Some "" | None => None
  | Some s => Some s
  end.

(** A field that is read without a default: [undefined] is falsy like the
    empty string, and [parseCSV] skips the row in both cases. *)
Definition orEmpty (v : option string) : string :=
  match v with
  | Some s => s
  | None => ""
  end.

Definition isInvalid (t : Date) : bool :=
  match t with
  | ValidDate _ => false
  | InvalidDate => true
  end.

Section Platform.

(** [d.toISOString()] for a valid time value. *)
Variable Date_toISOString : Z -> string.

(** [new Date(s)] for a string. *)
Variable Date_parse : string -> Date.

(** [Date.now()] at the time row [i] is read. *)
Variable Date_now : nat -> Z.

(** [new Date(reading.timestamp).toISOString()]: a RangeError on the
    invalid date. *)
Definition toISOString (t : Date) : Completion string :=
  match t with
  | ValidDate ms => Normal (Date_toISOString ms)
  | InvalidDate => Throw "RangeError: Invalid time value"
  end.

(** [new Date(v)] where [v] may be [undefined]. *)
Definition new_Date (v : option string) : Date :=
  match v with
  | Some s => Date_parse s
  | None => InvalidDate
  end.

(** One row of [generateCSV]. *)
Definition csvRow (reading : Reading) : Completion string :=
  bind (toISOString (timestamp reading)) (fun timestamp =>
    let value := value reading in
    let quantity := escapeCsvField (quantity reading) in
    let unit := escapeCsvField (unit reading) in
    let mode := mode reading in
    let confidence := orElse (confidence reading) "0" in
    Normal (timestamp ++ "," ++ value ++ "," ++ quantity ++ "," ++ unit
            ++ "," ++ mode ++ "," ++ confidence)).

Definition generateCSV (readings : list Reading) : Completion string :=
  if (List.length readings =? 0)%nat then
    Normal ("timestamp,value,quantity,unit,mode,confidence" ++ String LF "")
  else
    let csvHeader := join "," headers_out ++ String LF "" in
    bind (mapM csvRow readings) (fun csvRows =>
    Normal (csvHeader ++ join (String LF "") csvRows)).

(** The body of the loop of [parseCSV] for line [i]: the reading to push,
    or [None] when the row is skipped. *)
Definition parseRow (headers : list string) (i : nat) (line : string)
  : option Reading :=
  let values := parseCSVLine line in
  if negb (List.length values =? List.length headers)%nat then None
  else
    let reading :=
      mkReading
        ("csv_" ++ toString (Z.of_nat i) ++ "_" ++ toString (Date_now i))
        (orEmpty (at_index values (indexOf headers "value")))
        (orEmpty (at_index values (indexOf headers "quantity")))
        (orEmpty (at_index values (indexOf headers "unit")))
        (new_Date (at_index values (indexOf headers "timestamp")))
        (orElse (at_index values (indexOf headers "mode")) "manual")
        (orNull (at_index values (indexOf headers "confidence"))) in
    if isInvalid (timestamp reading) then None
    else if String.eqb (value reading) "" || String.eqb (quantity reading) ""
            || String.eqb (unit reading) "" then None
    else Some reading.

(** The loop over [lines[i]], [i >= 1]. *)
Fixpoint parseRows (headers : list string) (i : nat) (lines : list string)
  : list Reading :=
  match lines with
  | [] => []
  | line :: rest =>
      match parseRow headers i line with
      | Some reading => reading :: parseRows headers (S i) rest
      | None => parseRows headers (S i) rest
      end
  end.

Definition parseCSV (csvContent : string) : Completion (list Reading) :=
  let lines := split LF (trim csvContent) in
  if (List.length lines <? 2)%nat then
    Throw "CSV file must contain at least a header and one data row"
  else
    let headers :=
      map (fun h => toLowerCase (trim h)) (split "," (hd "" lines)) in
    let missingHeaders :=
      filter (fun h => negb (includes headers h)) requiredHeaders in
    if (0 <? List.length missingHeaders)%nat then
      Throw ("Missing required CSV headers: " ++ join ", " missingHeaders)
    else
      Normal (parseRows headers 1 (tl lines)).

(** ** Well-formed readings *)

(** No comma, quote or newline: the field needs no quoting. *)
Definition isPlain (s : string) : bool :=
  negb (hasChar "," s) && negb (hasChar DQUOTE s) && negb (hasChar LF s).

(** Not empty, and no white space at either end. *)
Definition isTrimmed (s : string) : bool :=
  negb (String.eqb s "") && String.eqb (trim s) s.

(** A decimal written as a string: digits, '.', and a sign. *)
Definition isDecimalString (s : string) : bool :=
  negb (String.eqb s "") && allChars OpenCVService.isKept s.

(** The timestamp is a valid instant whose ISO rendering is a plain field
    that the platform reads back as a valid date. *)
Definition timestampOk (t : Date) : bool :=
  match t with
  | ValidDate ms =>
      let iso := Date_toISOString ms in
      isPlain iso && isTrimmed iso && negb (isInvalid (Date_parse iso))
  | InvalidDate => false
  end.

Definition wellFormed (r : Reading) : bool :=
  timestampOk (timestamp r)
  && isDecimalString (value r)
  && isTrimmed (quantity r) && negb (hasChar LF (quantity r))
  && isTrimmed (unit r) && negb (hasChar LF (unit r))
  && (String.eqb (mode r) "manual" || String.eqb (mode r) "auto")
  && match confidence r with
     | None => true
     | Some conf => isDecimalString conf
     end.

(** The fields the round trip preserves. *)
Definition sameFields (r1 r2 : Reading) : Prop :=
  value r2 = value r1 /\ quantity r2 = quantity r1
  /\ unit r2 = unit r1 /\ mode r2 = mode r1.

End Platform.

End CSVService.

(* ================================================================== *)
(** * An instance of the platform's [Date] for ISO-8601 instants *)
(* ================================================================== *)

(** [Date.prototype.toISOString] as ECMAScript defines it, and a reader of
    the 24-character form it emits for the years 0 to 9999.  Used to run the
    codec on concrete readings. *)
Module ISO8601.

Import CSVService.

Definition msPerDay : Z := 86400000.

(** Days since 1970-01-01 to (year, month, day) of the proleptic Gregorian
    calendar. *)
Definition civilFromDays (days : Z) : Z * Z * Z :=
  let z := (days + 719468)%Z in
  let era := (z / 146097)%Z in
  let doe := (z - era * 146097)%Z in
  let yoe := ((doe - doe / 1460 + doe / 36524 - doe / 146096) / 365)%Z in
  let doy := (doe - (365 * yoe + yoe / 4 - yoe / 100))%Z in
  let mp := ((5 * doy + 2) / 153)%Z in
  let day := (doy - (153 * mp + 2) / 5 + 1)%Z in
  let month := (if mp <? 10 then mp + 3 else mp - 9)%Z in
  let year := (yoe + era * 400 + (if month <=? 2 then 1 else 0))%Z in
  (year, month, day).

Definition daysFromCivil (year month day : Z) : Z :=
  let y := (if month <=? 2 then year - 1 else year)%Z in
  let era := (y / 400)%Z in
  let yoe := (y - era * 400)%Z in
  let mp := (if 2 <? month then month - 3 else month + 9)%Z in
  let doy := ((153 * mp + 2) / 5 + day - 1)%Z in
  let doe := (yoe * 365 + yoe / 4 - yoe / 100 + doy)%Z in
  (era * 146097 + doe - 719468)%Z.

Fixpoint zeros (n : nat) : string :=
  match n with
  | O => ""
  | S k => String "0" (zeros k)
  end.

(** [n] in decimal, padded with zeros on the left to [w] digits. *)
Definition pad (w : nat) (n : Z) : string :=
  let digits := toString n in
  zeros (w - String.length digits) ++ digits.

Definition yearString (year : Z) : string :=
  if ((0 <=? year) && (year <=? 9999))%Z then pad 4 year
  else (if (year <? 0)%Z then "-" else "+") ++ pad 6 (Z.abs year).

Definition toISOString (t : Z) : string :=
  let days := (t / msPerDay)%Z in
  let rest := (t mod msPerDay)%Z in
  let '(year, month, day) := civilFromDays days in
  yearString year ++ "-" ++ pad 2 month ++ "-" ++ pad 2 day
  ++ "T" ++ pad 2 (rest / 3600000) ++ ":" ++ pad 2 (rest / 60000 mod 60)
  ++ ":" ++ pad 2 (rest / 1000 mod 60) ++ "." ++ pad 3 (rest mod 1000) ++ "Z".

Definition digitValue (ch : ascii) : option Z :=
  if OpenCVService.isDigit ch then Some (Z.of_nat (nat_of_ascii ch) - 48)%Z
  else None.

Fixpoint number (acc : Z) (l : list ascii) : option Z :=
  match l with
  | [] => Some acc
  | ch :: r =>
      match digitValue ch with
      | Some v => number (10 * acc + v)%Z r
      | None => None
      end
  end.

Definition daysInMonth (year month : Z) : Z :=
  (daysFromCivil (if month =? 12 then year + 1 else year)
                 (if month =? 12 then 1 else month + 1) 1
   - daysFromCivil year month 1)%Z.

(** [new Date(s)] for [s] of the form YYYY-MM-DDTHH:mm:ss.sssZ; any other
    string is read as the invalid date here. *)
Definition parse (s : string) : Date :=
  match list_ascii_of_string s with
  | [y1; y2; y3; y4; "-"%char; m1; m2; "-"%char; d1; d2; "T"%char;
     h1; h2; ":"%char; n1; n2; ":"%char; s1; s2; "."%char; f1; f2; f3;
     "Z"%char] =>
      match number 0 [y1; y2; y3; y4], number 0 [m1; m2], number 0 [d1; d2],
            number 0 [h1; h2], number 0 [n1; n2], number 0 [s1; s2],
            number 0 [f1; f2; f3] with
      | Some year, Some month, Some day, Some hh, Some mm, Some ss, Some ms =>
          if ((1 <=? month) && (month <=? 12) && (1 <=? day)
              && (day <=? daysInMonth year month)
              && (hh <=? 23) && (mm <=? 59) && (ss <=? 59))%Z
          then ValidDate (daysFromCivil year month day * msPerDay
                          + hh * 3600000 + mm * 60000 + ss * 1000 + ms)%Z
          else InvalidDate
      | _, _, _, _, _, _, _ => InvalidDate
      end
  | _ => InvalidDate
  end.

(** A clock that stands still. *)
Definition now (_ : nat) : Z := 1700000000000%Z.

End ISO8601.

(* ================================================================== *)
(** * lib/csv-service.ts: export to a file and import from a file *)
(* ================================================================== *)

Module CSVFiles.

Import CSVService.

(** [s.endsWith(suffix)]: some tail of [s] is [suffix]. *)
Fixpoint endsWith (s suffix : string) : bool :=
  String.eqb s suffix ||
  match s with
  | "" => false
  | String _ r => endsWith r suffix
  end.

(** A [File] as the service reads it: its name, its size in bytes, and what
    [FileReader.readAsText] delivers, [None] when the read fails. *)
Record File : Type := mkFile
  { name : string; size : Z; text : option string }.

(** What [downloadCSV] hands to the browser: the [download] attribute of
    the link and the text of the blob. *)
Record Download : Type := mkDownload
  { fileName : string; content : string }.

Section Platform.

Variable Date_toISOString : Z -> string.
Variable Date_parse : string -> Date.
Variable Date_now : nat -> Z.

(** [filename || defaultFilename] for an optional argument. *)
Definition defaultFilename (today : Z) : string :=
  "multimeter_readings_" ++ hd "" (split "T" (Date_toISOString today))
  ++ ".csv".

(** [downloadCSV(readings, filename)]; [today] is the time value of
    [new Date()].  The exception of [generateCSV] is not caught here. *)
Definition downloadCSV (readings : list Reading) (filename : option string)
  (today : Z) : Completion Download :=
  bind (generateCSV Date_toISOString readings) (fun csvContent =>
  let finalFilename := orElse filename (defaultFilename today) in
  Normal (mkDownload finalFilename csvContent)).

(** [validateCSVFile(file)]: the promise resolves ([Normal]) or rejects
    ([Throw], with the message of the error). *)
Definition validateCSVFile (file : File) : Completion bool :=
  if negb (endsWith (toLowerCase (name file)) ".csv") then
    Throw "File must be a CSV file"
  else if (10 * 1024 * 1024 <? size file)%Z then
    Throw "File size must be less than 10MB"
  else
    match text file with
    | Some content =>
        bind (parseCSV Date_parse Date_now content) (fun _ => Normal true)
    | None => Throw "Failed to read file"
    end.

(** [readCSVFile(file)] *)
Definition readCSVFile (file : File) : Completion (list Reading) :=
  match text file with
  | Some content =>
      bind (parseCSV Date_parse Date_now content) (fun readings =>
      Normal readings)
  | None => Throw "Failed to read file"
  end.

End Platform.

End CSVFiles.

(* ================================================================== *)
(** * lib/opencv-service.ts: valid characters and contrast enhancement *)
(* ================================================================== *)

Module OpenCVImage.

(** [isDigitValid(digit)] *)
Definition validChars : list string :=
  ["0"; "1"; "2"; "3"; "4"; "5"; "6"; "7"; "8"; "9"; "."; "-"; " "].

Definition isDigitValid (digit : string) : bool := includes validChars digit.

(** [ImageData]: [data] is the [Uint8ClampedArray] of the RGBA bytes. *)
Record ImageData : Type := mkImageData
  { width : Z; height : Z; data : list Z }.

(** Storing a number in a [Uint8ClampedArray] (ToUint8Clamp): NaN gives 0,
    the value is clamped to 0..255 and rounded to the nearest integer, a tie
    to the even one. *)
Definition toUint8Clamp (v : float) : Z :=
  if PrimFloat.is_nan v then 0%Z
  else if PrimFloat.leb v 0 then 0%Z
  else if PrimFloat.leb 255 v then 255%Z
  else
    match Math_floor v with
    | Some fl =>
        if PrimFloat.ltb (Z2F fl + 0.5) v then (fl + 1)%Z
        else if PrimFloat.ltb v (Z2F fl + 0.5) then fl
        else if Z.even fl then fl else (fl + 1)%Z
    | None => 0%Z
    end.

(** The constants of the loop. *)
Definition contrast : float := 1.5.
Definition factor : float :=
  ((259 * (contrast + 255)) / (255 * (259 - contrast)))%float.

(** The new value of one colour channel, stored back in the array. *)
Definition enhanceChannel (v : Z) : Z :=
  toUint8Clamp (Math_min 255 (Math_max 0 (factor * (Z2F v - 128) + 128)))%float.

(** The loop [for (i = 0; i < data.length; i += 4)]: red, green and blue are
    rewritten, alpha is left alone; an index past the end of the array is
    not written. *)
Fixpoint enhancePixels (pixels : list Z) : list Z :=
  match pixels with
  | [] => []
  | r :: rest1 =>
      enhanceChannel r ::
      match rest1 with
      | [] => []
      | g :: rest2 =>
          enhanceChannel g ::
          match rest2 with
          | [] => []
          | b :: rest3 =>
              enhanceChannel b ::
              match rest3 with
              | [] => []
              | a :: rest => a :: enhancePixels rest
              end
          end
      end
  end.

(** [enhanceImageForDetection(imageData)].  [context] is the 2d context of
    the new canvas, [None] when the browser gives none; it is given as the
    pixel data [getImageData] returns after [putImageData]. *)
Definition enhanceImageForDetection (context : option (ImageData -> list Z))
  (imageData : ImageData) : ImageData :=
  match context with
  | None => imageData
  | Some readBack =>
      mkImageData (width imageData) (height imageData)
                  (enhancePixels (readBack imageData))
  end.

End OpenCVImage.

(* ================================================================== *)
(** * lib/tesseract-service.ts and hooks/use-tesseract.ts *)
(* ================================================================== *)

Module TesseractService.

Import OpenCVService.

(** [s.replace(/[...]/g, c)] for a class of single characters. *)
Fixpoint replaceChars (p : ascii -> bool) (c : ascii) (s : string) : string :=
  match s with
  | "" => ""
  | String ch r =>
      String (if p ch then c else ch) (replaceChars p c r)
  end.

Definition oneOf (chars : string) (ch : ascii) : bool := hasChar ch chars.

Definition cleanDigitalReading (text : string) : string :=
  if String.eqb text "" then ""
  else
    let cleaned := filterChars (fun ch => negb (isWhiteSpace ch)) text in
    let cleaned := replaceChars (oneOf "Oo") "0" cleaned in
    let cleaned := replaceChars (oneOf "Il|") "1" cleaned in
    let cleaned := replaceChars (oneOf "Ss") "5" cleaned in
    let cleaned := replaceChars (oneOf "Gg") "6" cleaned in
    let cleaned := replaceChars (oneOf "Bb") "8" cleaned in
    let cleaned := filterChars isKept cleaned in
    let parts := split "." cleaned in
    let cleaned :=
      if (2 <? List.length parts)%nat
      then hd "" parts ++ "." ++ join "" (tl parts)
      else cleaned in
    let cleaned := leadingDot cleaned in
    let cleaned := trailingDot cleaned in
    if String.eqb cleaned "" || String.eqb cleaned "-" || String.eqb cleaned "."
    then "0"
    else cleaned.

(** The threshold of [preprocessForDigitalDisplay] on one pixel; a missing
    channel reads as [undefined] and makes the sum NaN. *)
Definition binaryOf (r g b : Z) : Z :=
  let gray := (Z2F r * 0.299 + Z2F g * 0.587 + Z2F b * 0.114)%float in
  if PrimFloat.ltb 128 gray then 255%Z else 0%Z.

(** The pixel loop of [preprocessForDigitalDisplay]. *)
Fixpoint binarizePixels (pixels : list Z) : list Z :=
  match pixels with
  | [] => []
  | [_] => [0%Z]
  | [_; _] => [0%Z; 0%Z]
  | [r; g; b] => [binaryOf r g b; binaryOf r g b; binaryOf r g b]
  | r :: g :: b :: a :: rest =>
      binaryOf r g b :: binaryOf r g b :: binaryOf r g b :: a
      :: binarizePixels rest
  end.

(** The result of [processImage]. *)
Record Recognition : Type := mkRecognition
  { value : string; confidence : float }.

(** The fields [isInitialized] and [worker] of the service. *)
Record Service : Type := mkService { isInitialized : bool; worker : bool }.

Section Worker.

Variable ImageData : Type.

(** The canvas preprocessing and [worker.recognize]: the text and the
    confidence in percent, or the exception one of the calls raised. *)
Variable recognize : ImageData -> Completion (string * float).

(** [TesseractService.processImage]: the promise resolves ([Normal]) or
    rejects ([Throw]). *)
Definition processImage (service : Service) (imageData : ImageData)
  : Completion Recognition :=
  if negb (isInitialized service) || negb (worker service) then
    Throw "Tesseract not initialized"
  else
    Normal
      (try_catch
         (bind (recognize imageData) (fun result =>
            let text := trim (fst result) in
            let confidence := (snd result / 100)%float in
            let cleanedValue := cleanDigitalReading text in
            Normal (mkRecognition cleanedValue confidence)))
         (fun _ => mkRecognition "" 0%float)).

(** The state of the hook [useTesseract]: [isReady] and [serviceRef.current],
    [None] for null. *)
Record Hook : Type := mkHook
  { isReady : bool; serviceRef_current : option Service }.

(** [processImage] of the hook. *)
Definition hookProcessImage (h : Hook) (imageData : ImageData) : Recognition :=
  match serviceRef_current h with
  | Some service =>
      if negb (isReady h) then mkRecognition "" 0%float
      else
        try_catch
          (bind (processImage service imageData) (fun result => Normal result))
          (fun _ => mkRecognition "" 0%float)
  | None => mkRecognition "" 0%float
  end.

(** The test of [processFrame] in the camera view before it shows a
    result: [result.value && result.value !== "0"]. *)
Definition shown (result : Recognition) : bool :=
  negb (String.eqb (value result) "") && negb (String.eqb (value result) "0").

End Worker.

End TesseractService.

(* ================================================================== *)
(** * Properties of the digit decoder *)
(* ================================================================== *)

Module DigitDecoder.

Import UseOpenCV.

(** Case analysis on the seven segments. *)
Ltac each_state := intros [[] [] [] [] [] [] []].

(** Every segment state: the 2^7 combinations. *)
Definition allSegmentStates : list SegmentState :=
  let bs := [true; false] in
  flat_map (fun x1 => flat_map (fun x2 => flat_map (fun x3 =>
  flat_map (fun x4 => flat_map (fun x5 => flat_map (fun x6 =>
  map (fun x7 => Segs x1 x2 x3 x4 x5 x6 x7) bs) bs) bs) bs) bs) bs) bs.

(** The pattern of the state is not a key of the table. *)
Definition isUnmapped (segments : SegmentState) : bool :=
  negb (existsb (fun kv => String.eqb (fst kv) (pattern segments)) digitPatterns).

(** The segment state as a 7-bit number, [a] the most significant bit. *)
Definition encode (s : SegmentState) : nat :=
  let w (x : bool) (n : nat) := if x then n else 0 in
  w (a s) 64 + w (b s) 32 + w (c s) 16 + w (d s) 8 + w (e s) 4
  + w (f s) 2 + w (g s) 1.

Lemma allSegmentStates_encode :
  map encode allSegmentStates = rev (seq 0 128).
Proof. vm_compute. reflexivity. Qed.

Lemma allSegmentStates_NoDup : NoDup allSegmentStates.
Proof.
  apply (NoDup_map_inv encode).
  rewrite allSegmentStates_encode.
  apply NoDup_rev, seq_NoDup.
Qed.

Lemma allSegmentStates_complete : forall s, In s allSegmentStates.
Proof.
  each_state; unfold allSegmentStates; cbn;
    repeat (first [ left; reflexivity | right ]).
Qed.

Lemma pattern_bits : forall s,
  pattern s = bit (a s) ++ bit (b s) ++ bit (c s) ++ bit (d s)
              ++ bit (e s) ++ bit (f s) ++ bit (g s).
Proof. each_state; reflexivity. Qed.

(** C3.  The decoder is total and pure: the key is the 7-character string
    of the segments in the order a..g; the result is always exactly one
    character; each of the 17 table patterns gives its entry (all-off the
    blank, all-on "8"); and the sentinel "?" is returned exactly for the
    unmapped states, of which there are 2^7 - 17 among the 2^7 states. *)
Theorem segmentsToDigit_total_table :
  (forall s, pattern s = bit (a s) ++ bit (b s) ++ bit (c s) ++ bit (d s)
                         ++ bit (e s) ++ bit (f s) ++ bit (g s)
             /\ String.length (pattern s) = 7) /\
  (forall s, String.length (segmentsToDigit s) = 1) /\
  List.length digitPatterns = 17 /\
  NoDup (map fst digitPatterns) /\
  segmentsToDigit (Segs true  true  true  true  true  true  false) = "0" /\
  segmentsToDigit (Segs false true  true  false false false false) = "1" /\
  segmentsToDigit (Segs true  true  false true  true  false true ) = "2" /\
  segmentsToDigit (Segs true  true  true  true  false false true ) = "3" /\
  segmentsToDigit (Segs false true  true  false false true  true ) = "4" /\
  segmentsToDigit (Segs true  false true  true  false true  true ) = "5" /\
  segmentsToDigit (Segs true  false true  true  true  true  true ) = "6" /\
  segmentsToDigit (Segs true  true  true  false false false false) = "7" /\
  segmentsToDigit (Segs true  true  true  true  true  true  true ) = "8" /\
  segmentsToDigit (Segs true  true  true  true  false true  true ) = "9" /\
  segmentsToDigit (Segs true  true  true  false true  true  true ) = "A" /\
  segmentsToDigit (Segs false false true  true  true  true  true ) = "b" /\
  segmentsToDigit (Segs true  false false true  true  true  false) = "C" /\
  segmentsToDigit (Segs false true  true  true  true  false true ) = "d" /\
  segmentsToDigit (Segs true  false false true  true  true  true ) = "E" /\
  segmentsToDigit (Segs true  false false false true  true  true ) = "F" /\
  segmentsToDigit (Segs false false false false false false false) = " " /\
  (forall s, isUnmapped s = true <-> segmentsToDigit s = "?") /\
  (forall s, isUnmapped s = false <->
             In (pattern s, segmentsToDigit s) digitPatterns) /\
  List.length (filter isUnmapped allSegmentStates) = 2 ^ 7 - 17 /\
  List.length allSegmentStates = 2 ^ 7 /\
  NoDup allSegmentStates /\
  (forall s, In s allSegmentStates).
Proof.
  split.
  { intros s. split; [apply pattern_bits|].
    revert s. each_state; reflexivity. }
  split. { each_state; reflexivity. }
  split. { reflexivity. }
  split.
  { cbn. repeat constructor; cbn; intuition discriminate. }
  do 17 (split; [reflexivity|]).
  split.
  { each_state; vm_compute; split; intros H; first [reflexivity | discriminate H]. }
  split.
  { each_state; vm_compute; split; intros H;
      first [ reflexivity | discriminate H
            | repeat (first [ left; reflexivity | right ]); fail
            | idtac ].
    all: repeat match goal with
         | H : _ \/ _ |- _ => destruct H as [H|H]
         | H : (_, _) = (_, _) |- _ => discriminate H
         | H : False |- _ => destruct H
         end. }
  split. { vm_compute. reflexivity. }
  split. { vm_compute. reflexivity. }
  split. { apply allSegmentStates_NoDup. }
  apply allSegmentStates_complete.
Qed.

End DigitDecoder.

(* ================================================================== *)
(** * Properties of the reading value normalizer *)
(* ================================================================== *)

Module Normalizer.

Import OpenCVService.

(** ** [split] and [join] on the decimal point *)

Lemma split_not_nil : forall sep s, split sep s <> [].
Proof.
  intros sep s. destruct s as [|ch r]; cbn; [discriminate|].
  destruct (Ascii.eqb ch sep); [discriminate|].
  destruct (split sep r); discriminate.
Qed.

Lemma length_split : forall sep s,
  List.length (split sep s) = S (countChar sep s).
Proof.
  intros sep s. induction s as [|ch r IH]; cbn; [reflexivity|].
  destruct (Ascii.eqb ch sep); cbn; [now rewrite IH|].
  destruct (split sep r) as [|p ps] eqn:E; cbn in *; [discriminate IH|exact IH].
Qed.

Lemma join_empty_cons : forall p ps, join "" (p :: ps) = p ++ join "" ps.
Proof. intros p [|q ps]; cbn; [|reflexivity]. now induction p; cbn; f_equal. Qed.

Lemma join_split_remove : forall sep s,
  join "" (split sep s) = removeChar sep s.
Proof.
  intros sep s. induction s as [|ch r IH]; [reflexivity|].
  cbn [split removeChar]. destruct (Ascii.eqb ch sep).
  - rewrite join_empty_cons. exact IH.
  - destruct (split sep r) as [|p ps] eqn:E.
    + now destruct (split_not_nil sep r).
    + rewrite join_empty_cons in *. cbn. now rewrite IH.
Qed.

(** What the source builds from the parts is the string with only its
    first dot kept. *)
Lemma keepFirstDot_split : forall s,
  keepFirstDot s =
  match split "." s with
  | [] => ""
  | [p] => p
  | p :: ps => p ++ "." ++ join "" ps
  end.
Proof.
  induction s as [|ch r IH]; [reflexivity|].
  cbn [split keepFirstDot]. destruct (Ascii.eqb ch ".") eqn:E.
  - apply Ascii.eqb_eq in E. subst ch.
    destruct (split "." r) as [|p ps] eqn:Er.
    + now destruct (split_not_nil "." r).
    + rewrite <- Er, join_split_remove. reflexivity.
  - destruct (split "." r) as [|p ps] eqn:Er.
    + now destruct (split_not_nil "." r).
    + rewrite IH. destruct ps; reflexivity.
Qed.

Lemma many_parts : forall s,
  (2 <? List.length (split "." s))%nat = (1 <? countChar "." s)%nat.
Proof. intros s. rewrite length_split. reflexivity. Qed.

Lemma merge_parts : forall s,
  (2 <? List.length (split "." s))%nat = true ->
  hd "" (split "." s) ++ "." ++ join "" (tl (split "." s)) = keepFirstDot s.
Proof.
  intros s H. rewrite keepFirstDot_split.
  destruct (split "." s) as [|p [|q ps]]; cbn in H; try discriminate H.
  reflexivity.
Qed.

(** ** The two anchored replacements *)

Lemma leadingDot_spec : forall s,
  leadingDot s = if startsWithDot s then "0" ++ s else s.
Proof.
  intros [|ch r]; [reflexivity|].
  destruct ch as [[] [] [] [] [] [] [] []]; reflexivity.
Qed.

Lemma trailingDot_spec : forall s,
  trailingDot s = if endsWithDot s then dropLast s else s.
Proof.
  induction s as [|ch r IH]; [reflexivity|].
  destruct r as [|d r']; [cbn; now destruct (Ascii.eqb ch ".")|].
  change (trailingDot (String ch (String d r')))
    with (String ch (trailingDot (String d r'))).
  change (endsWithDot (String ch (String d r'))) with (endsWithDot (String d r')).
  change (dropLast (String ch (String d r')))
    with (String ch (dropLast (String d r'))).
  rewrite IH. now destruct (endsWithDot (String d r')).
Qed.

(** The source and the specification's wording agree on every input. *)
Lemma formatReadingValue_spec : forall raw,
  formatReadingValue raw = normalize_spec raw.
Proof.
  intros raw. unfold formatReadingValue, normalize_spec.
  destruct (String.eqb raw "") eqn:E.
  - apply String.eqb_eq in E. subst raw. reflexivity.
  - set (cleaned := filterChars isKept raw).
    rewrite many_parts.
    destruct (1 <? countChar "." cleaned)%nat eqn:M.
    + rewrite merge_parts by (now rewrite many_parts).
      now rewrite leadingDot_spec, trailingDot_spec.
    + now rewrite leadingDot_spec, trailingDot_spec.
Qed.

(** ** The shape of a normalized value *)

Lemma allChars_filterChars : forall p s, allChars p (filterChars p s) = true.
Proof.
  intros p s. induction s as [|ch r IH]; [reflexivity|].
  cbn. destruct (p ch) eqn:E; [cbn; now rewrite E|exact IH].
Qed.

Lemma filterChars_id : forall p s, allChars p s = true -> filterChars p s = s.
Proof.
  intros p s. induction s as [|ch r IH]; [reflexivity|].
  cbn. intros H. apply andb_true_iff in H as [H1 H2].
  now rewrite H1, IH.
Qed.

Lemma allChars_removeChar : forall p ch s,
  allChars p s = true -> allChars p (removeChar ch s) = true.
Proof.
  intros p ch s. induction s as [|d r IH]; [reflexivity|].
  cbn. intros H. apply andb_true_iff in H as [H1 H2].
  destruct (Ascii.eqb d ch); cbn; [auto|]. now rewrite H1, IH.
Qed.

Lemma allChars_keepFirstDot : forall p s,
  allChars p s = true -> allChars p (keepFirstDot s) = true.
Proof.
  intros p s. induction s as [|d r IH]; [reflexivity|].
  cbn. intros H. apply andb_true_iff in H as [H1 H2].
  destruct (Ascii.eqb d "."); cbn; rewrite H1; cbn;
    [now apply allChars_removeChar|auto].
Qed.

Lemma allChars_leadingDot : forall s,
  allChars isKept s = true -> allChars isKept (leadingDot s) = true.
Proof.
  intros s H. rewrite leadingDot_spec.
  destruct (startsWithDot s); [exact H|exact H].
Qed.

Lemma allChars_trailingDot : forall p s,
  allChars p s = true -> allChars p (trailingDot s) = true.
Proof.
  intros p s. induction s as [|ch r IH]; [reflexivity|].
  intros H. cbn in H. apply andb_true_iff in H as [H1 H2].
  destruct r as [|d r'].
  - cbn. destruct (Ascii.eqb ch "."); cbn; [reflexivity|now rewrite H1].
  - change (trailingDot (String ch (String d r')))
      with (String ch (trailingDot (String d r'))).
    cbn [allChars]. rewrite H1. cbn. auto.
Qed.

Lemma countChar_removeChar : forall ch s, countChar ch (removeChar ch s) = 0%nat.
Proof.
  intros ch s. induction s as [|d r IH]; [reflexivity|].
  cbn. destruct (Ascii.eqb d ch) eqn:E; [exact IH|]. cbn. now rewrite E.
Qed.

Lemma removeChar_id : forall ch s, countChar ch s = 0%nat -> removeChar ch s = s.
Proof.
  intros ch s. induction s as [|d r IH]; [reflexivity|].
  cbn. destruct (Ascii.eqb d ch); [discriminate|].
  cbn. intros H. now rewrite IH.
Qed.

Lemma countChar_keepFirstDot : forall s,
  (countChar "." (keepFirstDot s) <= 1)%nat.
Proof.
  induction s as [|d r IH]; cbn; [lia|].
  destruct (Ascii.eqb d ".") eqn:E; cbn; rewrite E.
  - rewrite countChar_removeChar. lia.
  - exact IH.
Qed.

Lemma keepFirstDot_id : forall s,
  (countChar "." s <= 1)%nat -> keepFirstDot s = s.
Proof.
  induction s as [|d r IH]; [reflexivity|].
  cbn. destruct (Ascii.eqb d "."); cbn; intros H.
  - rewrite removeChar_id by lia. reflexivity.
  - now rewrite IH.
Qed.

Lemma countChar_leadingDot : forall s,
  countChar "." (leadingDot s) = countChar "." s.
Proof.
  intros s. rewrite leadingDot_spec. now destruct (startsWithDot s).
Qed.

Lemma countChar_trailingDot : forall s,
  (countChar "." (trailingDot s) <= countChar "." s)%nat.
Proof.
  induction s as [|ch r IH]; [cbn; lia|].
  destruct r as [|d r'].
  - cbn. destruct (Ascii.eqb ch ".") eqn:E; cbn; [lia|rewrite E; lia].
  - change (trailingDot (String ch (String d r')))
      with (String ch (trailingDot (String d r'))).
    cbn [countChar] in *. lia.
Qed.

Lemma startsWithDot_leadingDot : forall s, startsWithDot (leadingDot s) = false.
Proof.
  intros [|ch r]; [reflexivity|].
  destruct ch as [[] [] [] [] [] [] [] []]; reflexivity.
Qed.

Lemma leadingDot_id : forall s, startsWithDot s = false -> leadingDot s = s.
Proof. intros s H. now rewrite leadingDot_spec, H. Qed.

Lemma startsWithDot_eqb : forall ch r,
  startsWithDot (String ch r) = Ascii.eqb ch ".".
Proof. intros ch r. destruct ch as [[] [] [] [] [] [] [] []]; reflexivity. Qed.

Lemma startsWithDot_trailingDot : forall s,
  startsWithDot s = false -> startsWithDot (trailingDot s) = false.
Proof.
  intros [|ch r] H; [reflexivity|].
  rewrite startsWithDot_eqb in H.
  destruct r as [|d r'].
  - cbn. rewrite H. now rewrite startsWithDot_eqb.
  - change (trailingDot (String ch (String d r')))
      with (String ch (trailingDot (String d r'))).
    now rewrite startsWithDot_eqb.
Qed.

Lemma trailingDot_no_dot : forall s,
  countChar "." s = 0%nat -> trailingDot s = s.
Proof.
  induction s as [|ch r IH]; [reflexivity|].
  intros H. cbn in H.
  destruct (Ascii.eqb ch ".") eqn:E; [discriminate|].
  destruct r as [|d r']; [cbn; now rewrite E|].
  change (trailingDot (String ch (String d r')))
    with (String ch (trailingDot (String d r'))).
  now rewrite IH.
Qed.

(** With at most one dot, dropping the trailing dot leaves none at the end. *)
Lemma trailingDot_idem : forall s,
  (countChar "." s <= 1)%nat -> trailingDot (trailingDot s) = trailingDot s.
Proof.
  induction s as [|ch r IH]; [reflexivity|].
  intros H. destruct r as [|d r'].
  - cbn. destruct (Ascii.eqb ch ".") eqn:E; [reflexivity|]. cbn. now rewrite E.
  - change (trailingDot (String ch (String d r')))
      with (String ch (trailingDot (String d r'))).
    cbn [countChar] in H.
    destruct (Ascii.eqb ch ".") eqn:E.
    + rewrite (trailingDot_no_dot (String d r')) by (cbn [countChar]; lia).
      change (trailingDot (String ch (String d r')))
        with (String ch (trailingDot (String d r'))).
      rewrite (trailingDot_no_dot (String d r')) by (cbn [countChar]; lia).
      reflexivity.
    + destruct (trailingDot (String d r')) as [|d2 r2] eqn:T.
      * cbn. now rewrite E.
      * change (trailingDot (String ch (String d2 r2)))
          with (String ch (trailingDot (String d2 r2))).
        rewrite IH by (cbn [countChar]; lia). reflexivity.
Qed.

(** The last step of the normalizer. *)
Definition orZero (s : string) : string :=
  if String.eqb s "" || String.eqb s "-" || String.eqb s "." then "0" else s.

(** The normalizer as one chain; the merge of the parts is [keepFirstDot]
    whether or not there were more than two. *)
Lemma formatReadingValue_chain : forall raw,
  formatReadingValue raw =
  orZero (trailingDot (leadingDot (keepFirstDot (filterChars isKept raw)))).
Proof.
  intros raw. unfold formatReadingValue, orZero.
  destruct (String.eqb raw "") eqn:E.
  - apply String.eqb_eq in E. subst raw. reflexivity.
  - set (cleaned := filterChars isKept raw).
    destruct (2 <? List.length (split "." cleaned))%nat eqn:M.
    + now rewrite merge_parts.
    + rewrite many_parts in M. apply Nat.ltb_ge in M.
      now rewrite keepFirstDot_id.
Qed.

(** A value the normalizer leaves alone: kept characters only, at most one
    dot, none at either end, and not one of the three degenerate strings. *)
Definition isNormal (s : string) : Prop :=
  allChars isKept s = true /\ (countChar "." s <= 1)%nat /\
  startsWithDot s = false /\ trailingDot s = s /\ orZero s = s.

Lemma isNormal_fixed : forall s, isNormal s -> formatReadingValue s = s.
Proof.
  intros s (K & D & L & T & Z). rewrite formatReadingValue_chain.
  rewrite filterChars_id by exact K.
  rewrite keepFirstDot_id by exact D.
  rewrite leadingDot_id by exact L.
  now rewrite T.
Qed.

Lemma formatReadingValue_isNormal : forall raw,
  isNormal (formatReadingValue raw).
Proof.
  intros raw. rewrite formatReadingValue_chain.
  set (cleaned := filterChars isKept raw).
  set (merged := keepFirstDot cleaned).
  set (led := leadingDot merged).
  set (cut := trailingDot led).
  assert (K : allChars isKept cut = true).
  { apply allChars_trailingDot, allChars_leadingDot, allChars_keepFirstDot,
      allChars_filterChars. }
  assert (D1 : (countChar "." led <= 1)%nat).
  { unfold led. rewrite countChar_leadingDot. apply countChar_keepFirstDot. }
  assert (D : (countChar "." cut <= 1)%nat).
  { pose proof (countChar_trailingDot led). unfold cut. lia. }
  assert (L : startsWithDot cut = false).
  { apply startsWithDot_trailingDot, startsWithDot_leadingDot. }
  assert (T : trailingDot cut = cut).
  { apply trailingDot_idem. exact D1. }
  unfold orZero.
  destruct (String.eqb cut "" || String.eqb cut "-" || String.eqb cut ".") eqn:B.
  - repeat split; try reflexivity. cbn. lia.
  - repeat split; try assumption. unfold orZero. now rewrite B.
Qed.

(** ** The alphabet of the specification *)

(** The characters the specification keeps: the digits, '.' and '-'. *)
Definition keptBySpec (ch : ascii) : bool := hasChar ch "0123456789.-".

(** The class of the regular expression is that alphabet. *)
Lemma isKept_keptBySpec : forall ch, isKept ch = keptBySpec ch.
Proof.
  intros ch. destruct ch as [[] [] [] [] [] [] [] []]; vm_compute; reflexivity.
Qed.

Lemma filterChars_ext : forall (p q : ascii -> bool) s,
  (forall ch, p ch = q ch) -> filterChars p s = filterChars q s.
Proof.
  intros p q s H. induction s as [|ch r IH]; [reflexivity|].
  cbn [filterChars]. now rewrite H, IH.
Qed.

Lemma hasChar_allChars : forall (p : ascii -> bool) ch s,
  allChars p s = true -> hasChar ch s = true -> p ch = true.
Proof.
  intros p ch s. induction s as [|d r IH]; [discriminate|].
  cbn [allChars hasChar]. intros A H.
  apply andb_true_iff in A as [A1 A2]. apply orb_true_iff in H as [H|H].
  - apply Ascii.eqb_eq in H. now subst d.
  - now apply IH.
Qed.

(** The normalizer in the specification's words, over its own alphabet:
    strip, keep the first of several dots, lead with a zero, drop a trailing
    dot, and give "0" for an empty result, "-" and ".". *)
Definition normalize_words (raw : string) : string :=
  let stripped := filterChars keptBySpec raw in
  let oneDot := if (1 <? countChar "." stripped)%nat
                then keepFirstDot stripped else stripped in
  let led := if startsWithDot oneDot then "0" ++ oneDot else oneDot in
  let cut := if endsWithDot led then dropLast led else led in
  if String.eqb cut "" || String.eqb cut "-" || String.eqb cut "."
  then "0" else cut.

Lemma normalize_words_spec : forall raw,
  normalize_words raw = normalize_spec raw.
Proof.
  intros raw. unfold normalize_words, normalize_spec.
  now rewrite (filterChars_ext keptBySpec isKept raw)
    by (intros ch; symmetry; apply isKept_keptBySpec).
Qed.

(** C8.  The normalizer does what the specification says, step by step:
    for every input it equals [normalize_words] (strip everything that is
    not one of 0123456789.- ; with more than one '.', keep the first and
    close up the rest; a leading '.' becomes "0."; a trailing '.' is
    dropped; an empty result, "-" and "." become "0"); the class of the
    regular expression keeps exactly those twelve characters, and the value
    returned holds no other; the five sample values are as listed, and
    letters, blanks, commas and units are stripped from the further
    samples. *)
Theorem formatReadingValue_normalizes :
  (forall raw, formatReadingValue raw = normalize_spec raw) /\
  (forall raw, allChars isKept (formatReadingValue raw) = true) /\
  formatReadingValue "" = "0" /\
  formatReadingValue "." = "0" /\
  formatReadingValue "-" = "0" /\
  formatReadingValue "1.2.3" = "1.23" /\
  formatReadingValue ".5" = "0.5" /\
  (forall raw, formatReadingValue raw = normalize_words raw) /\
  (forall ch, isKept ch = hasChar ch "0123456789.-") /\
  (forall raw ch, hasChar ch (formatReadingValue raw) = true ->
     hasChar ch "0123456789.-" = true) /\
  (forall raw, filterChars isKept raw = ""%string ->
     formatReadingValue raw = "0") /\
  formatReadingValue " 12.5 V" = "12.5" /\
  formatReadingValue "abc" = "0" /\
  formatReadingValue "-1,234.50 mV." = "-1234.50" /\
  formatReadingValue "Reading: -0.75e3" = "-0.753" /\
  formatReadingValue "12a.b3." = "12.3" /\
  formatReadingValue "x.y" = "0".
Proof.
  split. { exact formatReadingValue_spec. }
  split. { intros raw. apply formatReadingValue_isNormal. }
  do 5 (split; [reflexivity|]).
  split.
  { intros raw. now rewrite normalize_words_spec, formatReadingValue_spec. }
  split. { exact isKept_keptBySpec. }
  split.
  { intros raw ch H. fold (keptBySpec ch). rewrite <- isKept_keptBySpec.
    apply (hasChar_allChars isKept ch (formatReadingValue raw)); [|exact H].
    apply formatReadingValue_isNormal. }
  split.
  { intros raw E. rewrite formatReadingValue_chain, E. reflexivity. }
  repeat split; reflexivity.
Qed.

(** C9.  The normalizer is idempotent on every input string. *)
Theorem formatReadingValue_idempotent : forall raw,
  formatReadingValue (formatReadingValue raw) = formatReadingValue raw.
Proof.
  intros raw. apply isNormal_fixed, formatReadingValue_isNormal.
Qed.

End Normalizer.

(* ================================================================== *)
(** * Properties of the confidence scorer *)
(* ================================================================== *)

Module Scorer.

Import UseOpenCV OpenCVService.

Lemma activeCount_le_7 : forall s, (activeCount s <= 7)%nat.
Proof. intros [[] [] [] [] [] [] []]; cbn; lia. Qed.

(** One step of the loop adds the base confidence of the digit and counts
    the digit, whatever branch is taken. *)
Lemma scoreDigit_base : forall t s,
  scoreDigit t s =
  mkTally (totalConfidence t + baseConfidence (activeCount s))%float
          (S (validDigits t)).
Proof.
  intros t s. unfold scoreDigit, baseConfidence.
  destruct ((2 <=? activeCount s) && (activeCount s <=? 7))%nat; [reflexivity|].
  destruct (activeCount s =? 1)%nat; reflexivity.
Qed.

(** The loop invariant: the running total is the left-to-right sum of the
    base confidences, and every digit has been counted. *)
Lemma fold_scoreDigit : forall segs total n,
  fold_left scoreDigit segs (mkTally total n) =
  mkTally (fold_left PrimFloat.add
             (map (fun s => baseConfidence (activeCount s)) segs) total)
          (n + List.length segs).
Proof.
  induction segs as [|s rest IH]; intros total n.
  - cbn. now rewrite Nat.add_0_r.
  - cbn [fold_left map List.length]. rewrite scoreDigit_base. cbn [totalConfidence validDigits].
    rewrite IH. f_equal. lia.
Qed.

Lemma calculateConfidence_spec : forall segments raw,
  calculateConfidence segments raw = confidence_spec segments raw.
Proof.
  intros [|s rest] raw; [reflexivity|].
  unfold calculateConfidence, confidence_spec, meanFloats, sumFloats.
  cbn [List.length Nat.eqb].
  rewrite fold_scoreDigit. cbn [validDigits totalConfidence Nat.add].
  rewrite length_map.
  rewrite Normalizer.formatReadingValue_spec.
  reflexivity.
Qed.

(** ** The number of lit segments *)

(** The count of the specification: one for every lit segment of the
    seven. *)
Definition litSegments (s : SegmentState) : nat :=
  (Nat.b2n (a s) + Nat.b2n (b s) + Nat.b2n (c s) + Nat.b2n (d s)
   + Nat.b2n (e s) + Nat.b2n (f s) + Nat.b2n (g s))%nat.

(** What the source counts with [filter(Boolean).length] is that number. *)
Lemma activeCount_litSegments : forall s, activeCount s = litSegments s.
Proof. intros [[] [] [] [] [] [] []]; reflexivity. Qed.

(** One segment state for each count from 0 to 7: the blank, segment a
    alone, and the digits 1, 7, 4, 5, 0 and 8. *)
Definition byCount : list SegmentState :=
  [ allOff;
    Segs true false false false false false false;
    Segs false true true false false false false;
    Segs true true true false false false false;
    Segs false true true false false true true;
    Segs true false true true false true true;
    Segs true true true true true true false;
    allOn ].

Lemma byCount_unparseable :
  map (fun s => calculateConfidence [s] "--") byCount
  = [ 0.069999999999999993; 0.41999999999999998; 0.59999999999999998;
      0.62; 0.64000000000000001; 0.66000000000000003;
      0.68000000000000005; 0.69999999999999996 ]%float.
Proof. vm_compute. reflexivity. Qed.

Lemma byCount_parseable :
  map (fun s => calculateConfidence [s] "0") byCount
  = [ 0.12; 0.71999999999999997; 1; 1; 1; 1; 1; 1 ]%float.
Proof. vm_compute. reflexivity. Qed.

(** C4.  The scorer returns 0 for an empty sequence; otherwise it is the
    mean of the per-digit base confidences, times 1.2 capped at 1.0 when the
    normalized value parses as a number and times 0.7 otherwise.  The base
    confidence of a digit with [n] lit segments is 0.1 for n = 0, 0.6 for
    n = 1 and 0.8 + (n/7)*0.2 for n from 2 to 7, and a digit never has more
    than 7.  The count of a digit is the number of its lit segments, one for
    each of the seven; the scorer is evaluated on one state for every count
    from 0 to 7, with a value that does not parse (discounted) and with one
    that does (boosted, capped from count 2 on), and on two digits. *)
Theorem calculateConfidence_formula :
  (forall raw, calculateConfidence [] raw = 0%float) /\
  (forall segments raw,
     calculateConfidence segments raw = confidence_spec segments raw) /\
  (forall s rest raw,
     calculateConfidence (s :: rest) raw =
     let average :=
       meanFloats (map (fun s => baseConfidence (activeCount s)) (s :: rest)) in
     if parseFloat_isNaN (formatReadingValue raw)
     then (average * 0.7)%float
     else Math_min (average * 1.2)%float 1.0%float) /\
  (forall s, (activeCount s <= 7)%nat) /\
  baseConfidence 0 = 0.1%float /\
  baseConfidence 1 = 0.6%float /\
  (forall n, (2 <= n <= 7)%nat ->
     baseConfidence n = (0.8 + (Z2F (Z.of_nat n) / 7) * 0.2)%float) /\
  (forall s, activeCount s = litSegments s) /\
  (forall s rest raw,
     calculateConfidence (s :: rest) raw =
     let average :=
       meanFloats (map (fun s => baseConfidence (litSegments s)) (s :: rest)) in
     if parseFloat_isNaN (formatReadingValue raw)
     then (average * 0.7)%float
     else Math_min (average * 1.2)%float 1.0%float) /\
  map litSegments byCount = [0; 1; 2; 3; 4; 5; 6; 7]%nat /\
  map (fun s => calculateConfidence [s] "--") byCount
  = [ 0.069999999999999993; 0.41999999999999998; 0.59999999999999998;
      0.62; 0.64000000000000001; 0.66000000000000003;
      0.68000000000000005; 0.69999999999999996 ]%float /\
  map (fun s => calculateConfidence [s] "0") byCount
  = [ 0.12; 0.71999999999999997; 1; 1; 1; 1; 1; 1 ]%float /\
  calculateConfidence [allOff; allOn] "--" = 0.38500000000000001%float /\
  calculateConfidence
    [allOff; Segs true false false false false false false] "7"
  = 0.41999999999999998%float /\
  calculateConfidence [allOff] "" = 0.12%float.
Proof.
  assert (General : forall s rest raw,
     calculateConfidence (s :: rest) raw =
     let average :=
       meanFloats (map (fun s => baseConfidence (activeCount s)) (s :: rest)) in
     if parseFloat_isNaN (formatReadingValue raw)
     then (average * 0.7)%float
     else Math_min (average * 1.2)%float 1.0%float).
  { intros s rest raw. rewrite calculateConfidence_spec.
    unfold confidence_spec. rewrite <- Normalizer.formatReadingValue_spec.
    now destruct (parseFloat_isNaN (formatReadingValue raw)). }
  split. { reflexivity. }
  split. { exact calculateConfidence_spec. }
  split. { exact General. }
  split. { exact activeCount_le_7. }
  split. { reflexivity. }
  split. { reflexivity. }
  split.
  { intros n [H2 H7]. unfold baseConfidence.
    replace ((2 <=? n) && (n <=? 7))%nat with true; [reflexivity|].
    symmetry. apply andb_true_iff. split; apply Nat.leb_le; lia. }
  split. { exact activeCount_litSegments. }
  split.
  { intros s rest raw. rewrite General. cbv zeta.
    rewrite (map_ext (fun s => baseConfidence (activeCount s))
                     (fun s => baseConfidence (litSegments s)));
      [reflexivity|].
    intros s'. now rewrite activeCount_litSegments. }
  split. { reflexivity. }
  split. { exact byCount_unparseable. }
  split. { exact byCount_parseable. }
  repeat split; vm_compute; reflexivity.
Qed.

End Scorer.

(* ================================================================== *)
(** * Properties of the display region detector *)
(* ================================================================== *)

Module Detector.

Import UseOpenCV.

(** Left-to-right reading order. *)
Definition leftOf (r1 r2 : Rect) : Prop := (x r1 <= x r2)%Z.

(** The retention test, spelled out. *)
Definition retained (r : Rect) : Prop :=
  (500 < width r * height r)%Z /\ (width r * height r < 50000)%Z /\
  PrimFloat.ltb 1.2 (Z2F (height r) / Z2F (width r)) = true /\
  PrimFloat.ltb (Z2F (height r) / Z2F (width r)) 3.0 = true.

Lemma isDigitRegion_retained : forall r, isDigitRegion r = true <-> retained r.
Proof.
  intros r. unfold isDigitRegion, qualifies, rectArea, rectAspectRatio, retained.
  rewrite !andb_true_iff, !Z.ltb_lt. tauto.
Qed.

Lemma insertByX_perm : forall r l, Permutation (insertByX r l) (r :: l).
Proof.
  intros r l. induction l as [|r2 rest IH]; cbn; [reflexivity|].
  destruct (0 <? x r - x r2)%Z; [|reflexivity].
  rewrite IH. apply perm_swap.
Qed.

Lemma sortByX_perm : forall l, Permutation (sortByX l) l.
Proof.
  induction l as [|r rest IH]; cbn; [reflexivity|].
  rewrite insertByX_perm. now constructor.
Qed.

Lemma insertByX_sorted : forall r l,
  StronglySorted leftOf l -> StronglySorted leftOf (insertByX r l).
Proof.
  intros r l H. induction H as [|r2 rest Hs IH Hall]; cbn.
  - constructor; constructor.
  - destruct (0 <? x r - x r2)%Z eqn:E.
    + apply Z.ltb_lt in E. constructor; [exact IH|].
      apply (Permutation_Forall (Permutation_sym (insertByX_perm r rest))).
      constructor; [unfold leftOf; lia|exact Hall].
    + apply Z.ltb_ge in E. constructor.
      * now constructor.
      * constructor; [unfold leftOf; lia|].
        eapply Forall_impl; [|exact Hall].
        intros r3 H3. unfold leftOf in *. lia.
Qed.

Lemma sortByX_sorted : forall l, StronglySorted leftOf (sortByX l).
Proof.
  induction l as [|r rest IH]; cbn; [constructor|].
  now apply insertByX_sorted.
Qed.

Lemma filter_none : forall rects,
  (forall r, In r rects -> ~ retained r) -> filter isDigitRegion rects = [].
Proof.
  induction rects as [|r rest IH]; intros Hnone; [reflexivity|].
  cbn. destruct (isDigitRegion r) eqn:D.
  - apply isDigitRegion_retained in D.
    now destruct (Hnone r (or_introl eq_refl)).
  - apply IH. intros r' Hin. apply Hnone. now right.
Qed.

(** What [detectDisplay] returns once the library has answered. *)
Lemma detectDisplay_ready : forall cv_boundingRects h m rects,
  isReady h = true -> cvRef_current h = true ->
  cv_boundingRects m = Normal rects ->
  detectDisplay cv_boundingRects h (Some m) = sortByX (filter isDigitRegion rects).
Proof.
  intros cvb h m rects R C E. unfold detectDisplay.
  rewrite R, C, E. reflexivity.
Qed.

Lemma detectDisplay_sorted : forall cv_boundingRects h binaryImage,
  StronglySorted leftOf (detectDisplay cv_boundingRects h binaryImage).
Proof.
  intros cvb h [m|]; unfold detectDisplay; [|constructor].
  destruct (negb (cvRef_current h) || negb (isReady h)); [constructor|].
  destruct (cvb m) as [rects|msg]; cbn; [apply sortByX_sorted|constructor].
Qed.

Lemma detectDisplay_all_retained : forall cv_boundingRects h binaryImage r,
  In r (detectDisplay cv_boundingRects h binaryImage) -> retained r.
Proof.
  intros cvb h [m|] r; unfold detectDisplay; [|intros []].
  destruct (negb (cvRef_current h) || negb (isReady h)); [intros []|].
  destruct (cvb m) as [rects|msg]; cbn; [|intros []].
  intros H. apply (Permutation_in _ (sortByX_perm _)) in H.
  apply filter_In in H. now apply isDigitRegion_retained.
Qed.

(** Five outlines: two digit cells, a blob that is too small, and two whose
    ratio sits on a bound (1.2 and 3.0), which the strict test rejects. *)
Example detectDisplay_five_outlines :
  detectDisplay
    (fun _ => Normal [ mkRect 50 0 20 40; mkRect 10 0 22 45; mkRect 0 0 10 10;
                       mkRect 70 3 30 36; mkRect 10 9 25 75 ])
    (mkHook true true) (Some (mkMat 100 100 (fun _ _ => 0%Z)))
  = [ mkRect 10 0 22 45; mkRect 50 0 20 40 ].
Proof. vm_compute. reflexivity. Qed.

(** C7.  The detector retains a bounding rectangle exactly when its area is
    strictly between 500 and 50000 and its height/width ratio is strictly
    between 1.2 and 3.0; the result is sorted ascending by x; it is the
    empty sequence when no rectangle qualifies and when the library throws
    (it never fails); an area of 1000 with a ratio of 2.0 passes the test,
    so such a single blob gives exactly one region, and an area of 100 fails
    it, so such a blob gives none. *)
Theorem detectDisplay_filters_and_sorts :
  forall (cv_boundingRects : Mat -> Completion (list Rect)) (h : Hook)
         (binaryImage : option Mat),
  let out := detectDisplay cv_boundingRects h binaryImage in
  StronglySorted leftOf out /\
  (forall r, In r out -> retained r) /\
  (forall m rects,
     isReady h = true -> cvRef_current h = true ->
     binaryImage = Some m -> cv_boundingRects m = Normal rects ->
     Permutation out (filter isDigitRegion rects) /\
     (forall r, In r out <-> In r rects /\ retained r) /\
     ((forall r, In r rects -> ~ retained r) -> out = []) /\
     (forall r, rects = [r] ->
        (rectArea r = 1000%Z -> rectAspectRatio r = 2.0%float -> out = [r]) /\
        (retained r -> out = [r]) /\
        (rectArea r = 100%Z -> out = []))) /\
  (forall m msg,
     binaryImage = Some m -> cv_boundingRects m = Throw msg -> out = []) /\
  qualifies 1000 2.0 = true /\
  (forall ratio, qualifies 100 ratio = false).
Proof.
  intros cvb h binaryImage out.
  split. { apply detectDisplay_sorted. }
  split. { apply detectDisplay_all_retained. }
  split.
  { intros m rects R C -> E. subst out.
    rewrite (detectDisplay_ready cvb h m rects R C E).
    split. { apply sortByX_perm. }
    split.
    { intros r. rewrite <- isDigitRegion_retained, <- filter_In.
      split; apply Permutation_in;
        [apply sortByX_perm|apply Permutation_sym, sortByX_perm]. }
    split.
    { intros Hnone. now rewrite filter_none. }
    intros r ->. cbn [filter].
    split.
    { intros A Q. unfold isDigitRegion. rewrite A, Q. reflexivity. }
    split.
    { intros Hr. apply isDigitRegion_retained in Hr. now rewrite Hr. }
    intros A. unfold isDigitRegion. rewrite A. reflexivity. }
  split.
  { intros m msg -> E. subst out. unfold detectDisplay.
    destruct (negb (cvRef_current h) || negb (isReady h)); [reflexivity|].
    now rewrite E. }
  split; reflexivity.
Qed.

(** The five outlines again, through the statement above. *)
Lemma detectDisplay_filters_and_sorts_witness :
  let outlines :=
    [ mkRect 50 0 20 40; mkRect 10 0 22 45; mkRect 0 0 10 10;
      mkRect 70 3 30 36; mkRect 10 9 25 75 ] in
  let blank := mkMat 100 100 (fun _ _ => 0%Z) in
  let out := detectDisplay (fun _ => Normal outlines) (mkHook true true)
                           (Some blank) in
  isReady (mkHook true true) = true /\
  cvRef_current (mkHook true true) = true /\
  StronglySorted leftOf out /\
  Permutation out (filter isDigitRegion outlines) /\
  (In (mkRect 10 0 22 45) out <->
   In (mkRect 10 0 22 45) outlines /\ retained (mkRect 10 0 22 45)).
Proof.
  intros outlines blank out.
  destruct (detectDisplay_filters_and_sorts
              (fun _ => Normal outlines) (mkHook true true) (Some blank))
    as (Hsorted & _ & Hready & _).
  destruct (Hready blank outlines eq_refl eq_refl eq_refl eq_refl)
    as (Hperm & Hin & _).
  split; [reflexivity|]. split; [reflexivity|].
  split; [exact Hsorted|]. split; [exact Hperm|]. apply Hin.
Defined.

End Detector.

(* ================================================================== *)
(** * Properties of the segment state extractor *)
(* ================================================================== *)

Module Extractor.

Import UseOpenCV.

(** The hook once the vision library is loaded. *)
Definition ready : Hook := mkHook true true.

(** The seven segments with their geometry, in the order of the table. *)
Definition geometry : list ((SegmentState -> bool) * SegmentPos) :=
  [ (a, pos_a); (b, pos_b); (c, pos_c); (d, pos_d);
    (e, pos_e); (f, pos_f); (g, pos_g) ].

(** A segment rectangle, given relative to the digit cell, in the
    coordinates of the image. *)
Definition absolute (digitRect seg : Rect) : Rect :=
  mkRect (x digitRect + x seg) (y digitRect + y seg) (width seg) (height seg).

(** The number of non-zero pixels of the image inside [rect]. *)
Definition whitePixelsIn (m : Mat) (rect : Rect) : Z :=
  Z.of_nat (List.length
    (filter (fun ij => negb (pixel m (y rect + fst ij) (x rect + snd ij) =? 0)%Z)
            (list_prod (zrange (height rect)) (zrange (width rect))))).

(** The white-pixel fraction of the image inside the absolute rectangle of
    a segment. *)
Definition whiteFraction (m : Mat) (digitRect seg : Rect) : float :=
  (Z2F (whitePixelsIn m (absolute digitRect seg))
   / Z2F (width seg * height seg))%float.

(** A segment is lit: its rectangle lies inside the cell and more than 30%
    of it is white. *)
Definition lit (m : Mat) (digitRect : Rect) (pos : SegmentPos) : bool :=
  match segmentRect digitRect pos with
  | Some seg =>
      insideDigit digitRect seg
      && PrimFloat.ltb 0.3 (whiteFraction m digitRect seg)
  | None => false
  end.

(** The digit rectangle lies inside the image and is not empty. *)
Definition inBounds (m : Mat) (r : Rect) : Prop :=
  (0 <= x r /\ 0 <= y r /\ 0 < width r /\ 0 < height r /\
   x r + width r <= cols m /\ y r + height r <= rows m)%Z.



Lemma invalidBounds_false : forall m r,
  invalidBounds m r = false <-> inBounds m r.
Proof.
  intros m r. unfold invalidBounds, inBounds.
  rewrite !orb_false_iff, !Z.ltb_ge, !Z.leb_gt. tauto.
Qed.

(** The view of the image inside the digit rectangle. *)
Definition digitView (m : Mat) (r : Rect) : Mat :=
  mkMat (height r) (width r) (fun i j => pixel m (y r + i) (x r + j))%Z.

Lemma roi_digit : forall m r, inBounds m r -> roi m r = Normal (digitView m r).
Proof.
  intros m r (Hx & Hy & Hw & Hh & Hc & Hr). unfold roi.
  replace ((0 <=? x r) && (0 <=? width r) && (x r + width r <=? cols m)
           && (0 <=? y r) && (0 <=? height r)
           && (y r + height r <=? rows m))%Z with true; [reflexivity|].
  symmetry. rewrite !andb_true_iff, !Z.leb_le. lia.
Qed.

Lemma countNonZero_view : forall m r seg,
  countNonZero (mkMat (height seg) (width seg)
     (fun i j => pixel (digitView m r) (y seg + i) (x seg + j))%Z)
  = whitePixelsIn m (absolute r seg).
Proof.
  intros m r seg. unfold countNonZero, whitePixelsIn. cbn.
  do 2 f_equal. apply filter_ext. intros [i j]. cbn.
  now rewrite !Z.add_assoc.
Qed.

(** Sampling one segment through the two nested views is sampling the
    image at the absolute rectangle. *)
Lemma segmentOn_lit : forall m r pos,
  segmentOn (digitView m r) r pos = Normal (lit m r pos).
Proof.
  intros m r pos. unfold segmentOn, lit.
  destruct (segmentRect r pos) as [seg|]; [|reflexivity].
  destruct (insideDigit r seg) eqn:I; [|reflexivity].
  unfold insideDigit in I. rewrite !andb_true_iff, !Z.leb_le, !Z.ltb_lt in I.
  unfold roi. cbn [rows cols digitView].
  replace ((0 <=? x seg) && (0 <=? width seg) && (x seg + width seg <=? width r)
           && (0 <=? y seg) && (0 <=? height seg)
           && (y seg + height seg <=? height r))%Z with true.
  2:{ symmetry. rewrite !andb_true_iff, !Z.leb_le. lia. }
  cbn [bind]. rewrite countNonZero_view. reflexivity.
Qed.

Lemma analyzeSegments_inBounds : forall m r,
  inBounds m r ->
  analyzeSegments ready (Some m) (Some r) =
  Segs (lit m r pos_a) (lit m r pos_b) (lit m r pos_c) (lit m r pos_d)
       (lit m r pos_e) (lit m r pos_f) (lit m r pos_g).
Proof.
  intros m r B. unfold analyzeSegments. cbn [ready cvRef_current isReady negb orb].
  rewrite (proj2 (invalidBounds_false m r) B).
  rewrite (roi_digit m r B). cbn [bind].
  rewrite !segmentOn_lit. reflexivity.
Qed.


(** The floor-rounded rectangles of the segments a and d in a cell of 20
    by 40 pixels, and in one of 3 by 5 where they are empty. *)
Example segmentRect_cell_20_40 :
  segmentRect (mkRect 5 7 20 40) pos_a = Some (mkRect 4 0 12 6) /\
  segmentRect (mkRect 5 7 20 40) pos_d = Some (mkRect 4 34 12 6) /\
  segmentRect (mkRect 5 7 3 5) pos_a = Some (mkRect 0 0 1 0).
Proof. vm_compute. repeat split; reflexivity. Qed.

(** An image of 30 by 50 pixels, white in its upper half: in the cell at
    (5,5) of 20 by 40 the segments a, b, f and g are on; the same cell with
    height 60 leaves the image and gives all off. *)
Definition upperHalf : Mat :=
  mkMat 50 30 (fun i _ => if (i <? 25)%Z then 255%Z else 0%Z).

Example analyzeSegments_upper_half :
  analyzeSegments ready (Some upperHalf) (Some (mkRect 5 5 20 40))
  = Segs true true false false false true true /\
  analyzeSegments ready (Some upperHalf) (Some (mkRect 5 5 20 60)) = allOff.
Proof. vm_compute. split; reflexivity. Qed.



End Extractor.

(* ================================================================== *)
(** * Properties of the end-to-end pipeline *)
(* ================================================================== *)

Module Pipeline.

Import UseOpenCV.

(** The score [processImage] gives one region, from its segment state. *)
Definition regionScore (s : SegmentState) : float :=
  if String.eqb (segmentsToDigit s) "?"
  then Math_max 0.1 (Z2F (Z.of_nat (activeCount s)) / 7)%float
  else 0.9%float.

Lemma segmentsToDigit_length : forall s, String.length (segmentsToDigit s) = 1%nat.
Proof. intros [[] [] [] [] [] [] []]; reflexivity. Qed.

Lemma length_append : forall s1 s2,
  String.length (s1 ++ s2) = (String.length s1 + String.length s2)%nat.
Proof. induction s1 as [|ch r IH]; intros s2; cbn; [reflexivity|now rewrite IH]. Qed.

(** Joining one-character strings gives one character per string. *)
Lemma length_join_chars : forall l,
  Forall (fun s => String.length s = 1%nat) l ->
  String.length (join "" l) = List.length l.
Proof.
  induction 1 as [|s rest Hs Hrest IH]; [reflexivity|].
  rewrite Normalizer.join_empty_cons, length_append, Hs, IH. reflexivity.
Qed.

Section Regions.

Variable h : Hook.
Variable binaryImage : Mat.

Definition segmentsOf (region : Rect) : SegmentState :=
  analyzeSegments h (Some binaryImage) (Some region).

Lemma regionConfidence_score : forall s,
  regionConfidence (segmentsToDigit s) s = regionScore s.
Proof.
  intros s. unfold regionConfidence, regionScore.
  now destruct (String.eqb (segmentsToDigit s) "?").
Qed.

(** The loop over the regions: one digit and one segment state are pushed
    per region, and the scores are added left to right. *)
Lemma fold_analyzeRegion : forall regions acc,
  fold_left (analyzeRegion h binaryImage) regions acc =
  mkAcc (digits acc ++ map (fun r => segmentsToDigit (segmentsOf r)) regions)
        (allSegments acc ++ map segmentsOf regions)
        (fold_left PrimFloat.add (map (fun r => regionScore (segmentsOf r)) regions)
                   (totalConfidence acc)).
Proof.
  induction regions as [|r rest IH]; intros acc.
  - cbn. rewrite !app_nil_r. now destruct acc.
  - cbn [fold_left map]. rewrite IH. unfold analyzeRegion.
    cbn [digits allSegments totalConfidence].
    rewrite regionConfidence_score, <- !app_assoc. reflexivity.
Qed.

End Regions.

Section Vision.

Variable ImageData : Type.
Variable cv_binarize : ImageData -> float -> Completion Mat.
Variable cv_boundingRects : Mat -> Completion (list Rect).

#[local] Abbreviation preprocessImage :=
  (preprocessImage ImageData cv_binarize).
#[local] Abbreviation detectDisplay := (detectDisplay cv_boundingRects).
#[local] Abbreviation processImage :=
  (processImage ImageData cv_binarize cv_boundingRects).

(** The frame gives nothing to decode: no binary image, or no region. *)
Definition noDetection (h : Hook) (imageData : ImageData) (threshold : float)
  : Prop :=
  preprocessImage h imageData threshold = None \/
  exists binaryImage,
    preprocessImage h imageData threshold = Some binaryImage /\
    detectDisplay h (Some binaryImage) = [].

Lemma preprocessImage_not_ready : forall h imageData threshold,
  isReady h = false -> preprocessImage h imageData threshold = None.
Proof.
  intros h i t R. unfold UseOpenCV.preprocessImage. rewrite R.
  now rewrite orb_true_r.
Qed.

Lemma preprocessImage_throw : forall h imageData threshold msg,
  cv_binarize imageData threshold = Throw msg ->
  preprocessImage h imageData threshold = None.
Proof.
  intros h i t msg E. unfold UseOpenCV.preprocessImage. rewrite E.
  now destruct (negb (cvRef_current h) || negb (isReady h)).
Qed.

(** The result on a frame with at least one region. *)
Lemma processImage_regions : forall h imageData threshold binaryImage,
  isReady h = true ->
  preprocessImage h imageData threshold = Some binaryImage ->
  detectDisplay h (Some binaryImage) <> [] ->
  let regions := detectDisplay h (Some binaryImage) in
  processImage h imageData threshold =
  mkResult
    (join "" (map (fun r => segmentsToDigit (segmentsOf h binaryImage r)) regions))
    (OpenCVService.meanFloats
       (map (fun r => regionScore (segmentsOf h binaryImage r)) regions))
    (map (segmentsOf h binaryImage) regions).
Proof.
  intros h i t bin R P D regions. unfold UseOpenCV.processImage.
  rewrite R, P. cbn [negb]. fold regions.
  destruct regions as [|r rest] eqn:E; [now destruct D|].
  rewrite <- E. replace (List.length regions =? 0)%nat with false
    by (rewrite E; reflexivity).
  cbn [try_catch]. rewrite fold_analyzeRegion.
  cbn [digits allSegments totalConfidence app].
  unfold OpenCVService.meanFloats, OpenCVService.sumFloats.
  now rewrite length_map.
Qed.

Lemma processImage_noDetection : forall h imageData threshold,
  noDetection h imageData threshold ->
  processImage h imageData threshold = emptyResult.
Proof.
  intros h i t [P|(bin & P & D)]; unfold UseOpenCV.processImage;
    destruct (negb (isReady h)); try reflexivity; rewrite P; [reflexivity|].
  now rewrite D.
Qed.

(** Whatever the frame, the result has one character per segment state. *)
Lemma processImage_lengths : forall h imageData threshold,
  String.length (value (processImage h imageData threshold))
  = List.length (segments (processImage h imageData threshold)).
Proof.
  intros h i t.
  destruct (isReady h) eqn:R.
  2:{ unfold UseOpenCV.processImage. rewrite R. reflexivity. }
  destruct (preprocessImage h i t) as [bin|] eqn:P.
  2:{ rewrite processImage_noDetection; [reflexivity|now left]. }
  destruct (detectDisplay h (Some bin)) as [|r rest] eqn:D.
  { rewrite processImage_noDetection; [reflexivity|]. right. now exists bin. }
  rewrite (processImage_regions h i t bin R P) by (rewrite D; discriminate).
  cbn [value segments]. rewrite length_join_chars, !length_map; [reflexivity|].
  apply Forall_map, Forall_forall. intros r' _. apply segmentsToDigit_length.
Qed.

End Vision.

(** ** A synthetic frame: one white cell of 20 by 40 pixels *)

Definition whiteImage : Mat := mkMat 40 20 (fun _ _ => 255%Z).
Definition oneBlob (_ : Mat) : Completion (list Rect) :=
  Normal [mkRect 0 0 20 40].
Definition binarized (_ : Datatypes.unit) (_ : float) : Completion Mat :=
  Normal whiteImage.
Definition broken (_ : Datatypes.unit) (_ : float) : Completion Mat :=
  Throw "matFromImageData failed".

Lemma synthetic_frame :
  processImage Datatypes.unit binarized oneBlob Extractor.ready tt 128
  = mkResult "8" 0.9 [allOn].
Proof. vm_compute. reflexivity. Qed.

(** The scorer of [opencv-service.ts] gives another number for the result
    of the synthetic frame. *)
Lemma synthetic_frame_scorer :
  OpenCVService.calculateConfidence [allOn] "8" = 1.0%float.
Proof. vm_compute. reflexivity. Qed.

(** ** A synthetic frame with three cells *)

(** Three cells of 20 by 40 pixels side by side: the first all white, the
    second white in its upper half, the third black. *)
Definition threeCells : Mat :=
  mkMat 40 60
    (fun i j => if (j <? 20)%Z then 255%Z
                else if (j <? 40)%Z then (if (i <? 20)%Z then 255%Z else 0%Z)
                else 0%Z).

(** The rectangles the library finds on it, in the order of its contours:
    the three cells out of order, and the frame of the whole display, which
    is too wide to be a digit. *)
Definition threeBlobs (_ : Mat) : Completion (list Rect) :=
  Normal [mkRect 40 0 20 40; mkRect 0 0 20 40; mkRect 0 0 60 40;
          mkRect 20 0 20 40].

Definition binarizedThree (_ : Datatypes.unit) (_ : float) : Completion Mat :=
  Normal threeCells.

(** The segments of the half-lit cell: a, b, f and g, a pattern that is not
    in the table. *)
Definition halfLit : SegmentState := Segs true true false false false true true.

Lemma three_cells_frame :
  processImage Datatypes.unit binarizedThree threeBlobs Extractor.ready tt 128
  = mkResult "8? " 0.79047619047619044 [allOn; halfLit; allOff].
Proof. vm_compute. reflexivity. Qed.

Lemma three_cells_scorer :
  OpenCVService.calculateConfidence [allOn; halfLit; allOff] "8? "
  = 0.80571428571428561%float.
Proof. vm_compute. reflexivity. Qed.

(** C5.  When at least one digit region is detected, the confidence that
    [processImage] reports is the arithmetic mean, over the detected regions,
    of 0.9 for a region whose character is not "?" and max(0.1, count/7) for
    the others, where the count is the number of lit segments of the region;
    the value has exactly one character per entry of the segments; and the
    number is not the one [calculateConfidence] computes: [processImage]
    does not call it.  On the frame with one white cell the result carries
    0.9 where the scorer gives 1.0; on the frame with three cells, read as
    "8", "?" (four lit segments) and the blank, it carries
    (0.9 + 4/7 + 0.9) / 3 where the scorer gives 0.8057. *)
Theorem processImage_confidence_is_region_mean :
  forall (ImageData : Type)
         (cv_binarize : ImageData -> float -> Completion Mat)
         (cv_boundingRects : Mat -> Completion (list Rect))
         (h : Hook) (imageData : ImageData) (threshold : float),
  let result :=
    processImage ImageData cv_binarize cv_boundingRects h imageData threshold in
  (forall binaryImage,
     isReady h = true ->
     preprocessImage ImageData cv_binarize h imageData threshold
       = Some binaryImage ->
     detectDisplay cv_boundingRects h (Some binaryImage) <> [] ->
     let regions := detectDisplay cv_boundingRects h (Some binaryImage) in
     let segs := map (fun r => analyzeSegments h (Some binaryImage) (Some r))
                     regions in
     segments result = segs /\
     confidence result = OpenCVService.meanFloats (map regionScore segs) /\
     value result = join "" (map segmentsToDigit segs)) /\
  (forall s, segmentsToDigit s <> "?" -> regionScore s = 0.9%float) /\
  (forall s, segmentsToDigit s = "?" ->
     regionScore s = Math_max 0.1 (Z2F (Z.of_nat (activeCount s)) / 7)%float) /\
  String.length (value result) = List.length (segments result) /\
  (let sample :=
     processImage Datatypes.unit binarized oneBlob Extractor.ready tt 128 in
   confidence sample = 0.9%float /\
   OpenCVService.calculateConfidence (segments sample) (value sample)
     = 1.0%float) /\
  (forall s, activeCount s = Scorer.litSegments s) /\
  (forall digit s,
     regionConfidence digit s =
     if String.eqb digit "?"
     then Math_max 0.1 (Z2F (Z.of_nat (Scorer.litSegments s)) / 7)%float
     else 0.9%float) /\
  (forall s, regionScore s = regionConfidence (segmentsToDigit s) s) /\
  regionConfidence "?" halfLit = (Z2F 4 / 7)%float /\
  regionConfidence "?" allOff = 0.1%float /\
  regionConfidence "8" halfLit = 0.9%float /\
  (let sample :=
     processImage Datatypes.unit binarizedThree threeBlobs Extractor.ready tt
                  128 in
   sample = mkResult "8? " 0.79047619047619044 [allOn; halfLit; allOff] /\
   map segmentsToDigit (segments sample) = ["8"; "?"; " "] /\
   map regionScore (segments sample)
   = [0.9; Z2F 4 / 7; 0.9]%float /\
   confidence sample = ((0 + 0.9 + Z2F 4 / 7 + 0.9) / Z2F 3)%float /\
   OpenCVService.calculateConfidence (segments sample) (value sample)
     = 0.80571428571428561%float).
Proof.
  intros ImageData cvb cvr h i t result.
  split.
  { intros bin R P D regions segs. subst result.
    rewrite (processImage_regions ImageData cvb cvr h i t bin R P D).
    cbn [segments confidence value]. subst segs regions.
    rewrite !map_map. repeat split; reflexivity. }
  split.
  { intros s H. unfold regionScore.
    destruct (String.eqb_spec (segmentsToDigit s) "?"); [contradiction|reflexivity]. }
  split.
  { intros s H. unfold regionScore. rewrite H. reflexivity. }
  split.
  { apply processImage_lengths. }
  split.
  { rewrite synthetic_frame. split; [reflexivity|]. apply synthetic_frame_scorer. }
  split. { exact Scorer.activeCount_litSegments. }
  split.
  { intros digit s. unfold regionConfidence.
    rewrite Scorer.activeCount_litSegments.
    now destruct (String.eqb digit "?"). }
  split. { intros s. symmetry. apply regionConfidence_score. }
  do 3 (split; [vm_compute; reflexivity|]).
  rewrite three_cells_frame. cbn [segments value confidence].
  split; [reflexivity|]. split; [reflexivity|].
  split; [vm_compute; reflexivity|].
  split; [vm_compute; reflexivity|]. apply three_cells_scorer.
Qed.

(** The frame with three cells through the statement above: three regions
    are retained and sorted from left to right, the second is not in the
    table, and the reported confidence is the mean of the three scores. *)
Lemma processImage_confidence_is_region_mean_witness :
  let result :=
    processImage Datatypes.unit binarizedThree threeBlobs Extractor.ready tt
                 128 in
  let regions := detectDisplay threeBlobs Extractor.ready (Some threeCells) in
  let segs :=
    map (fun r => analyzeSegments Extractor.ready (Some threeCells) (Some r))
        regions in
  isReady Extractor.ready = true /\
  preprocessImage Datatypes.unit binarizedThree Extractor.ready tt 128
    = Some threeCells /\
  regions = [mkRect 0 0 20 40; mkRect 20 0 20 40; mkRect 40 0 20 40] /\
  map segmentsToDigit segs = ["8"; "?"; " "] /\
  map regionScore segs = [0.9; Z2F 4 / 7; 0.9]%float /\
  confidence result = OpenCVService.meanFloats (map regionScore segs) /\
  confidence result = 0.79047619047619044%float /\
  String.length (value result) = List.length (segments result).
Proof.
  intros result regions segs.
  destruct (processImage_confidence_is_region_mean
              Datatypes.unit binarizedThree threeBlobs Extractor.ready tt 128)
    as (Hmean & _ & _ & Hlen & _).
  split; [reflexivity|]. split; [reflexivity|].
  split; [vm_compute; reflexivity|].
  split; [vm_compute; reflexivity|].
  split; [vm_compute; reflexivity|].
  split; [|split; [vm_compute; reflexivity|exact Hlen]].
  refine (proj1 (proj2 (Hmean threeCells eq_refl eq_refl _))).
  vm_compute. discriminate.
Defined.

(** C10.  The pipeline never throws: on every frame for which preprocessing
    fails or no digit region is detected, [processImage] returns the
    zero-confidence empty result. *)
Theorem processImage_never_throws :
  forall (ImageData : Type)
         (cv_binarize : ImageData -> float -> Completion Mat)
         (cv_boundingRects : Mat -> Completion (list Rect))
         (h : Hook) (imageData : ImageData) (threshold : float),
  noDetection ImageData cv_binarize cv_boundingRects h imageData threshold ->
  processImage ImageData cv_binarize cv_boundingRects h imageData threshold
  = mkResult "" 0%float [].
Proof.
  intros ImageData cvb cvr h i t H.
  now apply processImage_noDetection.
Qed.

(** A frame the vision library rejects: preprocessing fails, and the result
    is the empty one. *)
Lemma processImage_never_throws_witness :
  noDetection Datatypes.unit broken oneBlob Extractor.ready tt 128 /\
  processImage Datatypes.unit broken oneBlob Extractor.ready tt 128
  = mkResult "" 0%float [].
Proof.
  split.
  - left. reflexivity.
  - apply (processImage_never_throws Datatypes.unit broken oneBlob
             Extractor.ready tt 128).
    left. reflexivity.
Defined.

End Pipeline.

(* ================================================================== *)
(** * Properties of the CSV codec *)
(* ================================================================== *)

Module Codec.

Import CSVService.

(** ** When the decoder fails *)

(** The lines of the trimmed content, their number, and the header names as
    the decoder reads them (trimmed, lower case). *)
Definition linesOf (content : string) : list string := split LF (trim content).

Definition lineCount (content : string) : nat := List.length (linesOf content).

Definition headerNames (content : string) : list string :=
  map (fun h => toLowerCase (trim h)) (split "," (hd "" (linesOf content))).

(** Fewer than two lines, or a required header is missing. *)
Definition structurallyBad (content : string) : Prop :=
  (lineCount content < 2)%nat \/
  exists name, In name requiredHeaders /\ ~ In name (headerNames content).

Definition tooFewLines : string :=
  "CSV file must contain at least a header and one data row".

Lemma includes_In : forall l name, includes l name = true <-> In name l.
Proof.
  intros l name. unfold includes. rewrite existsb_exists. split.
  - intros (y & Hy & E). apply String.eqb_eq in E. now subst y.
  - intros H. exists name. split; [exact H|apply String.eqb_refl].
Qed.

Lemma missing_headers : forall headers,
  (0 <? List.length
          (filter (fun h => negb (includes headers h)) requiredHeaders))%nat = true
  <-> exists name, In name requiredHeaders /\ ~ In name headers.
Proof.
  intros headers.
  set (missing := filter (fun h => negb (includes headers h)) requiredHeaders).
  split.
  - intros H. destruct missing as [|name rest] eqn:E; [discriminate H|].
    assert (Hin : In name missing) by (rewrite E; now left).
    apply filter_In in Hin as [Hreq Hneg].
    exists name. split; [exact Hreq|].
    intros Hc. apply includes_In in Hc. now rewrite Hc in Hneg.
  - intros (name & Hreq & Hnot).
    assert (Hin : In name missing).
    { apply filter_In. split; [exact Hreq|].
      destruct (includes headers name) eqn:I; [|reflexivity].
      apply includes_In in I. contradiction. }
    destruct missing; [destruct Hin|reflexivity].
Qed.

Section Decoder.

Variable Date_parse : string -> Date.
Variable Date_now : nat -> Z.

#[local] Abbreviation parseCSV := (parseCSV Date_parse Date_now).

(** The decoder throws exactly on structurally bad content. *)
Lemma parseCSV_throws_iff : forall content,
  (exists msg, parseCSV content = Throw msg) <-> structurallyBad content.
Proof.
  intros content. unfold CSVService.parseCSV, structurallyBad.
  fold (linesOf content). fold (lineCount content). fold (headerNames content).
  destruct (lineCount content <? 2)%nat eqn:L.
  - apply Nat.ltb_lt in L. split; [now left|]. intros _. now eexists.
  - apply Nat.ltb_ge in L.
    destruct (0 <? _)%nat eqn:M.
    + split; [|intros _; now eexists].
      intros _. right. now apply missing_headers.
    + split; [intros (msg & E); discriminate E|].
      intros [H|H]; [lia|]. apply missing_headers in H.
      fold (headerNames content) in M. rewrite M in H. discriminate H.
Qed.

(** On any other content the result is the list of the rows that pass the
    checks; a row that fails them is left out, without error. *)
Lemma parseCSV_rows : forall content,
  ~ structurallyBad content ->
  parseCSV content =
  Normal (parseRows Date_parse Date_now (headerNames content) 1
                    (tl (linesOf content))).
Proof.
  intros content H.
  destruct (parseCSV content) as [rs|msg] eqn:E.
  - revert E. unfold CSVService.parseCSV.
    fold (linesOf content). fold (lineCount content). fold (headerNames content).
    destruct (lineCount content <? 2)%nat; [discriminate|].
    destruct (0 <? _)%nat; [discriminate|]. now intros E.
  - destruct H. apply parseCSV_throws_iff. now exists msg.
Qed.


End Decoder.

(** The header line alone, as [generateCSV] writes it for no reading. *)
Definition headerOnly : string :=
  "timestamp,value,quantity,unit,mode,confidence" ++ String LF "".




(** ** Strings, [split] and [trim] *)

Lemma append_nil_r : forall s, s ++ "" = s.
Proof. induction s as [|ch r IH]; cbn; [reflexivity|now rewrite IH]. Qed.

Lemma append_assoc : forall s1 s2 s3, (s1 ++ s2) ++ s3 = s1 ++ s2 ++ s3.
Proof.
  induction s1 as [|ch r IH]; intros s2 s3; cbn; [reflexivity|now rewrite IH].
Qed.

Lemma hasChar_append : forall ch s1 s2,
  hasChar ch (s1 ++ s2) = hasChar ch s1 || hasChar ch s2.
Proof.
  intros ch s1 s2. induction s1 as [|d r IH]; cbn; [reflexivity|].
  now rewrite IH, orb_assoc.
Qed.

Lemma split_no_sep : forall sep s, hasChar sep s = false -> split sep s = [s].
Proof.
  intros sep s. induction s as [|ch r IH]; cbn; [reflexivity|].
  intros H. apply orb_false_iff in H as [H1 H2].
  now rewrite H1, IH.
Qed.

Lemma split_append : forall sep p r,
  hasChar sep p = false -> split sep (p ++ String sep r) = p :: split sep r.
Proof.
  intros sep p r. induction p as [|ch p' IH]; cbn.
  - intros _. now rewrite Ascii.eqb_refl.
  - intros H. apply orb_false_iff in H as [H1 H2].
    now rewrite H1, IH.
Qed.

Lemma join_cons2 : forall sep p q rest,
  join (String sep "") (p :: q :: rest)
  = p ++ String sep (join (String sep "") (q :: rest)).
Proof. reflexivity. Qed.

(** Splitting what was joined gives the pieces back, when no piece holds
    the separator. *)
Lemma split_join : forall sep l,
  l <> [] -> Forall (fun p => hasChar sep p = false) l ->
  split sep (join (String sep "") l) = l.
Proof.
  intros sep l Hne Hall. induction Hall as [|p rest Hp Hrest IH].
  - now destruct Hne.
  - destruct rest as [|q rest'].
    + cbn. now apply split_no_sep.
    + rewrite join_cons2, split_append by exact Hp.
      f_equal. apply IH. discriminate.
Qed.

(** A string that [trimEnd] leaves alone and that is not empty. *)
Definition endClean (s : string) : Prop := s <> "" /\ trimEnd s = s.

Lemma endClean_append : forall s1 s2, endClean s2 -> endClean (s1 ++ s2).
Proof.
  intros s1 s2 [Hne Ht]. induction s1 as [|ch r [IHne IHt]]; [now split|].
  split; [discriminate|]. cbn. rewrite IHt.
  destruct (r ++ s2); [now destruct IHne|reflexivity].
Qed.

Lemma endClean_join : forall sep l,
  l <> [] -> Forall endClean l -> endClean (join sep l).
Proof.
  intros sep l Hne Hall. induction Hall as [|p rest Hp Hrest IH].
  - now destruct Hne.
  - destruct rest as [|q rest']; [exact Hp|].
    change (join sep (p :: q :: rest'))
      with (p ++ sep ++ join sep (q :: rest')).
    rewrite <- append_assoc. apply endClean_append, IH. discriminate.
Qed.

Lemma allChars_impl : forall (p q : ascii -> bool) s,
  (forall ch, p ch = true -> q ch = true) ->
  allChars p s = true -> allChars q s = true.
Proof.
  intros p q s Hpq. induction s as [|ch r IH]; [reflexivity|].
  cbn. intros H. apply andb_true_iff in H as [H1 H2].
  now rewrite (Hpq ch H1), IH.
Qed.

Lemma allChars_hasChar : forall p ch s,
  p ch = false -> allChars p s = true -> hasChar ch s = false.
Proof.
  intros p ch s Hp. induction s as [|d r IH]; [reflexivity|].
  cbn. intros H. apply andb_true_iff in H as [H1 H2].
  rewrite IH by exact H2. rewrite orb_false_r.
  destruct (Ascii.eqb_spec d ch) as [->|]; [congruence|reflexivity].
Qed.

Definition notWhiteSpace (ch : ascii) : bool := negb (isWhiteSpace ch).

Lemma trimStart_notWhiteSpace : forall s,
  allChars notWhiteSpace s = true -> trimStart s = s.
Proof.
  intros [|ch r]; [reflexivity|]. cbn. unfold notWhiteSpace.
  intros H. apply andb_true_iff in H as [H1 _].
  now destruct (isWhiteSpace ch).
Qed.

Lemma trimEnd_notWhiteSpace : forall s,
  allChars notWhiteSpace s = true -> trimEnd s = s.
Proof.
  induction s as [|ch r IH]; [reflexivity|]. cbn. unfold notWhiteSpace at 1.
  intros H. apply andb_true_iff in H as [H1 H2].
  rewrite IH by exact H2. destruct r; [|reflexivity].
  now destruct (isWhiteSpace ch).
Qed.

Lemma isKept_notWhiteSpace : forall ch,
  OpenCVService.isKept ch = true -> notWhiteSpace ch = true.
Proof.
  intros [[] [] [] [] [] [] [] []]; intros H;
    first [reflexivity | discriminate H].
Qed.

(** ** Decimal strings and trimmed fields *)

(** What the decoder needs of a field it reads without quotes. *)
Record plainField (s : string) : Prop := mkPlain
  { plain_comma : hasChar "," s = false;
    plain_quote : hasChar DQUOTE s = false;
    plain_newline : hasChar LF s = false;
    plain_trim : trim s = s;
    plain_nonempty : s <> "" }.

Lemma decimal_plain : forall s, isDecimalString s = true -> plainField s.
Proof.
  intros s H. unfold isDecimalString in H.
  apply andb_true_iff in H as [Hne Hk].
  assert (W : allChars notWhiteSpace s = true)
    by (eapply allChars_impl; [apply isKept_notWhiteSpace|exact Hk]).
  constructor.
  - eapply allChars_hasChar; [|exact Hk]. reflexivity.
  - eapply allChars_hasChar; [|exact Hk]. reflexivity.
  - eapply allChars_hasChar; [|exact Hk]. reflexivity.
  - unfold trim. now rewrite trimStart_notWhiteSpace, trimEnd_notWhiteSpace.
  - intros ->. discriminate Hne.
Qed.

Lemma decimal_endClean : forall s, isDecimalString s = true -> endClean s.
Proof.
  intros s H. unfold isDecimalString in H.
  apply andb_true_iff in H as [Hne Hk]. split.
  - intros ->. discriminate Hne.
  - apply trimEnd_notWhiteSpace.
    eapply allChars_impl; [apply isKept_notWhiteSpace|exact Hk].
Qed.

Lemma isTrimmed_spec : forall s, isTrimmed s = true -> s <> "" /\ trim s = s.
Proof.
  intros s H. unfold isTrimmed in H. apply andb_true_iff in H as [H1 H2].
  split; [intros ->; discriminate H1|now apply String.eqb_eq].
Qed.

Lemma isPlain_spec : forall s,
  isPlain s = true ->
  hasChar "," s = false /\ hasChar DQUOTE s = false /\ hasChar LF s = false.
Proof.
  intros s H. unfold isPlain in H.
  rewrite !andb_true_iff, !negb_true_iff in H. tauto.
Qed.

(** ** The line reader on the fields the encoder writes *)

Lemma parseCSVLine_from_cons : forall char rest current inQuotes result,
  parseCSVLine_from (String char rest) current inQuotes result =
  if Ascii.eqb char DQUOTE then
    match inQuotes, rest with
    | true, String next rest' =>
        if Ascii.eqb next DQUOTE
        then parseCSVLine_from rest' (current ++ String DQUOTE "")
                               inQuotes result
        else parseCSVLine_from rest current (negb inQuotes) result
    | _, _ => parseCSVLine_from rest current (negb inQuotes) result
    end
  else if Ascii.eqb char "," && negb inQuotes then
    parseCSVLine_from rest "" inQuotes (result ++ [trim current])
  else
    parseCSVLine_from rest (current ++ String char "") inQuotes result.
Proof. reflexivity. Qed.

Lemma append_char : forall current ch r,
  (current ++ String ch "") ++ r = current ++ String ch r.
Proof. intros. now rewrite append_assoc. Qed.

(** Outside or inside quotes, a run without comma or quote is copied. *)
Lemma field_plain : forall field current inQuotes result rest,
  hasChar "," field = false -> hasChar DQUOTE field = false ->
  parseCSVLine_from (field ++ rest) current inQuotes result =
  parseCSVLine_from rest (current ++ field) inQuotes result.
Proof.
  induction field as [|ch r IH]; intros current inQuotes result rest Hc Hq.
  - cbn. now rewrite append_nil_r.
  - cbn in Hc, Hq. apply orb_false_iff in Hc as [Hc1 Hc2].
    apply orb_false_iff in Hq as [Hq1 Hq2].
    change (String ch r ++ rest) with (String ch (r ++ rest)).
    rewrite parseCSVLine_from_cons, Hq1, Hc1. cbn [andb].
    rewrite IH by assumption. now rewrite append_char.
Qed.

(** What follows a closing quote is not a quote. *)
Definition nextNotQuote (rest : string) : Prop :=
  match rest with
  | "" => True
  | String next _ => Ascii.eqb next DQUOTE = false
  end.

(** Inside quotes, the doubled field is read back up to the closing
    quote. *)
Lemma field_quoted : forall field current result rest,
  nextNotQuote rest ->
  parseCSVLine_from (doubleQuotes field ++ String DQUOTE rest)
                    current true result =
  parseCSVLine_from rest (current ++ field) false result.
Proof.
  induction field as [|ch r IH]; intros current result rest Hnext.
  - change (doubleQuotes "" ++ String DQUOTE rest) with (String DQUOTE rest).
    rewrite parseCSVLine_from_cons, Ascii.eqb_refl, append_nil_r.
    destruct rest as [|next rest']; [reflexivity|].
    cbn in Hnext. now rewrite Hnext.
  - cbn [doubleQuotes]. destruct (Ascii.eqb ch DQUOTE) eqn:E.
    + apply Ascii.eqb_eq in E. subst ch.
      change (String DQUOTE (String DQUOTE (doubleQuotes r)) ++ String DQUOTE rest)
        with (String DQUOTE (String DQUOTE (doubleQuotes r ++ String DQUOTE rest))).
      rewrite parseCSVLine_from_cons, !Ascii.eqb_refl.
      rewrite IH by exact Hnext. now rewrite append_char.
    + change (String ch (doubleQuotes r) ++ String DQUOTE rest)
        with (String ch (doubleQuotes r ++ String DQUOTE rest)).
      rewrite parseCSVLine_from_cons, E. cbn [negb]. rewrite andb_false_r.
      rewrite IH by exact Hnext. now rewrite append_char.
Qed.

(** An escaped field is read back as the field. *)
Lemma field_escaped : forall field result rest,
  nextNotQuote rest ->
  parseCSVLine_from (escapeCsvField field ++ rest) "" false result =
  parseCSVLine_from rest field false result.
Proof.
  intros field result rest Hnext. unfold escapeCsvField.
  destruct (hasChar "," field || hasChar DQUOTE field || hasChar LF field) eqn:E.
  - change (String DQUOTE (doubleQuotes field ++ String DQUOTE "") ++ rest)
      with (String DQUOTE ((doubleQuotes field ++ String DQUOTE "") ++ rest)).
    rewrite append_assoc.
    change (String DQUOTE "" ++ rest) with (String DQUOTE rest).
    rewrite parseCSVLine_from_cons, Ascii.eqb_refl. cbn [negb].
    now rewrite field_quoted.
  - rewrite !orb_false_iff in E. destruct E as [[Hc Hq] _].
    now rewrite field_plain.
Qed.

Lemma field_comma : forall rest current result,
  parseCSVLine_from (String "," rest) current false result =
  parseCSVLine_from rest "" false (result ++ [trim current]).
Proof. reflexivity. Qed.

(** The six fields of a row the encoder wrote. *)
Lemma parseCSVLine_row : forall f1 f2 f3 f4 f5 f6,
  plainField f1 -> plainField f2 -> plainField f5 -> plainField f6 ->
  parseCSVLine (f1 ++ "," ++ f2 ++ "," ++ escapeCsvField f3 ++ ","
                ++ escapeCsvField f4 ++ "," ++ f5 ++ "," ++ f6)
  = [f1; f2; trim f3; trim f4; f5; f6].
Proof.
  intros f1 f2 f3 f4 f5 f6 P1 P2 P5 P6. unfold parseCSVLine.
  change ("," ++ ?s) with (String "," s).
  rewrite field_plain by apply P1. cbn [append]. rewrite field_comma.
  rewrite field_plain by apply P2. cbn [append]. rewrite field_comma.
  rewrite field_escaped by reflexivity. rewrite field_comma.
  rewrite field_escaped by reflexivity. rewrite field_comma.
  rewrite field_plain by apply P5. cbn [append]. rewrite field_comma.
  rewrite <- (append_nil_r f6) at 1.
  rewrite field_plain by apply P6. cbn [append parseCSVLine_from app].
  now rewrite (plain_trim _ P1), (plain_trim _ P2), (plain_trim _ P5),
    (plain_trim _ P6).
Qed.

(** ** Encoding, then decoding *)

Lemma hasChar_doubleQuotes : forall ch s,
  Ascii.eqb DQUOTE ch = false -> hasChar ch (doubleQuotes s) = hasChar ch s.
Proof.
  intros ch s H. induction s as [|d r IH]; [reflexivity|].
  cbn [doubleQuotes]. destruct (Ascii.eqb d DQUOTE) eqn:E.
  - apply Ascii.eqb_eq in E. subst d. cbn [hasChar]. now rewrite IH, H.
  - cbn [hasChar]. now rewrite IH.
Qed.

Lemma hasChar_escapeCsvField : forall s,
  hasChar LF s = false -> hasChar LF (escapeCsvField s) = false.
Proof.
  intros s H. unfold escapeCsvField.
  destruct (hasChar "," s || hasChar DQUOTE s || hasChar LF s); [|exact H].
  cbn [hasChar]. rewrite hasChar_append, hasChar_doubleQuotes, H by reflexivity.
  reflexivity.
Qed.

Lemma orElse_nonempty : forall s dflt, s <> "" -> orElse (Some s) dflt = s.
Proof. intros [|ch r] dflt H; [now destruct H|reflexivity]. Qed.

Lemma eqb_empty : forall s, s <> "" -> String.eqb s "" = false.
Proof. intros s H. now apply String.eqb_neq. Qed.

Definition headerLine : string := "timestamp,value,quantity,unit,mode,confidence".

Section Roundtrip.

Variable Date_toISOString : Z -> string.
Variable Date_parse : string -> Date.
Variable Date_now : nat -> Z.

#[local] Abbreviation wellFormed := (wellFormed Date_toISOString Date_parse).
#[local] Abbreviation csvRow := (csvRow Date_toISOString).
#[local] Abbreviation generateCSV := (generateCSV Date_toISOString).
#[local] Abbreviation parseRow := (parseRow Date_parse Date_now).
#[local] Abbreviation parseRows := (parseRows Date_parse Date_now).

(** The confidence column of a reading. *)
Definition confidenceText (r : Reading) : string := orElse (confidence r) "0".

(** The timestamp column of a reading with a valid timestamp. *)
Definition isoText (r : Reading) : string :=
  match timestamp r with
  | ValidDate ms => Date_toISOString ms
  | InvalidDate => ""
  end.

(** The line the encoder writes for a reading with a valid timestamp. *)
Definition rowText (r : Reading) : string :=
  isoText r ++ "," ++ value r ++ ","
  ++ escapeCsvField (quantity r) ++ "," ++ escapeCsvField (unit r)
  ++ "," ++ mode r ++ "," ++ confidenceText r.

(** What well-formedness gives, field by field. *)
Record Fields (r : Reading) : Prop := mkFields
  { f_time : isInvalid (timestamp r) = false;
    f_iso : plainField (isoText r);
    f_back : isInvalid (Date_parse (isoText r)) = false;
    f_value : plainField (value r);
    f_quantity : quantity r <> "" /\ trim (quantity r) = quantity r;
    f_quantity_line : hasChar LF (quantity r) = false;
    f_unit : unit r <> "" /\ trim (unit r) = unit r;
    f_unit_line : hasChar LF (unit r) = false;
    f_mode : plainField (mode r);
    f_confidence : plainField (confidenceText r);
    f_confidence_end : endClean (confidenceText r) }.

Lemma mode_plain : forall m,
  String.eqb m "manual" || String.eqb m "auto" = true -> plainField m.
Proof.
  intros m H. apply orb_true_iff in H as [H|H]; apply String.eqb_eq in H;
    subst m; constructor; try reflexivity; discriminate.
Qed.

Lemma wellFormed_fields : forall r, wellFormed r = true -> Fields r.
Proof.
  intros r H. unfold CSVService.wellFormed in H.
  rewrite !andb_true_iff, !negb_true_iff in H.
  destruct H as [[[[[[[Ht Hv] Hq] Hql] Hu] Hul] Hm] Hc].
  unfold timestampOk in Ht.
  destruct (timestamp r) as [ms|] eqn:T; [|discriminate Ht].
  rewrite !andb_true_iff, !negb_true_iff in Ht. destruct Ht as [[Hp Htr] Hb].
  apply isPlain_spec in Hp as (P1 & P2 & P3).
  apply isTrimmed_spec in Htr as [N1 N2].
  assert (C : plainField (confidenceText r) /\ endClean (confidenceText r)).
  { unfold confidenceText. destruct (confidence r) as [conf|].
    - pose proof (decimal_plain conf Hc) as Pc.
      rewrite orElse_nonempty by apply Pc.
      split; [exact Pc|now apply decimal_endClean].
    - cbn. split; [now apply decimal_plain|now apply decimal_endClean]. }
  destruct C as [C1 C2].
  assert (I : isoText r = Date_toISOString ms) by (unfold isoText; now rewrite T).
  refine (mkFields r _ _ _ (decimal_plain _ Hv) (isTrimmed_spec _ Hq)
            Hql (isTrimmed_spec _ Hu) Hul (mode_plain _ Hm) C1 C2).
  - now rewrite T.
  - rewrite I. now constructor.
  - now rewrite I.
Qed.

Lemma csvRow_rowText : forall r, Fields r -> csvRow r = Normal (rowText r).
Proof.
  intros r F. unfold CSVService.csvRow, rowText, isoText, confidenceText.
  pose proof (f_time r F) as T.
  destruct (timestamp r); [reflexivity|discriminate T].
Qed.

Lemma mapM_csvRow : forall rs,
  Forall Fields rs -> mapM csvRow rs = Normal (map rowText rs).
Proof.
  induction 1 as [|r rest Hr Hrest IH]; [reflexivity|].
  cbn [mapM map]. rewrite csvRow_rowText by exact Hr. cbn [bind].
  rewrite IH. reflexivity.
Qed.

Lemma rowText_no_newline : forall r, Fields r -> hasChar LF (rowText r) = false.
Proof.
  intros r F. unfold rowText.
  rewrite !hasChar_append.
  rewrite (plain_newline _ (f_iso r F)), (plain_newline _ (f_value r F)),
    (plain_newline _ (f_mode r F)), (plain_newline _ (f_confidence r F)),
    (hasChar_escapeCsvField _ (f_quantity_line r F)),
    (hasChar_escapeCsvField _ (f_unit_line r F)).
  reflexivity.
Qed.

Lemma rowText_endClean : forall r, Fields r -> endClean (rowText r).
Proof.
  intros r F. unfold rowText.
  repeat apply endClean_append. exact (f_confidence_end r F).
Qed.

(** The reading the decoder builds from the line of [r] at index [i]. *)
Definition decoded (i : nat) (r : Reading) : Reading :=
  mkReading
    ("csv_" ++ toString (Z.of_nat i) ++ "_" ++ toString (Date_now i))
    (value r) (quantity r) (unit r)
    (Date_parse (isoText r))
    (mode r) (Some (confidenceText r)).

Lemma parseRow_rowText : forall i r,
  Fields r -> parseRow headers_out i (rowText r) = Some (decoded i r).
Proof.
  intros i r F. unfold CSVService.parseRow, rowText, decoded.
  rewrite parseCSVLine_row
    by first [apply (f_iso r F) | apply (f_value r F)
             | apply (f_mode r F) | apply (f_confidence r F)].
  destruct (f_quantity r F) as [Qn Qt]. destruct (f_unit r F) as [Un Ut].
  rewrite Qt, Ut.
  cbn [List.length headers_out Nat.eqb negb indexOf at_index nth_error
       String.eqb Ascii.eqb Bool.eqb option_map orEmpty new_Date
       timestamp value quantity unit].
  rewrite (f_back r F).
  rewrite (eqb_empty _ (plain_nonempty _ (f_value r F))),
    (eqb_empty _ Qn), (eqb_empty _ Un). cbn [orb].
  rewrite (orElse_nonempty _ _ (plain_nonempty _ (f_mode r F))).
  unfold orNull.
  destruct (confidenceText r) eqn:C;
    [now destruct (plain_nonempty _ (f_confidence r F))|reflexivity].
Qed.

Lemma parseRows_rowText : forall rs i,
  Forall Fields rs ->
  exists out,
    parseRows headers_out i (map rowText rs) = out /\
    List.length out = List.length rs /\ Forall2 sameFields rs out.
Proof.
  induction rs as [|r rest IH]; intros i H.
  - exists []. repeat split; constructor.
  - inversion H as [|? ? Hr Hrest]; subst.
    destruct (IH (S i) Hrest) as (out & E & L & S2).
    exists (decoded i r :: out). cbn [map CSVService.parseRows].
    rewrite parseRow_rowText by exact Hr. rewrite E.
    split; [reflexivity|]. split; [cbn; now rewrite L|].
    constructor; [|exact S2].
    unfold sameFields, decoded. cbn. tauto.
Qed.

Lemma generateCSV_text : forall rs,
  rs <> [] -> Forall Fields rs ->
  generateCSV rs =
  Normal (headerLine ++ String LF (join (String LF "") (map rowText rs))).
Proof.
  intros rs Hne F. unfold CSVService.generateCSV.
  destruct rs as [|r rest]; [now destruct Hne|].
  cbn [List.length Nat.eqb]. rewrite mapM_csvRow by exact F.
  cbn [bind]. f_equal.
Qed.

Lemma trimStart_header : forall text, trimStart (headerLine ++ text) = headerLine ++ text.
Proof. reflexivity. Qed.

Lemma rows_endClean : forall rs,
  rs <> [] -> Forall Fields rs ->
  endClean (join (String LF "") (map rowText rs)).
Proof.
  intros rs Hne F. apply endClean_join.
  - destruct rs; [now destruct Hne|discriminate].
  - apply Forall_map. eapply Forall_impl; [|exact F].
    intros r. apply rowText_endClean.
Qed.

Lemma content_trim : forall rs,
  rs <> [] -> Forall Fields rs ->
  trim (headerLine ++ String LF (join (String LF "") (map rowText rs)))
  = headerLine ++ String LF (join (String LF "") (map rowText rs)).
Proof.
  intros rs Hne F. unfold trim. rewrite trimStart_header.
  apply (endClean_append headerLine (String LF _)).
  apply (endClean_append (String LF "")).
  now apply rows_endClean.
Qed.

Lemma content_lines : forall rs,
  rs <> [] -> Forall Fields rs ->
  split LF (headerLine ++ String LF (join (String LF "") (map rowText rs)))
  = headerLine :: map rowText rs.
Proof.
  intros rs Hne F. rewrite split_append by reflexivity. f_equal.
  apply split_join.
  - destruct rs; [now destruct Hne|discriminate].
  - apply Forall_map. eapply Forall_impl; [|exact F].
    intros r. apply rowText_no_newline.
Qed.

Lemma header_names :
  map (fun h => toLowerCase (trim h)) (split "," headerLine) = headers_out.
Proof. reflexivity. Qed.

Lemma parseCSV_text : forall rs,
  rs <> [] -> Forall Fields rs ->
  parseCSV Date_parse Date_now
    (headerLine ++ String LF (join (String LF "") (map rowText rs)))
  = Normal (parseRows headers_out 1 (map rowText rs)).
Proof.
  intros rs Hne F. unfold CSVService.parseCSV.
  rewrite content_trim, content_lines by assumption.
  destruct rs as [|r rest]; [now destruct Hne|].
  cbn [map List.length Nat.ltb Nat.leb hd tl].
  rewrite header_names. reflexivity.
Qed.

End Roundtrip.

(** Two readings: one whose quantity holds a comma and whose unit holds a
    quote, and one with a confidence. *)
Definition sampleReadings : list Reading :=
  [ mkReading "a1" "12.5" "voltage, DC" ("m" ++ String DQUOTE "V")
              (ValidDate 1700000000123) "auto" None;
    mkReading "a2" "-0.0042" "current" "mA"
              (ValidDate 951782400000) "manual" (Some "0.9731") ].

(** C1, as the code has it.  For every non-empty sequence of well-formed
    readings, encoding succeeds and decoding the text gives as many rows as
    readings, each with the value, quantity, unit and mode of the reading at
    the same place.  A reading is well formed when its timestamp is a valid
    instant whose ISO rendering the platform reads back as a valid date, its
    value is a decimal string, its quantity and unit are not empty and carry
    no white space at either end and no newline, its mode is manual or auto,
    and its confidence is absent or a decimal string. *)
Theorem csv_roundtrip :
  forall (Date_toISOString : Z -> string) (Date_parse : string -> Date)
         (Date_now : nat -> Z) (readings : list Reading),
  readings <> [] ->
  Forall (fun r => wellFormed Date_toISOString Date_parse r = true) readings ->
  exists csv rows,
    generateCSV Date_toISOString readings = Normal csv /\
    parseCSV Date_parse Date_now csv = Normal rows /\
    List.length rows = List.length readings /\
    Forall2 sameFields readings rows.
Proof.
  intros toISO parse now rs Hne Hwf.
  assert (F : Forall (Fields toISO parse) rs).
  { eapply Forall_impl; [|exact Hwf]. intros r. apply wellFormed_fields. }
  destruct (parseRows_rowText toISO parse now rs 1%nat F) as (out & E & L & S2).
  exists (headerLine ++ String LF (join (String LF "") (map (rowText toISO) rs))).
  exists out. split; [now apply generateCSV_text with (Date_parse := parse)|].
  split; [|now split].
  rewrite (parseCSV_text toISO parse now rs Hne F). now rewrite E.
Qed.

(** The round trip on the two sample readings. *)
Lemma csv_roundtrip_witness :
  sampleReadings <> [] /\
  Forall (fun r => wellFormed ISO8601.toISOString ISO8601.parse r = true)
         sampleReadings /\
  exists csv rows,
    generateCSV ISO8601.toISOString sampleReadings = Normal csv /\
    parseCSV ISO8601.parse ISO8601.now csv = Normal rows /\
    List.length rows = List.length sampleReadings /\
    Forall2 sameFields sampleReadings rows.
Proof.
  split; [discriminate|].
  split; [repeat constructor|].
  apply (csv_roundtrip ISO8601.toISOString ISO8601.parse ISO8601.now
           sampleReadings).
  - discriminate.
  - repeat constructor.
Defined.

(** Encoding no reading gives the header alone, and decoding that throws:
    the round trip of the empty sequence does not give zero rows. *)
Lemma csv_roundtrip_empty_throws :
  generateCSV ISO8601.toISOString [] = Normal headerOnly /\
  parseCSV ISO8601.parse ISO8601.now headerOnly = Throw tooFewLines.
Proof. split; reflexivity. Qed.

End Codec.

(* ================================================================== *)
(** * More properties of the CSV line reader and encoder *)
(* ================================================================== *)

Module LineReader.

Import CSVService Codec.

(** ** Escaped fields are read back *)

Lemma join_comma_cons : forall f g rest,
  join "," (f :: g :: rest) = f ++ String "," (join "," (g :: rest)).
Proof. reflexivity. Qed.

Lemma parseCSVLine_from_escaped : forall fields f result,
  parseCSVLine_from (join "," (map escapeCsvField (f :: fields))) "" false result
  = (result ++ map trim (f :: fields))%list.
Proof.
  induction fields as [|g rest IH]; intros f result.
  - cbn [map join String.concat].
    rewrite <- (append_nil_r (escapeCsvField f)).
    rewrite field_escaped by exact I. reflexivity.
  - cbn [map]. rewrite join_comma_cons.
    rewrite field_escaped by reflexivity.
    rewrite field_comma.
    change (escapeCsvField g :: map escapeCsvField rest)
      with (map escapeCsvField (g :: rest)).
    rewrite IH. cbn [map]. now rewrite <- app_assoc.
Qed.

(** X1.  Whatever the fields hold (commas, quotes, newlines), the line made
    of the escaped fields joined by commas is read back as the same fields,
    trimmed. *)
Theorem parseCSVLine_escapeCsvField : forall f fields,
  parseCSVLine (join "," (map escapeCsvField (f :: fields)))
  = map trim (f :: fields).
Proof.
  intros f fields. unfold parseCSVLine.
  now rewrite parseCSVLine_from_escaped.
Qed.

(** ** Lines without quotes *)

Lemma parseCSVLine_from_unquoted : forall line current result,
  hasChar DQUOTE line = false ->
  parseCSVLine_from line current false result =
  match split "," line with
  | p :: ps => (result ++ trim (current ++ p) :: map trim ps)%list
  | [] => result
  end.
Proof.
  induction line as [|ch r IH]; intros current result H.
  - cbn. now rewrite append_nil_r.
  - cbn [hasChar] in H. apply orb_false_iff in H as [H1 H2].
    rewrite parseCSVLine_from_cons, H1. cbn [negb]. rewrite andb_true_r.
    cbn [split]. destruct (Ascii.eqb ch ",") eqn:E.
    + rewrite IH by exact H2.
      destruct (split "," r) as [|p ps] eqn:S.
      * now destruct (Normalizer.split_not_nil "," r).
      * rewrite append_nil_r. cbn [map append]. now rewrite <- app_assoc.
    + rewrite IH by exact H2.
      destruct (split "," r) as [|p ps] eqn:S.
      * now destruct (Normalizer.split_not_nil "," r).
      * now rewrite append_char.
Qed.

(** X2.  On a line without a double quote the reader is [split] on the
    commas followed by [trim] of every piece. *)
Theorem parseCSVLine_unquoted : forall line,
  hasChar DQUOTE line = false ->
  parseCSVLine line = map trim (split "," line).
Proof.
  intros line H. unfold parseCSVLine.
  rewrite parseCSVLine_from_unquoted by exact H.
  destruct (split "," line) as [|p ps] eqn:S; [reflexivity|reflexivity].
Qed.

Lemma parseCSVLine_unquoted_witness :
  hasChar DQUOTE " 12.5 ,, mV" = false /\
  parseCSVLine " 12.5 ,, mV" = ["12.5"; ""; "mV"].
Proof.
  split; [reflexivity|].
  rewrite (parseCSVLine_unquoted " 12.5 ,, mV"); reflexivity.
Defined.

End LineReader.

(* ================================================================== *)
(** * Properties of the CSV export and import *)
(* ================================================================== *)

Module Files.

Import CSVService CSVFiles Codec.

(** ** When the encoder throws *)

Definition rangeError : string := "RangeError: Invalid time value".

Lemma csvRow_valid : forall toISO r,
  isInvalid (timestamp r) = false -> csvRow toISO r = Normal (rowText toISO r).
Proof.
  intros toISO r H. unfold csvRow, rowText, isoText, confidenceText.
  destruct (timestamp r); [reflexivity|discriminate H].
Qed.

Lemma csvRow_invalid : forall toISO r,
  isInvalid (timestamp r) = true -> csvRow toISO r = Throw rangeError.
Proof.
  intros toISO r H. unfold csvRow.
  destruct (timestamp r); [discriminate H|reflexivity].
Qed.

(** The outcome of the map over the rows: all the lines, or the exception
    of the first reading whose timestamp is invalid. *)
Lemma mapM_csvRow_outcome : forall toISO rs,
  (forallb (fun r => negb (isInvalid (timestamp r))) rs = true /\
   mapM (csvRow toISO) rs = Normal (map (rowText toISO) rs)) \/
  (forallb (fun r => negb (isInvalid (timestamp r))) rs = false /\
   mapM (csvRow toISO) rs = Throw rangeError).
Proof.
  intros toISO rs. induction rs as [|r rest IH]; [left; now split|].
  cbn [forallb mapM]. destruct (isInvalid (timestamp r)) eqn:V.
  - right. rewrite csvRow_invalid by exact V. now split.
  - rewrite csvRow_valid by exact V. cbn [negb andb bind].
    destruct IH as [[A E]|[A E]]; rewrite A, E; [left|right]; now split.
Qed.

Lemma some_invalid : forall rs,
  forallb (fun r => negb (isInvalid (timestamp r))) rs = false <->
  exists r, In r rs /\ timestamp r = InvalidDate.
Proof.
  intros rs. induction rs as [|r rest IH]; cbn [forallb].
  - split; [discriminate|intros (r & [] & _)].
  - rewrite andb_false_iff, IH. split.
    + intros [H|(r' & Hin & H)].
      * exists r. split; [now left|].
        destruct (timestamp r); [discriminate H|reflexivity].
      * exists r'. split; [now right|exact H].
    + intros (r' & [->|Hin] & H); [left; now rewrite H|].
      right. now exists r'.
Qed.

(** X3.  [generateCSV] throws the RangeError of [toISOString] exactly when
    some reading carries an invalid timestamp; otherwise it returns the
    header line followed by one text per reading, joined by newlines (the
    header and a newline alone for no reading). *)
Theorem generateCSV_throws_iff_invalid_timestamp :
  forall (Date_toISOString : Z -> string) (readings : list Reading),
  ((exists msg, generateCSV Date_toISOString readings = Throw msg) <->
   exists r, In r readings /\ timestamp r = InvalidDate) /\
  ((exists r, In r readings /\ timestamp r = InvalidDate) ->
   generateCSV Date_toISOString readings = Throw rangeError) /\
  ((forall r, In r readings -> timestamp r <> InvalidDate) ->
   generateCSV Date_toISOString readings =
   Normal (headerLine ++ String LF
             (join (String LF "") (map (rowText Date_toISOString) readings)))).
Proof.
  intros toISO rs.
  assert (T : (exists r, In r rs /\ timestamp r = InvalidDate) ->
              generateCSV toISO rs = Throw rangeError).
  { intros H. apply some_invalid in H. unfold generateCSV.
    destruct rs as [|r rest]; [discriminate H|]. cbn [List.length Nat.eqb].
    destruct (mapM_csvRow_outcome toISO (r :: rest)) as [[A E]|[A E]].
    - rewrite A in H. discriminate H.
    - now rewrite E. }
  assert (N : (forall r, In r rs -> timestamp r <> InvalidDate) ->
              generateCSV toISO rs =
              Normal (headerLine ++ String LF
                        (join (String LF "") (map (rowText toISO) rs)))).
  { intros H. unfold generateCSV.
    destruct rs as [|r rest]; [reflexivity|]. cbn [List.length Nat.eqb].
    destruct (mapM_csvRow_outcome toISO (r :: rest)) as [[A E]|[A E]].
    - rewrite E. reflexivity.
    - apply some_invalid in A. destruct A as (r' & Hin & Hr').
      now destruct (H r' Hin). }
  split; [|split; assumption].
  split.
  - intros (msg & E).
    destruct (forallb (fun r => negb (isInvalid (timestamp r))) rs) eqn:A.
    + rewrite N in E; [discriminate E|].
      intros r Hin Hr.
      assert (X : forallb (fun r => negb (isInvalid (timestamp r))) rs = false)
        by (apply some_invalid; now exists r).
      rewrite X in A. discriminate A.
    + now apply some_invalid.
  - intros H. exists rangeError. now apply T.
Qed.

(** ** How many lines the encoder writes *)

Import OpenCVService.

Lemma generateCSV_normal : forall toISO rs csv,
  generateCSV toISO rs = Normal csv ->
  csv = headerLine ++ String LF (join (String LF "") (map (rowText toISO) rs)).
Proof.
  intros toISO rs csv E. unfold generateCSV in E.
  destruct rs as [|r rest]; [now injection E as <-|].
  cbn [List.length Nat.eqb] in E.
  destruct (mapM_csvRow_outcome toISO (r :: rest)) as [[_ M]|[_ M]];
    rewrite M in E; [now injection E as <-|discriminate E].
Qed.

Lemma countChar_append : forall ch s1 s2,
  countChar ch (s1 ++ s2) = (countChar ch s1 + countChar ch s2)%nat.
Proof.
  intros ch s1 s2. induction s1 as [|d r IH]; cbn; [reflexivity|].
  rewrite IH. lia.
Qed.

Lemma countChar_doubleQuotes : forall s,
  countChar LF (doubleQuotes s) = countChar LF s.
Proof.
  induction s as [|d r IH]; [reflexivity|].
  cbn [doubleQuotes]. destruct (Ascii.eqb d DQUOTE) eqn:E.
  - apply Ascii.eqb_eq in E. subst d. cbn [countChar].
    replace (Ascii.eqb DQUOTE LF) with false by reflexivity. now rewrite IH.
  - cbn [countChar]. now rewrite IH.
Qed.

Lemma countChar_escapeCsvField : forall s,
  countChar LF (escapeCsvField s) = countChar LF s.
Proof.
  intros s. unfold escapeCsvField.
  destruct (hasChar "," s || hasChar DQUOTE s || hasChar LF s); [|reflexivity].
  cbn [countChar]. rewrite countChar_append, countChar_doubleQuotes.
  replace (Ascii.eqb DQUOTE LF) with false by reflexivity. cbn. lia.
Qed.

(** The newlines inside the six columns of a reading. *)
Definition newlinesOf (toISO : Z -> string) (r : Reading) : nat :=
  countChar LF (isoText toISO r) + countChar LF (value r)
  + countChar LF (quantity r) + countChar LF (unit r)
  + countChar LF (mode r) + countChar LF (confidenceText r).

Lemma countChar_rowText : forall toISO r,
  countChar LF (rowText toISO r) = newlinesOf toISO r.
Proof.
  intros toISO r. unfold rowText, newlinesOf.
  rewrite !countChar_append, !countChar_escapeCsvField.
  replace (countChar LF ",") with 0%nat by reflexivity. lia.
Qed.

Lemma countChar_join_lines : forall l,
  l <> [] ->
  countChar LF (join (String LF "") l)
  = (List.length l - 1 + list_sum (map (countChar LF) l))%nat.
Proof.
  induction l as [|p rest IH]; intros Hne; [now destruct Hne|].
  destruct rest as [|q rest'].
  - cbn. lia.
  - rewrite join_cons2, countChar_append. cbn [countChar].
    rewrite Ascii.eqb_refl, IH by discriminate.
    cbn [List.length map list_sum fold_right]. lia.
Qed.

(** X4.  The text [generateCSV] returns for a non-empty sequence has one
    header line, one line per reading, and one more line for every newline
    inside a column: a newline in a quantity or unit is quoted but still
    breaks the line. *)
Theorem generateCSV_line_count :
  forall (Date_toISOString : Z -> string) (readings : list Reading)
         (csv : string),
  readings <> [] ->
  generateCSV Date_toISOString readings = Normal csv ->
  List.length (split LF csv)
  = (1 + List.length readings
     + list_sum (map (newlinesOf Date_toISOString) readings))%nat.
Proof.
  intros toISO rs csv Hne E. apply generateCSV_normal in E. subst csv.
  rewrite Normalizer.length_split, countChar_append. cbn [countChar].
  rewrite Ascii.eqb_refl.
  rewrite countChar_join_lines
    by (destruct rs; [now destruct Hne|discriminate]).
  rewrite length_map, map_map.
  rewrite (map_ext _ _ (countChar_rowText toISO)).
  replace (countChar LF headerLine) with 0%nat by reflexivity.
  destruct rs as [|r rest]; [now destruct Hne|]. cbn [List.length]. lia.
Qed.

(** A unit written over two lines: one reading, three lines. *)
Definition twoLineUnit : list Reading :=
  [ mkReading "b1" "3.3" "voltage" ("m" ++ String LF "V")
              (ValidDate 0) "manual" None ].

Lemma generateCSV_line_count_witness :
  twoLineUnit <> [] /\
  generateCSV ISO8601.toISOString twoLineUnit
  = Normal (headerLine ++ String LF
      ("1970-01-01T00:00:00.000Z,3.3,voltage," ++ String DQUOTE
         ("m" ++ String LF ("V" ++ String DQUOTE ",manual,0")))) /\
  List.length (split LF
     (headerLine ++ String LF
      ("1970-01-01T00:00:00.000Z,3.3,voltage," ++ String DQUOTE
         ("m" ++ String LF ("V" ++ String DQUOTE ",manual,0"))))) = 3%nat.
Proof.
  split; [discriminate|]. split; [reflexivity|].
  rewrite (generateCSV_line_count ISO8601.toISOString twoLineUnit).
  - reflexivity.
  - discriminate.
  - reflexivity.
Defined.

(** ** Validating and reading a file *)

(** The limit of [validateCSVFile] in bytes. *)
Definition sizeLimit : Z := 10485760.

(** The file has the extension, is not larger than the limit, can be read,
    and its content has a header with the required names and a second
    line. *)
Definition acceptable (file : File) : Prop :=
  endsWith (toLowerCase (name file)) ".csv" = true /\
  (size file <= sizeLimit)%Z /\
  exists content, text file = Some content /\ ~ structurallyBad content.

Section FileImport.

Variable Date_parse : string -> Date.
Variable Date_now : nat -> Z.

#[local] Abbreviation validateCSVFile := (validateCSVFile Date_parse Date_now).
#[local] Abbreviation readCSVFile := (readCSVFile Date_parse Date_now).

Lemma validateCSVFile_acceptable : forall file,
  acceptable file -> validateCSVFile file = Normal true.
Proof.
  intros file (Hn & Hs & content & Ht & Hc). unfold CSVFiles.validateCSVFile.
  rewrite Hn, Ht. cbn [negb].
  replace (10 * 1024 * 1024 <? size file)%Z with false
    by (symmetry; apply Z.ltb_ge; unfold sizeLimit in Hs; lia).
  now rewrite (parseCSV_rows Date_parse Date_now content Hc).
Qed.

Lemma validateCSVFile_resolved : forall file b,
  validateCSVFile file = Normal b -> b = true /\ acceptable file.
Proof.
  intros file b. unfold CSVFiles.validateCSVFile, acceptable.
  destruct (endsWith (toLowerCase (name file)) ".csv"); [|discriminate].
  cbn [negb]. destruct (10 * 1024 * 1024 <? size file)%Z eqn:S; [discriminate|].
  apply Z.ltb_ge in S.
  destruct (text file) as [content|]; [|discriminate].
  destruct (parseCSV Date_parse Date_now content) as [rows|msg] eqn:P;
    [|discriminate].
  cbn [bind]. intros E. injection E as <-.
  split; [reflexivity|]. split; [reflexivity|].
  split; [unfold sizeLimit; lia|].
  exists content. split; [reflexivity|].
  intros Bad. apply (parseCSV_throws_iff Date_parse Date_now) in Bad.
  destruct Bad as (msg & E). rewrite P in E. discriminate E.
Qed.

Lemma readCSVFile_acceptable : forall file content,
  text file = Some content -> ~ structurallyBad content ->
  readCSVFile file =
  Normal (parseRows Date_parse Date_now (headerNames content) 1
                    (tl (linesOf content))).
Proof.
  intros file content Ht Hc. unfold CSVFiles.readCSVFile. rewrite Ht.
  now rewrite (parseCSV_rows Date_parse Date_now content Hc).
Qed.

End FileImport.

(** X5.  [validateCSVFile] resolves, and then with [true], exactly for a
    file whose name ends in .csv in any letter case, whose size is at most
    10485760 bytes (a file of exactly that size passes), whose text can be
    read and is not structurally bad; it rejects a wrong extension before it
    looks at the size or the content.  Every file it accepts is read by
    [readCSVFile] without rejection, into the rows of [parseCSV]. *)
Theorem validateCSVFile_accepts_exactly :
  forall (Date_parse : string -> Date) (Date_now : nat -> Z) (file : File),
  (validateCSVFile Date_parse Date_now file = Normal true <-> acceptable file) /\
  (forall b, validateCSVFile Date_parse Date_now file = Normal b -> b = true) /\
  (endsWith (toLowerCase (name file)) ".csv" = false ->
   validateCSVFile Date_parse Date_now file = Throw "File must be a CSV file") /\
  (validateCSVFile Date_parse Date_now file = Normal true ->
   exists content,
     text file = Some content /\
     readCSVFile Date_parse Date_now file =
     Normal (parseRows Date_parse Date_now (headerNames content) 1
                       (tl (linesOf content)))).
Proof.
  intros parse now file.
  split.
  { split; [intros H; now apply (validateCSVFile_resolved parse now file true)
           |apply validateCSVFile_acceptable]. }
  split.
  { intros b H. now apply (validateCSVFile_resolved parse now file b). }
  split.
  { intros H. unfold validateCSVFile. now rewrite H. }
  intros H. apply validateCSVFile_resolved in H as (_ & _ & _ & content & Ht & Hc).
  exists content. split; [exact Ht|].
  now apply readCSVFile_acceptable.
Qed.

(** ** Export, then import *)

Lemma toLowerCase_append : forall s1 s2,
  toLowerCase (s1 ++ s2) = toLowerCase s1 ++ toLowerCase s2.
Proof.
  induction s1 as [|ch r IH]; intros s2; cbn; [reflexivity|now rewrite IH].
Qed.

Lemma endsWith_append : forall s1 s2, endsWith (s1 ++ s2) s2 = true.
Proof.
  induction s1 as [|ch r IH]; intros s2.
  - cbn [append]. destruct s2; cbn; [reflexivity|].
    now rewrite Ascii.eqb_refl, String.eqb_refl.
  - change (String ch r ++ s2) with (String ch (r ++ s2)).
    cbn [endsWith]. rewrite IH. apply orb_true_r.
Qed.

(** The name [downloadCSV] chooses by default passes the extension check of
    [validateCSVFile], whatever the date. *)
Lemma defaultFilename_csv : forall toISO today,
  endsWith (toLowerCase (defaultFilename toISO today)) ".csv" = true.
Proof.
  intros toISO today. unfold defaultFilename.
  rewrite <- append_assoc, toLowerCase_append.
  apply endsWith_append.
Qed.

(** X6.  A non-empty sequence of well-formed readings exported by
    [downloadCSV] under the default file name is accepted by
    [validateCSVFile] when the file is within the size limit, and
    [readCSVFile] reads it back into as many rows, with the same value,
    quantity, unit and mode. *)
Theorem export_then_import :
  forall (Date_toISOString : Z -> string) (Date_parse : string -> Date)
         (Date_now : nat -> Z) (readings : list Reading) (today bytes : Z),
  readings <> [] ->
  Forall (fun r => wellFormed Date_toISOString Date_parse r = true) readings ->
  (bytes <= sizeLimit)%Z ->
  exists download rows,
    downloadCSV Date_toISOString readings None today = Normal download /\
    fileName download = defaultFilename Date_toISOString today /\
    let file := mkFile (fileName download) bytes (Some (content download)) in
    validateCSVFile Date_parse Date_now file = Normal true /\
    readCSVFile Date_parse Date_now file = Normal rows /\
    List.length rows = List.length readings /\
    Forall2 sameFields readings rows.
Proof.
  intros toISO parse now rs today bytes Hne Hwf Hb.
  assert (F : Forall (Fields toISO parse) rs).
  { eapply Forall_impl; [|exact Hwf]. intros r. apply wellFormed_fields. }
  destruct (parseRows_rowText toISO parse now rs 1%nat F) as (out & E & L & S2).
  set (csv := headerLine ++ String LF (join (String LF "") (map (rowText toISO) rs))).
  exists (mkDownload (defaultFilename toISO today) csv), out.
  assert (P : parseCSV parse now csv = Normal out).
  { unfold csv. rewrite (parseCSV_text toISO parse now rs Hne F). now rewrite E. }
  split.
  { unfold downloadCSV.
    rewrite (generateCSV_text toISO parse rs Hne F). reflexivity. }
  split; [reflexivity|]. cbn [fileName content].
  split.
  { unfold validateCSVFile. cbn [name size text].
    rewrite defaultFilename_csv. cbn [negb].
    replace (10 * 1024 * 1024 <? bytes)%Z with false
      by (symmetry; apply Z.ltb_ge; unfold sizeLimit in Hb; lia).
    now rewrite P. }
  split; [|now split].
  unfold readCSVFile. cbn [text]. now rewrite P.
Qed.

Lemma export_then_import_witness :
  sampleReadings <> [] /\
  Forall (fun r => wellFormed ISO8601.toISOString ISO8601.parse r = true)
         sampleReadings /\
  (4096 <= sizeLimit)%Z /\
  exists download rows,
    downloadCSV ISO8601.toISOString sampleReadings None 1700000000123
      = Normal download /\
    fileName download = defaultFilename ISO8601.toISOString 1700000000123 /\
    let file := mkFile (fileName download) 4096 (Some (content download)) in
    validateCSVFile ISO8601.parse ISO8601.now file = Normal true /\
    readCSVFile ISO8601.parse ISO8601.now file = Normal rows /\
    List.length rows = List.length sampleReadings /\
    Forall2 sameFields sampleReadings rows.
Proof.
  split; [discriminate|].
  split; [repeat constructor|].
  split; [unfold sizeLimit; lia|].
  apply (export_then_import ISO8601.toISOString ISO8601.parse ISO8601.now
           sampleReadings 1700000000123 4096).
  - discriminate.
  - repeat constructor.
  - unfold sizeLimit. lia.
Defined.

End Files.

(* ================================================================== *)
(** * What the decoder can produce, and how it is scored *)
(* ================================================================== *)

Module Alphabet.

Import UseOpenCV OpenCVService.

(** ** A value without a minus sign always parses *)

Definition digitOrDot (ch : ascii) : bool := isDigit ch || Ascii.eqb ch ".".

Lemma cleaned_digitOrDot : forall raw,
  hasChar "-" raw = false ->
  allChars digitOrDot (filterChars isKept raw) = true.
Proof.
  induction raw as [|ch r IH]; [reflexivity|].
  cbn [hasChar filterChars]. intros H. apply orb_false_iff in H as [H1 H2].
  unfold isKept at 1. rewrite H1, orb_false_r.
  fold (digitOrDot ch). destruct (digitOrDot ch) eqn:D; [|now apply IH].
  cbn [allChars]. now rewrite D, IH.
Qed.

Lemma digitOrDot_leadingDot : forall s,
  allChars digitOrDot s = true -> allChars digitOrDot (leadingDot s) = true.
Proof.
  intros s H. rewrite Normalizer.leadingDot_spec.
  destruct (startsWithDot s); [|exact H]. exact H.
Qed.

(** Without a minus sign in the input, the normalized value starts with a
    digit. *)
Lemma normalized_starts_with_digit : forall raw,
  hasChar "-" raw = false ->
  exists ch r, formatReadingValue raw = String ch r /\ isDigit ch = true.
Proof.
  intros raw H. rewrite Normalizer.formatReadingValue_chain.
  set (cut := trailingDot (leadingDot (keepFirstDot (filterChars isKept raw)))).
  assert (A : allChars digitOrDot cut = true).
  { apply Normalizer.allChars_trailingDot, digitOrDot_leadingDot,
      Normalizer.allChars_keepFirstDot, cleaned_digitOrDot, H. }
  assert (L : startsWithDot cut = false).
  { apply Normalizer.startsWithDot_trailingDot,
      Normalizer.startsWithDot_leadingDot. }
  destruct cut as [|ch r].
  - exists "0"%char, "". now split.
  - cbn [allChars] in A. apply andb_true_iff in A as [A1 _].
    rewrite Normalizer.startsWithDot_eqb in L.
    unfold digitOrDot in A1. rewrite L, orb_false_r in A1.
    unfold Normalizer.orZero.
    destruct (String.eqb (String ch r) "" || String.eqb (String ch r) "-"
              || String.eqb (String ch r) ".").
    + exists "0"%char, "". now split.
    + exists ch, r. now split.
Qed.

Lemma digit_first_parses : forall ch r,
  isDigit ch = true -> parseFloat_isNaN (String ch r) = false.
Proof.
  intros ch r. destruct ch as [[] [] [] [] [] [] [] []]; intros H;
    first [discriminate H | reflexivity].
Qed.

(** X7.  For every raw value without a minus sign, the value
    [formatReadingValue] returns is read by [parseFloat] as a number: the
    validity test of [calculateConfidence] can fail only on a value that
    holds a minus sign. *)
Theorem formatReadingValue_parses_without_minus : forall raw,
  hasChar "-" raw = false ->
  parseFloat_isNaN (formatReadingValue raw) = false.
Proof.
  intros raw H.
  destruct (normalized_starts_with_digit raw H) as (ch & r & E & D).
  rewrite E. now apply digit_first_parses.
Qed.

Lemma formatReadingValue_parses_without_minus_witness :
  hasChar "-" "b.7..F" = false /\
  formatReadingValue "b.7..F" = "0.7" /\
  parseFloat_isNaN (formatReadingValue "b.7..F") = false.
Proof.
  split; [reflexivity|]. split; [reflexivity|].
  apply (formatReadingValue_parses_without_minus "b.7..F"). reflexivity.
Defined.

(** ** The characters of a decoded value *)

(** The characters of the table of [segmentsToDigit] and the sentinel. *)
Definition decoded (ch : ascii) : bool := hasChar ch "0123456789AbCdEF ?".

Lemma segmentsToDigit_decoded : forall s,
  allChars decoded (segmentsToDigit s) = true.
Proof. intros [[] [] [] [] [] [] []]; reflexivity. Qed.

Lemma allChars_append : forall p s1 s2,
  allChars p (s1 ++ s2) = allChars p s1 && allChars p s2.
Proof.
  intros p s1 s2. induction s1 as [|ch r IH]; cbn; [reflexivity|].
  now rewrite IH, andb_assoc.
Qed.

Lemma allChars_join : forall p l,
  Forall (fun s => allChars p s = true) l -> allChars p (join "" l) = true.
Proof.
  induction 1 as [|s rest Hs Hrest IH]; [reflexivity|].
  now rewrite Normalizer.join_empty_cons, allChars_append, Hs, IH.
Qed.

Lemma decoded_value : forall states,
  allChars decoded (join "" (map segmentsToDigit states)) = true.
Proof.
  intros states. apply allChars_join, Forall_map, Forall_forall.
  intros s _. apply segmentsToDigit_decoded.
Qed.

Lemma decoded_no_char : forall ch s,
  decoded ch = false -> allChars decoded s = true -> hasChar ch s = false.
Proof. intros ch s. apply Codec.allChars_hasChar. Qed.

(** X8.  On the string assembled from the decoded digits of a non-empty
    sequence of segment states, [calculateConfidence] always takes the
    boosted branch: the decoder never produces a minus sign, so the 0.7
    discount is out of reach. *)
Theorem calculateConfidence_boosts_decoded :
  forall (s : SegmentState) (rest : list SegmentState),
  let states := s :: rest in
  hasChar "-" (join "" (map segmentsToDigit states)) = false /\
  calculateConfidence states (join "" (map segmentsToDigit states))
  = Math_min
      (meanFloats (map (fun st => baseConfidence (activeCount st)) states)
       * 1.2)%float 1.0%float.
Proof.
  intros s rest states.
  assert (M : hasChar "-" (join "" (map segmentsToDigit states)) = false).
  { apply (decoded_no_char "-"); [reflexivity|apply decoded_value]. }
  split; [exact M|].
  rewrite Scorer.calculateConfidence_spec. unfold confidence_spec, states.
  rewrite <- Normalizer.formatReadingValue_spec.
  fold states. now rewrite (formatReadingValue_parses_without_minus _ M).
Qed.

(** X9.  Whatever the frame, every character of the value [processImage]
    returns is one of 0-9, A, b, C, d, E, F, the blank and the sentinel: the
    pipeline never reads a decimal point or a minus sign. *)
Theorem processImage_value_alphabet :
  forall (ImageData : Type)
         (cv_binarize : ImageData -> float -> Completion Mat)
         (cv_boundingRects : Mat -> Completion (list Rect))
         (h : Hook) (imageData : ImageData) (threshold : float),
  let result :=
    processImage ImageData cv_binarize cv_boundingRects h imageData threshold in
  allChars decoded (value result) = true /\
  hasChar "." (value result) = false /\
  hasChar "-" (value result) = false.
Proof.
  intros ImageData cvb cvr h i t result.
  assert (A : allChars decoded (value result) = true).
  { subst result. destruct (isReady h) eqn:R.
    2:{ unfold processImage. rewrite R. reflexivity. }
    destruct (preprocessImage ImageData cvb h i t) as [bin|] eqn:P.
    2:{ rewrite Pipeline.processImage_noDetection; [reflexivity|now left]. }
    destruct (detectDisplay cvr h (Some bin)) as [|r rest] eqn:D.
    { rewrite Pipeline.processImage_noDetection; [reflexivity|].
      right. now exists bin. }
    rewrite (Pipeline.processImage_regions ImageData cvb cvr h i t bin R P)
      by (rewrite D; discriminate).
    cbn [value]. rewrite <- (map_map (Pipeline.segmentsOf h bin) segmentsToDigit).
    apply decoded_value. }
  split; [exact A|].
  split; apply decoded_no_char; first [reflexivity | exact A].
Qed.

End Alphabet.

(* ================================================================== *)
(** * Cells: scores, black cells and the geometry of detected regions *)
(* ================================================================== *)

Module Cells.

Import UseOpenCV Extractor.

(** ** The score of a region *)

(** X10.  A region whose pattern is not in the table has between one and
    six lit segments, and its score is that count divided by 7: the floor
    0.1 of [Math.max] is never what is returned.  A recognized region scores
    0.9; the all-off cell is recognized, as the blank. *)
Theorem regionConfidence_unrecognized :
  forall s : SegmentState,
  (segmentsToDigit s = "?" ->
   (1 <= activeCount s <= 6)%nat /\
   regionConfidence (segmentsToDigit s) s
   = (Z2F (Z.of_nat (activeCount s)) / 7)%float) /\
  (segmentsToDigit s <> "?" ->
   regionConfidence (segmentsToDigit s) s = 0.9%float) /\
  regionConfidence (segmentsToDigit allOff) allOff = 0.9%float.
Proof.
  intros s. split; [|split].
  - revert s. intros [[] [] [] [] [] [] []]; vm_compute; intros H;
      first [discriminate H | (split; [split; repeat constructor|reflexivity])].
  - intros H. unfold regionConfidence.
    destruct (String.eqb_spec (segmentsToDigit s) "?"); [contradiction|reflexivity].
  - reflexivity.
Qed.

(** ** A cell without a white pixel *)

Lemma In_zrange : forall n i, In i (zrange n) -> (0 <= i < n)%Z.
Proof.
  intros n i H. unfold zrange in H. apply in_map_iff in H as (k & <- & Hk).
  apply in_seq in Hk. lia.
Qed.

Lemma filter_all_false : forall (A : Type) (p : A -> bool) (l : list A),
  (forall v, In v l -> p v = false) -> filter p l = [].
Proof.
  intros A p l. induction l as [|v rest IH]; intros H; [reflexivity|].
  cbn. rewrite (H v (or_introl eq_refl)). apply IH.
  intros w Hw. apply H. now right.
Qed.

Lemma whitePixelsIn_black : forall m rect,
  (forall i j, (y rect <= i < y rect + height rect)%Z ->
               (x rect <= j < x rect + width rect)%Z -> pixel m i j = 0%Z) ->
  whitePixelsIn m rect = 0%Z.
Proof.
  intros m rect H. unfold whitePixelsIn.
  rewrite filter_all_false; [reflexivity|].
  intros [i j] Hin. apply in_prod_iff in Hin as [Hi Hj].
  apply In_zrange in Hi, Hj. cbn [fst snd].
  rewrite H by lia. reflexivity.
Qed.

(** A ratio with no white pixel is not above the threshold, whatever the
    number of pixels. *)
Lemma zero_ratio_off : forall total : float,
  PrimFloat.ltb 0.3 (0 / total) = false.
Proof.
  intros total. rewrite ltb_spec, div_spec.
  change (Prim2SF 0) with (S754_zero false).
  unfold SF64div, SFdiv.
  destruct (Prim2SF total); vm_compute; reflexivity.
Qed.

Lemma lit_black : forall m rect pos,
  (forall i j, (y rect <= i < y rect + height rect)%Z ->
               (x rect <= j < x rect + width rect)%Z -> pixel m i j = 0%Z) ->
  lit m rect pos = false.
Proof.
  intros m rect pos H. unfold lit.
  destruct (segmentRect rect pos) as [seg|]; [|reflexivity].
  destruct (insideDigit rect seg) eqn:I; [|reflexivity].
  unfold insideDigit in I. rewrite !andb_true_iff, !Z.leb_le, !Z.ltb_lt in I.
  unfold whiteFraction. rewrite whitePixelsIn_black.
  - apply zero_ratio_off.
  - intros i j Hi Hj. cbn [absolute x y width height] in Hi, Hj.
    apply H; lia.
Qed.

(** X11.  A digit rectangle inside the image that holds no white pixel
    gives all seven segments off, whatever its size; it is decoded as the
    blank and scored 0.9 like a recognized digit. *)
Theorem analyzeSegments_black_cell :
  forall (binaryImage : Mat) (digitRect : Rect),
  inBounds binaryImage digitRect ->
  (forall i j,
     (y digitRect <= i < y digitRect + height digitRect)%Z ->
     (x digitRect <= j < x digitRect + width digitRect)%Z ->
     pixel binaryImage i j = 0%Z) ->
  let segs := analyzeSegments ready (Some binaryImage) (Some digitRect) in
  segs = allOff /\ segmentsToDigit segs = " " /\
  regionConfidence (segmentsToDigit segs) segs = 0.9%float.
Proof.
  intros m rect B H segs.
  assert (E : segs = allOff).
  { subst segs. rewrite (analyzeSegments_inBounds m rect B).
    now rewrite !lit_black. }
  rewrite E. repeat split; reflexivity.
Qed.

Lemma analyzeSegments_black_cell_witness :
  let black := mkMat 60 40 (fun _ _ => 0%Z) in
  let cell := mkRect 3 4 20 40 in
  inBounds black cell /\
  analyzeSegments ready (Some black) (Some cell) = allOff /\
  segmentsToDigit (analyzeSegments ready (Some black) (Some cell)) = " ".
Proof.
  intros black cell.
  assert (B : inBounds black cell) by (unfold inBounds; cbn; lia).
  destruct (analyzeSegments_black_cell black cell B (fun _ _ _ _ => eq_refl))
    as (E1 & E2 & _).
  split; [exact B|]. split; [exact E1|exact E2].
Defined.

(** ** The geometry of a retained rectangle *)

(** [f] holds on the [fuel] integers from [z] on. *)
Fixpoint from (fuel : nat) (z : Z) (f : Z -> bool) : bool :=
  match fuel with
  | O => true
  | S k => f z && from k (z + 1)%Z f
  end.

Lemma from_spec : forall fuel z f,
  from fuel z f = true ->
  forall k, (z <= k < z + Z.of_nat fuel)%Z -> f k = true.
Proof.
  induction fuel as [|n IH]; intros z f H k Hk; [lia|].
  cbn [from] in H. apply andb_true_iff in H as [H1 H2].
  destruct (Z.eq_dec k z) as [->|Hne]; [exact H1|].
  apply (IH (z + 1)%Z f H2). lia.
Qed.

(** The sides of the rectangles the filter can retain. *)
Definition boxed (W H : Z) : bool :=
  ((13 <=? W) && (W <=? 204) && (16 <=? H) && (H <=? 387))%Z.

Definition sizeCheck (W : Z) : bool :=
  from (Z.to_nat (49999 / W)) 1
       (fun H => implb (isDigitRegion (mkRect 0 0 W H)) (boxed W H)).

(** Every pair of positive sides with a product below 50000 is tried. *)
Lemma all_sizes : from (Z.to_nat 49999) 1 sizeCheck = true.
Proof. vm_compute. reflexivity. Qed.

Lemma retained_boxed : forall W H,
  (0 < W)%Z -> isDigitRegion (mkRect 0 0 W H) = true -> boxed W H = true.
Proof.
  intros W H HW R.
  assert (A : (500 < W * H /\ W * H < 50000)%Z).
  { unfold isDigitRegion, qualifies, rectArea in R. cbn [width height] in R.
    rewrite !andb_true_iff, !Z.ltb_lt in R. lia. }
  assert (HH : (0 < H)%Z) by nia.
  assert (W1 : sizeCheck W = true).
  { apply (from_spec _ _ _ all_sizes). nia. }
  unfold sizeCheck in W1.
  assert (H1 : (H <= 49999 / W)%Z) by (apply Z.div_le_lower_bound; lia).
  pose proof (from_spec _ _ _ W1 H) as P. cbv beta in P.
  rewrite R in P. cbn [implb] in P. apply P.
  rewrite Z2Nat.id by (apply Z.div_pos; lia). lia.
Qed.

Definition positions : list SegmentPos :=
  [pos_a; pos_b; pos_c; pos_d; pos_e; pos_f; pos_g].

(** The guard of a segment, split into its horizontal and vertical halves:
    the first depends on the width alone, the second on the height. *)
Definition horizontalOk (W : Z) (pos : SegmentPos) : bool :=
  match Math_floor (px pos * Z2F W), Math_floor (pw pos * Z2F W) with
  | Some sx, Some sw => ((0 <=? sx) && (0 <? sw) && (sx + sw <=? W))%Z
  | _, _ => false
  end.

Definition verticalOk (H : Z) (pos : SegmentPos) : bool :=
  match Math_floor (py pos * Z2F H), Math_floor (ph pos * Z2F H) with
  | Some sy, Some sh => ((0 <=? sy) && (0 <? sh) && (sy + sh <=? H))%Z
  | _, _ => false
  end.

Lemma all_widths :
  from 192 13 (fun W => forallb (horizontalOk W) positions) = true.
Proof. vm_compute. reflexivity. Qed.

Lemma all_heights :
  from 372 16 (fun H => forallb (verticalOk H) positions) = true.
Proof. vm_compute. reflexivity. Qed.

Lemma guard_halves : forall rect pos,
  horizontalOk (width rect) pos = true ->
  verticalOk (height rect) pos = true ->
  exists seg, segmentRect rect pos = Some seg /\ insideDigit rect seg = true.
Proof.
  intros rect pos Hh Hv. unfold horizontalOk in Hh. unfold verticalOk in Hv.
  unfold segmentRect.
  destruct (Math_floor (px pos * Z2F (width rect))) as [sx|]; [|discriminate Hh].
  destruct (Math_floor (pw pos * Z2F (width rect))) as [sw|]; [|discriminate Hh].
  destruct (Math_floor (py pos * Z2F (height rect))) as [sy|]; [|discriminate Hv].
  destruct (Math_floor (ph pos * Z2F (height rect))) as [sh|]; [|discriminate Hv].
  exists (mkRect sx sy sw sh). split; [reflexivity|].
  unfold insideDigit. cbn [x y width height].
  rewrite !andb_true_iff in Hh, Hv. rewrite !andb_true_iff. tauto.
Qed.

Lemma retained_inside : forall rect pos,
  (0 < width rect)%Z -> isDigitRegion rect = true -> In pos positions ->
  exists seg, segmentRect rect pos = Some seg /\ insideDigit rect seg = true.
Proof.
  intros rect pos HW R Hin.
  assert (B : boxed (width rect) (height rect) = true).
  { apply retained_boxed; [exact HW|]. now destruct rect. }
  unfold boxed in B. rewrite !andb_true_iff, !Z.leb_le in B.
  apply guard_halves.
  - pose proof (from_spec _ _ _ all_widths (width rect)) as P. cbv beta in P.
    apply (proj1 (forallb_forall _ _) (P ltac:(lia)) pos Hin).
  - pose proof (from_spec _ _ _ all_heights (height rect)) as P. cbv beta in P.
    apply (proj1 (forallb_forall _ _) (P ltac:(lia)) pos Hin).
Qed.

(** X12.  For every rectangle with a positive width that [detectDisplay]
    retains (area strictly between 500 and 50000, ratio strictly between 1.2
    and 3.0), the rectangle of each of the seven segments is not empty and
    lies inside the cell: in the pipeline the guard of [analyzeSegments]
    never forces a segment off, and inside the image every segment is
    decided by its white ratio alone.  The sides of such a rectangle are
    between 13 and 204 wide and between 16 and 387 high. *)
Theorem retained_region_segments_inside :
  forall (binaryImage : Mat) (digitRect : Rect),
  (0 < width digitRect)%Z ->
  isDigitRegion digitRect = true ->
  (13 <= width digitRect <= 204 /\ 16 <= height digitRect <= 387)%Z /\
  (forall pos, In pos positions ->
     exists seg, segmentRect digitRect pos = Some seg /\
                 insideDigit digitRect seg = true) /\
  (inBounds binaryImage digitRect ->
   forall proj pos, In (proj, pos) geometry ->
     exists seg, segmentRect digitRect pos = Some seg /\
       proj (analyzeSegments ready (Some binaryImage) (Some digitRect))
       = PrimFloat.ltb 0.3 (whiteFraction binaryImage digitRect seg)).
Proof.
  intros m rect HW R. split; [|split].
  - assert (B : boxed (width rect) (height rect) = true).
    { apply retained_boxed; [exact HW|]. now destruct rect. }
    unfold boxed in B. rewrite !andb_true_iff, !Z.leb_le in B. lia.
  - intros pos Hin. now apply retained_inside.
  - intros B proj pos Hin.
    assert (Hpos : In pos positions).
    { cbn in Hin. unfold positions.
      repeat (destruct Hin as [Hin|Hin];
              [injection Hin as _ <-; cbn; tauto|]).
      destruct Hin. }
    destruct (retained_inside rect pos HW R Hpos) as (seg & Hs & Hi).
    exists seg. split; [exact Hs|].
    rewrite (analyzeSegments_inBounds m rect B).
    assert (L : lit m rect pos
                = PrimFloat.ltb 0.3 (whiteFraction m rect seg)).
    { unfold lit. now rewrite Hs, Hi. }
    rewrite <- L. cbn in Hin.
    repeat (destruct Hin as [Hin|Hin];
            [injection Hin as <- <-; reflexivity|]).
    destruct Hin.
Qed.

Lemma retained_region_segments_inside_witness :
  let cell := mkRect 5 5 20 40 in
  (0 < width cell)%Z /\ isDigitRegion cell = true /\
  inBounds upperHalf cell /\
  (13 <= width cell <= 204 /\ 16 <= height cell <= 387)%Z /\
  exists seg, segmentRect cell pos_g = Some seg /\
    g (analyzeSegments ready (Some upperHalf) (Some cell))
    = PrimFloat.ltb 0.3 (whiteFraction upperHalf cell seg).
Proof.
  intros cell.
  assert (HW : (0 < width cell)%Z) by (cbn; lia).
  assert (R : isDigitRegion cell = true) by (vm_compute; reflexivity).
  assert (B : inBounds upperHalf cell) by (unfold inBounds; cbn; lia).
  destruct (retained_region_segments_inside upperHalf cell HW R)
    as (Hbox & _ & Hseg).
  split; [exact HW|]. split; [exact R|]. split; [exact B|].
  split; [exact Hbox|].
  apply (Hseg B g pos_g). cbn. tauto.
Defined.

End Cells.

(* ================================================================== *)
(** * Properties of the pixel loops *)
(* ================================================================== *)

Module Pixels.

Import OpenCVImage.

(** Induction over an array of RGBA bytes, one pixel at a time. *)
Lemma pixel_ind : forall P : list Z -> Prop,
  P [] -> (forall r, P [r]) -> (forall r g, P [r; g]) ->
  (forall r g b, P [r; g; b]) ->
  (forall r g b a rest, P rest -> P (r :: g :: b :: a :: rest)) ->
  forall pixels, P pixels.
Proof.
  intros P H0 H1 H2 H3 H4 pixels.
  assert (G : forall n l, (List.length l <= n)%nat -> P l).
  { induction n as [|n IH]; intros l Hl.
    - destruct l; [exact H0|cbn in Hl; lia].
    - destruct l as [|r [|g [|b [|a rest]]]]; auto.
      apply H4, IH. cbn in Hl. lia. }
  apply (G (List.length pixels)). lia.
Qed.

(** ** The contrast enhancement *)

Definition channelCheck (v : Z) : bool :=
  let w := enhanceChannel v in
  ((0 <=? w) && (w <=? 255) && (Z.abs (w - v) <=? 1)
   && implb (v <=? 128) (w <=? v) && implb (128 <=? v) (v <=? w)
   && (w <=? enhanceChannel (v + 1)))%Z.

Lemma all_channels : Cells.from 256 0 channelCheck = true.
Proof. vm_compute. reflexivity. Qed.

Lemma channel_facts : forall v,
  (0 <= v <= 255)%Z ->
  (0 <= enhanceChannel v <= 255 /\ Z.abs (enhanceChannel v - v) <= 1 /\
   (v <= 128 -> enhanceChannel v <= v) /\ (128 <= v -> v <= enhanceChannel v) /\
   enhanceChannel v <= enhanceChannel (v + 1))%Z.
Proof.
  intros v Hv.
  pose proof (Cells.from_spec _ _ _ all_channels v ltac:(lia)) as C.
  unfold channelCheck in C. cbv zeta in C.
  rewrite !andb_true_iff, !Z.leb_le in C.
  destruct C as [[[[[C1 C2] C3] C4] C5] C6].
  repeat split; try assumption.
  - intros H. apply Z.leb_le in H. rewrite H in C4. now apply Z.leb_le.
  - intros H. apply Z.leb_le in H. rewrite H in C5. now apply Z.leb_le.
Qed.

Lemma enhanceChannel_monotone : forall v w,
  (0 <= v <= w)%Z -> (w <= 255)%Z -> (enhanceChannel v <= enhanceChannel w)%Z.
Proof.
  intros v w Hv Hw.
  assert (G : forall n, (v + Z.of_nat n <= 255)%Z ->
                (enhanceChannel v <= enhanceChannel (v + Z.of_nat n))%Z).
  { induction n as [|n IH]; intros Hn.
    - rewrite Z.add_0_r. lia.
    - assert (S1 := channel_facts (v + Z.of_nat n)%Z ltac:(lia)).
      replace (v + Z.of_nat (S n))%Z with (v + Z.of_nat n + 1)%Z by lia.
      specialize (IH ltac:(lia)). lia. }
  replace w with (v + Z.of_nat (Z.to_nat (w - v)))%Z by lia.
  apply G. lia.
Qed.

(** What the loop does at index [k]: alpha stays, a colour channel is
    enhanced. *)
Lemma enhancePixels_nth : forall pixels k d,
  nth_error pixels k = Some d ->
  nth_error (enhancePixels pixels) k
  = Some (if (k mod 4 =? 3)%nat then d else enhanceChannel d).
Proof.
  intros pixels. induction pixels as [|r|r g|r g b|r g b a rest IH] using pixel_ind;
    intros k d H.
  - destruct k; discriminate H.
  - destruct k as [|[|k]]; cbn in H; try discriminate H.
    now injection H as <-.
  - destruct k as [|[|[|k]]]; cbn in H; try discriminate H;
      now injection H as <-.
  - destruct k as [|[|[|[|k]]]]; cbn in H; try discriminate H;
      now injection H as <-.
  - destruct k as [|[|[|[|k]]]]; cbn [nth_error enhancePixels] in *;
      try (now injection H as <-).
    rewrite (IH k d H).
    replace (S (S (S (S k)))) with (k + 1 * 4)%nat by lia.
    now rewrite Nat.Div0.mod_add.
Qed.

Lemma length_enhancePixels : forall pixels,
  List.length (enhancePixels pixels) = List.length pixels.
Proof.
  intros pixels.
  induction pixels as [|r|r g|r g b|r g b a rest IH] using pixel_ind;
    try reflexivity.
  cbn [enhancePixels List.length]. now rewrite IH.
Qed.

(** X13.  With its contrast of 1.5, [enhanceImageForDetection] moves no
    colour byte by more than one level: a byte stays within 0..255, moves
    away from 128 if it moves at all, and the order of two bytes is kept;
    the alpha bytes, the number of bytes, the width and the height are
    unchanged.  Without a 2d context the image is returned as it is. *)
Theorem enhanceImageForDetection_within_one :
  forall (context : option (ImageData -> list Z)) (imageData : ImageData),
  let out := enhanceImageForDetection context imageData in
  width out = width imageData /\ height out = height imageData /\
  (context = None -> out = imageData) /\
  (forall readBack, context = Some readBack ->
     List.length (data out) = List.length (readBack imageData) /\
     forall k d, nth_error (readBack imageData) k = Some d ->
       exists w, nth_error (data out) k = Some w /\
         ((k mod 4 = 3)%nat -> w = d) /\
         ((0 <= d <= 255)%Z ->
          (0 <= w <= 255 /\ Z.abs (w - d) <= 1 /\
           (d <= 128 -> w <= d) /\ (128 <= d -> d <= w))%Z)) /\
  (forall v w, (0 <= v <= w)%Z -> (w <= 255)%Z ->
     (enhanceChannel v <= enhanceChannel w)%Z).
Proof.
  intros context img out. subst out.
  split. { now destruct context. }
  split. { now destruct context. }
  split. { now intros ->. }
  split.
  { intros readBack ->. cbn [enhanceImageForDetection data].
    split; [apply length_enhancePixels|].
    intros k d H. rewrite (enhancePixels_nth _ k d H).
    eexists. split; [reflexivity|]. split.
    - intros M. now rewrite M.
    - intros Hd. destruct (k mod 4 =? 3)%nat; [lia|].
      pose proof (channel_facts d Hd). tauto. }
  apply enhanceChannel_monotone.
Qed.

(** ** The threshold of the OCR preprocessing *)

Import TesseractService.

Lemma binaryOf_binary : forall r g b,
  binaryOf r g b = 0%Z \/ binaryOf r g b = 255%Z.
Proof.
  intros r g b. unfold binaryOf.
  destruct (PrimFloat.ltb _ _); [now right|now left].
Qed.

Lemma binaryOf_fixed : forall r g b,
  binaryOf (binaryOf r g b) (binaryOf r g b) (binaryOf r g b) = binaryOf r g b.
Proof.
  intros r g b. destruct (binaryOf_binary r g b) as [-> | ->];
    vm_compute; reflexivity.
Qed.

Lemma binarizePixels_nth : forall pixels k d,
  nth_error pixels k = Some d ->
  exists w, nth_error (binarizePixels pixels) k = Some w /\
    (if (k mod 4 =? 3)%nat then w = d else w = 0%Z \/ w = 255%Z).
Proof.
  intros pixels. induction pixels as [|r|r g|r g b|r g b a rest IH] using pixel_ind;
    intros k d H.
  - destruct k; discriminate H.
  - destruct k as [|[|k]]; cbn in H; try discriminate H.
    eexists; split; [reflexivity|now left].
  - destruct k as [|[|[|k]]]; cbn in H; try discriminate H;
      (eexists; split; [reflexivity|now left]).
  - destruct k as [|[|[|[|k]]]]; cbn in H; try discriminate H;
      (eexists; split; [reflexivity|apply binaryOf_binary]).
  - destruct k as [|[|[|[|k]]]]; cbn [nth_error binarizePixels] in *.
    1-3: eexists; split; [reflexivity|apply binaryOf_binary].
    + injection H as <-. eexists; split; reflexivity.
    + destruct (IH k d H) as (w & E & W). exists w. split; [exact E|].
      replace (S (S (S (S k)))) with (k + 1 * 4)%nat by lia.
      now rewrite Nat.Div0.mod_add.
Qed.

(** X14.  The pixel loop of [preprocessForDigitalDisplay] writes pure
    black or pure white into every colour byte, the same into the three
    bytes of a pixel, and leaves alpha and the number of bytes unchanged;
    running it on its own output changes nothing. *)
Theorem binarizePixels_idempotent :
  forall pixels : list Z,
  binarizePixels (binarizePixels pixels) = binarizePixels pixels /\
  List.length (binarizePixels pixels) = List.length pixels /\
  (forall k d, nth_error pixels k = Some d ->
     exists w, nth_error (binarizePixels pixels) k = Some w /\
       (if (k mod 4 =? 3)%nat then w = d else w = 0%Z \/ w = 255%Z)) /\
  (forall r g b a rest,
     exists v, (v = 0%Z \/ v = 255%Z) /\
       binarizePixels (r :: g :: b :: a :: rest)
       = v :: v :: v :: a :: binarizePixels rest).
Proof.
  intros pixels. split; [|split; [|split]].
  - induction pixels as [|r|r g|r g b|r g b a rest IH] using pixel_ind;
      try reflexivity.
    + cbn [binarizePixels]. now rewrite binaryOf_fixed.
    + cbn [binarizePixels]. now rewrite binaryOf_fixed, IH.
  - induction pixels as [|r|r g|r g b|r g b a rest IH] using pixel_ind;
      try reflexivity.
    cbn [binarizePixels List.length]. now rewrite IH.
  - apply binarizePixels_nth.
  - intros r g b a rest. exists (binaryOf r g b).
    split; [apply binaryOf_binary|reflexivity].
Qed.

End Pixels.

(* ================================================================== *)
(** * Properties of the OCR reading path *)
(* ================================================================== *)

Module Ocr.

Import OpenCVService TesseractService.

(** The text after the whitespace removal and the five substitutions. *)
Definition ocrFix (text : string) : string :=
  replaceChars (oneOf "Bb") "8"
    (replaceChars (oneOf "Gg") "6"
       (replaceChars (oneOf "Ss") "5"
          (replaceChars (oneOf "Il|") "1"
             (replaceChars (oneOf "Oo") "0"
                (filterChars (fun ch => negb (isWhiteSpace ch)) text))))).

(** The five substitutions on one character. *)
Definition substitute (ch : ascii) : ascii :=
  let sub (p : ascii -> bool) (c : ascii) (x : ascii) := if p x then c else x in
  sub (oneOf "Bb") "8"%char
    (sub (oneOf "Gg") "6"%char
       (sub (oneOf "Ss") "5"%char
          (sub (oneOf "Il|") "1"%char (sub (oneOf "Oo") "0"%char ch)))).

(** The letters the substitutions rewrite. *)
Definition looksAlike (ch : ascii) : bool := oneOf "OoIl|SsGgBb" ch.

Lemma ocrFix_cons : forall ch r,
  ocrFix (String ch r)
  = if isWhiteSpace ch then ocrFix r else String (substitute ch) (ocrFix r).
Proof.
  intros ch r. unfold ocrFix. cbn [filterChars].
  destruct (isWhiteSpace ch); reflexivity.
Qed.

Lemma kept_untouched : forall ch,
  isKept ch = true -> isWhiteSpace ch = false /\ substitute ch = ch.
Proof.
  intros ch. destruct ch as [[] [] [] [] [] [] [] []];
    vm_compute; intros H; try discriminate H; split; reflexivity.
Qed.

Lemma substitute_digit_or_same : forall ch,
  if looksAlike ch then isDigit (substitute ch) = true else substitute ch = ch.
Proof.
  intros ch. destruct ch as [[] [] [] [] [] [] [] []]; vm_compute; reflexivity.
Qed.

Lemma whiteSpace_dropped : forall ch,
  isWhiteSpace ch = true -> isKept ch = false.
Proof.
  intros ch. destruct ch as [[] [] [] [] [] [] [] []];
    vm_compute; intros H; try discriminate H; reflexivity.
Qed.

Lemma ocrFix_kept : forall s, allChars isKept s = true -> ocrFix s = s.
Proof.
  induction s as [|ch r IH]; [reflexivity|].
  cbn [allChars]. intros H. apply andb_true_iff in H as [K R].
  rewrite ocrFix_cons. destruct (kept_untouched ch K) as [-> ->].
  now rewrite IH.
Qed.

Lemma ocrFix_plain : forall s,
  allChars (fun ch => negb (looksAlike ch)) s = true ->
  filterChars isKept (ocrFix s) = filterChars isKept s.
Proof.
  induction s as [|ch r IH]; [reflexivity|].
  cbn [allChars]. intros H. apply andb_true_iff in H as [L R].
  apply negb_true_iff in L.
  rewrite ocrFix_cons. cbn [filterChars].
  destruct (isWhiteSpace ch) eqn:W.
  - rewrite (whiteSpace_dropped ch W). now apply IH.
  - pose proof (substitute_digit_or_same ch) as S. rewrite L in S.
    cbn [filterChars]. rewrite S, IH by exact R. reflexivity.
Qed.

Lemma cleanDigitalReading_format : forall text,
  cleanDigitalReading text
  = if String.eqb text "" then "" else formatReadingValue (ocrFix text).
Proof.
  intros text. unfold cleanDigitalReading.
  destruct (String.eqb text ""); [reflexivity|].
  cbv zeta. fold (ocrFix text).
  unfold formatReadingValue.
  destruct (String.eqb (ocrFix text) "") eqn:E; [|reflexivity].
  apply String.eqb_eq in E. rewrite E. reflexivity.
Qed.

Lemma cleanDigitalReading_shape : forall text,
  cleanDigitalReading text = "" \/ Normalizer.isNormal (cleanDigitalReading text).
Proof.
  intros text. rewrite cleanDigitalReading_format.
  destruct (String.eqb text ""); [now left|right].
  apply Normalizer.formatReadingValue_isNormal.
Qed.

Lemma isNormal_not_empty : forall s, Normalizer.isNormal s -> s <> "".
Proof.
  intros s (_ & _ & _ & _ & Z) ->. discriminate Z.
Qed.

(** X15.  [cleanDigitalReading] is [formatReadingValue] applied after the
    whitespace removal and the look-alike substitutions, except that the
    empty text stays empty; its result is empty or a value
    [formatReadingValue] leaves alone, and cleaning twice is cleaning
    once. *)
Theorem cleanDigitalReading_idempotent : forall text : string,
  cleanDigitalReading text
  = (if String.eqb text "" then "" else formatReadingValue (ocrFix text)) /\
  (cleanDigitalReading text = "" \/
   formatReadingValue (cleanDigitalReading text) = cleanDigitalReading text) /\
  allChars isKept (cleanDigitalReading text) = true /\
  cleanDigitalReading (cleanDigitalReading text) = cleanDigitalReading text.
Proof.
  intros text. split; [apply cleanDigitalReading_format|].
  destruct (cleanDigitalReading_shape text) as [E | N].
  - rewrite E. repeat split; auto.
  - split; [right; now apply Normalizer.isNormal_fixed|].
    split; [apply N|].
    rewrite (cleanDigitalReading_format (cleanDigitalReading text)).
    destruct (String.eqb (cleanDigitalReading text) "") eqn:E.
    + apply String.eqb_eq in E. now apply isNormal_not_empty in N.
    + rewrite ocrFix_kept by apply N. now apply Normalizer.isNormal_fixed.
Qed.

(** X16.  On a non-empty text with none of the letters O, o, I, l, |, S, s,
    G, g, B, b, the OCR cleaner and the normalizer of the segment reader
    give the same value. *)
Theorem cleanDigitalReading_agrees_with_formatReadingValue :
  forall text : string,
  text <> "" ->
  allChars (fun ch => negb (looksAlike ch)) text = true ->
  cleanDigitalReading text = formatReadingValue text.
Proof.
  intros text Hne Hplain. rewrite cleanDigitalReading_format.
  destruct (String.eqb text "") eqn:E.
  - apply String.eqb_eq in E. contradiction.
  - rewrite !Normalizer.formatReadingValue_chain.
    now rewrite ocrFix_plain.
Qed.

Lemma cleanDigitalReading_agrees_with_formatReadingValue_witness :
  cleanDigitalReading " 12.5 V" = formatReadingValue " 12.5 V" /\
  cleanDigitalReading " 12.5 V" = "12.5".
Proof.
  split; [|reflexivity].
  apply (cleanDigitalReading_agrees_with_formatReadingValue " 12.5 V").
  - discriminate.
  - reflexivity.
Defined.

(** ** The valid characters *)

Lemma isDigitValid_char : forall ch,
  OpenCVImage.isDigitValid (String ch "") = isKept ch || Ascii.eqb ch " ".
Proof.
  intros ch. destruct ch as [[] [] [] [] [] [] [] []]; vm_compute; reflexivity.
Qed.

Lemma kept_chars_valid : forall s ch,
  allChars isKept s = true -> hasChar ch s = true ->
  OpenCVImage.isDigitValid (String ch "") = true.
Proof.
  intros s ch A H. rewrite isDigitValid_char.
  destruct (isKept ch) eqn:K; [reflexivity|].
  now rewrite (Codec.allChars_hasChar isKept ch s K A) in H.
Qed.

(** X17.  Every character of a value returned by [formatReadingValue] or by
    [cleanDigitalReading] passes [isDigitValid]; a single character passes
    [isDigitValid] exactly when it is a digit, '.', '-' or the space. *)
Theorem normalized_characters_are_valid : forall (raw : string) (ch : ascii),
  (hasChar ch (formatReadingValue raw) = true ->
   OpenCVImage.isDigitValid (String ch "") = true) /\
  (hasChar ch (cleanDigitalReading raw) = true ->
   OpenCVImage.isDigitValid (String ch "") = true) /\
  OpenCVImage.isDigitValid (String ch "") = isKept ch || Ascii.eqb ch " ".
Proof.
  intros raw ch. split; [|split].
  - apply kept_chars_valid, Normalizer.formatReadingValue_isNormal.
  - apply kept_chars_valid.
    destruct (cleanDigitalReading_shape raw) as [-> | N]; [reflexivity|apply N].
  - apply isDigitValid_char.
Qed.

(** ** The hook *)

Section Hook.

Variable ImageData : Type.
Variable recognize : ImageData -> Completion (string * float).

#[local] Abbreviation empty := (mkRecognition "" 0%float).
#[local] Abbreviation run := (hookProcessImage ImageData recognize).

Lemma run_cases : forall h imageData,
  run h imageData = empty \/
  exists service text c,
    serviceRef_current h = Some service /\ isReady h = true /\
    isInitialized service = true /\ worker service = true /\
    recognize imageData = Normal (text, c) /\
    run h imageData
    = mkRecognition (cleanDigitalReading (trim text)) (c / 100)%float.
Proof.
  intros h imageData. unfold hookProcessImage.
  destruct (serviceRef_current h) as [service|] eqn:S; [|now left].
  destruct (isReady h) eqn:R; [|now left]. cbn [negb].
  unfold processImage.
  destruct (isInitialized service) eqn:I; [|now left].
  destruct (worker service) eqn:W; [|now left]. cbn [negb orb].
  destruct (recognize imageData) as [[text c]|msg] eqn:Rec; [|now left].
  right. exists service, text, c. repeat split; try assumption; reflexivity.
Qed.

End Hook.

(** A recognition engine that reads a display with a look-alike letter and
    a unit, at 87 percent, and a hook that is ready. *)
Definition engine (_ : Datatypes.unit) : Completion (string * float) :=
  Normal (" 1O.5 V ", 87%float).
Definition readyHook : Hook := mkHook true (Some (mkService true true)).

(** X18.  The hook never fails.  When it is ready, its service is
    initialized and the recognition succeeds, it returns the cleaned,
    trimmed text as the value and a hundredth of the engine's confidence.
    When it is not ready, has no service, the service is not initialized or
    has no worker, or the recognition throws, it returns the empty value
    with confidence 0.  The value is always empty or a normalized reading,
    and the camera view shows it only after a successful recognition of a
    text that is not blank, when the value is not "0".  The engine that
    reads " 1O.5 V " at 87 gives "10.5" at 0.87, which is shown. *)
Theorem hookProcessImage_result :
  forall (ImageData : Type)
         (recognize : ImageData -> Completion (string * float))
         (h : Hook) (imageData : ImageData),
  let result := hookProcessImage ImageData recognize h imageData in
  (forall service text c,
     serviceRef_current h = Some service -> isReady h = true ->
     isInitialized service = true -> worker service = true ->
     recognize imageData = Normal (text, c) ->
     result = mkRecognition (cleanDigitalReading (trim text)) (c / 100)%float) /\
  (isReady h = false -> result = mkRecognition "" 0%float) /\
  (serviceRef_current h = None -> result = mkRecognition "" 0%float) /\
  (forall service, serviceRef_current h = Some service ->
     isInitialized service = false \/ worker service = false ->
     result = mkRecognition "" 0%float) /\
  (forall msg, recognize imageData = Throw msg ->
     result = mkRecognition "" 0%float) /\
  (result = mkRecognition "" 0%float \/
   exists service text c,
     serviceRef_current h = Some service /\ isReady h = true /\
     isInitialized service = true /\ worker service = true /\
     recognize imageData = Normal (text, c) /\
     result = mkRecognition (cleanDigitalReading (trim text)) (c / 100)%float) /\
  (value result = "" \/ formatReadingValue (value result) = value result) /\
  (shown result = true ->
   exists text c, recognize imageData = Normal (text, c) /\
     trim text <> "" /\
     value result = formatReadingValue (ocrFix (trim text)) /\
     value result <> "0") /\
  (let sample := hookProcessImage Datatypes.unit engine readyHook tt in
   sample = mkRecognition "10.5" 0.87%float /\ shown sample = true) /\
  hookProcessImage Datatypes.unit engine
    (mkHook true (Some (mkService true false))) tt
  = mkRecognition "" 0%float /\
  hookProcessImage Datatypes.unit engine
    (mkHook false (Some (mkService true true))) tt
  = mkRecognition "" 0%float.
Proof.
  intros ImageData recognize h imageData result.
  pose proof (run_cases ImageData recognize h imageData) as C.
  fold result in C.
  split.
  { intros service text c S R I W Rec. subst result.
    unfold hookProcessImage, processImage. now rewrite S, R, I, W, Rec. }
  split.
  { intros R. subst result. unfold hookProcessImage. rewrite R.
    now destruct (serviceRef_current h). }
  split.
  { intros S. subst result. unfold hookProcessImage. now rewrite S. }
  split.
  { intros service S Bad. subst result. unfold hookProcessImage, processImage.
    rewrite S. destruct (isReady h); [|reflexivity]. cbn [negb].
    destruct Bad as [-> | ->]; [reflexivity|].
    now destruct (isInitialized service). }
  split.
  { intros msg Rec. subst result. unfold hookProcessImage, processImage.
    destruct (serviceRef_current h) as [service|]; [|reflexivity].
    destruct (isReady h); [|reflexivity]. cbn [negb].
    destruct (negb (isInitialized service) || negb (worker service));
      [reflexivity|]. now rewrite Rec. }
  split; [exact C|].
  split; [|split].
  - destruct C as [E | (service & text & c & _ & _ & _ & _ & Rec & E)];
      rewrite E; cbn [value]; [now left|].
    destruct (cleanDigitalReading_shape (trim text)) as [Z | N];
      [now left|right; now apply Normalizer.isNormal_fixed].
  - destruct C as [E | (service & text & c & _ & _ & _ & _ & Rec & E)];
      rewrite E; cbn [value].
    + intros H. discriminate H.
    + unfold shown. cbn [value]. intros H.
      apply andb_true_iff in H as [H1 H2].
      apply negb_true_iff, String.eqb_neq in H1, H2.
      exists text, c. split; [exact Rec|].
      rewrite cleanDigitalReading_format in *.
      destruct (String.eqb (trim text) "") eqn:T.
      * contradiction.
      * apply String.eqb_neq in T. repeat split; assumption.
  - repeat split; vm_compute; reflexivity.
Qed.

End Ocr.
